(** * target-stitch: the message pipeline of [persiststitch/main.py]

    A shallow embedding of the pipeline that reads Singer messages
    (SCHEMA, RECORD, STATE), validates and transforms each record against
    the schema of its stream, pushes it to the Stitch client and prints
    the states the client reports as persisted.

    Decoded JSON documents are Python values ([pyval]).  Objects that the
    program creates ([json.loads], [copy.deepcopy]) live in a store of
    cells; a function that works on an object receives its location, and
    the in-place assignment [instance[property] = ...] of the validator
    is a write to the cell that holds the instance.  Exceptions are values
    of [pyexc]; a failing call returns [Raise e] together with the state
    reached when the exception was raised.

    The libraries the program imports are not part of the repository:
    - [strict_rfc3339.rfc3339_to_timestamp], the local time zone behind
      [datetime.fromtimestamp], the text of a [datetime], the clock of
      [time.time] and the keyword validators of [jsonschema] that only
      inspect an instance ([type], [required], [format], [enum], ...) are
      parameters;
    - the part of [jsonschema]'s [Draft4Validator] that walks a schema
      ([iter_errors], [descend], [validate] and the keywords [properties],
      [items] and [allOf]) is written out in [Module Jsonschema], because
      [set_defaults] of the source is plugged into that walk.  The
      keywords [anyOf], [oneOf], [not], [dependencies],
      [patternProperties], [additionalProperties], [additionalItems] and
      the resolution of [$ref] are not followed by the model: they stand
      among the validators that inspect an instance, whereas the library
      descends under them, and under [anyOf], [oneOf] and [not] it runs
      the validators of a subschema to their end, past their first
      error.  The resolution scope that [id] sets is left out as well.
      The facts on the order of the checks and of the coercion are
      stated for the schemas that keep to the keywords followed
      ([follows]).
    [stitch_client] is the one of [--dry-run], which returns the
    [DryRunClient] of the source; the branch that builds a client of
    the library [stitchclient] from the configuration file is left
    out.
    Numbers are Python ints; floats are left out. *)

From Stdlib Require Import ZArith List String Ascii Bool Lia Arith.
From Stdlib Require Import DecimalString.
Import ListNotations.

Set Warnings "-register-all".

Local Open Scope list_scope.
Local Open Scope string_scope.

(** ** Python values and exceptions *)

(** A decoded JSON document, plus the one non-JSON value the transform
    creates.  A character of a [string] stands for a code point below 256.
    A [dict] keeps its items in insertion order and never holds one key
    twice.  [VDatetime wall] is a [datetime] whose [tzinfo] is [tzutc()]
    and whose calendar fields read [wall]: the number of microseconds
    between 1970-01-01 00:00:00 and the date and time the fields show. *)
Inductive pyval : Type :=
| VNone
| VBool (b : bool)
| VInt (n : Z)
| VStr (s : string)
| VList (elems : list pyval)
| VDict (items : list (string * pyval))
| VDatetime (wall : Z).

(** [BuiltinError] stands for the exceptions raised by the interpreter and
    by the libraries (KeyError, TypeError, AttributeError,
    InvalidRFC3339Error, ...); [ValidationError] is the error a keyword
    validator of jsonschema yields, with its message, its [path] (the
    keys and indices that lead from the instance under validation to the
    value that was rejected) and its [instance] (that value);
    [PyException message context] is
    [Exception(message)] raised by the program, [context] being the
    exception that was being handled when it was raised (Python 3 sets
    [__context__] on every [raise] inside an [except] block). *)
Inductive pyexc : Type :=
| BuiltinError (name : string)
| ValidationError (message : string) (path : list pyval) (instance : pyval)
| PyException (message : string) (context : option pyexc).

Inductive result (A : Type) : Type :=
| Ok (a : A)
| Raise (e : pyexc).
Arguments Ok {A} a.
Arguments Raise {A} e.

Definition bind {A B : Type} (r : result A) (k : A -> result B) : result B :=
  match r with
  | Ok a => k a
  | Raise e => Raise e
  end.

Notation "x <- r ;; k" := (bind r (fun x => k))
  (at level 61, r at next level, right associativity).

Definition KeyError : pyexc := BuiltinError "KeyError".
Definition TypeError : pyexc := BuiltinError "TypeError".
Definition AttributeError : pyexc := BuiltinError "AttributeError".
Definition OverflowError : pyexc := BuiltinError "OverflowError".
Definition InvalidRFC3339Error : pyexc := BuiltinError "InvalidRFC3339Error".

Definition is_None (v : pyval) : bool :=
  match v with VNone => true | _ => false end.

Definition is_True (v : pyval) : bool :=
  match v with VBool true => true | _ => false end.

Definition is_dict (v : pyval) : bool :=
  match v with VDict _ => true | _ => false end.

Definition is_list (v : pyval) : bool :=
  match v with VList _ => true | _ => false end.

(** [v == s] for a string literal [s]. *)
Definition eq_str (v : pyval) (s : string) : bool :=
  match v with VStr t => String.eqb t s | _ => false end.

(** *** dict *)

Fixpoint dict_get (items : list (string * pyval)) (k : string) : option pyval :=
  match items with
  | [] => None
  | (k', v) :: rest => if String.eqb k' k then Some v else dict_get rest k
  end.

(** [d[k] = v]: an existing key keeps its place, a new key goes last. *)
Fixpoint dict_set (items : list (string * pyval)) (k : string) (v : pyval)
  : list (string * pyval) :=
  match items with
  | [] => [(k, v)]
  | (k', v') :: rest =>
      if String.eqb k' k then (k', v) :: rest else (k', v') :: dict_set rest k v
  end.

(** [s in t] for two strings. *)
Definition substring_of (s t : string) : bool :=
  match String.index 0 s t with Some _ => true | None => false end.

(** [k in o] for a string [k]. *)
Definition contains (k : string) (o : pyval) : result bool :=
  match o with
  | VDict items => Ok (match dict_get items k with Some _ => true | None => false end)
  | VList elems => Ok (existsb (fun x => eq_str x k) elems)
  | VStr s => Ok (substring_of k s)
  | _ => Raise TypeError
  end.

(** [o[k]] for a string [k]. *)
Definition getitem (o : pyval) (k : string) : result pyval :=
  match o with
  | VDict items =>
      match dict_get items k with
      | Some v => Ok v
      | None => Raise KeyError
      end
  | _ => Raise TypeError
  end.

(** [o[k] = v] for a string [k]. *)
Definition setitem (o : pyval) (k : string) (v : pyval) : result pyval :=
  match o with
  | VDict items => Ok (VDict (dict_set items k v))
  | _ => Raise TypeError
  end.

(** [o.items()]. *)
Definition dict_items (o : pyval) : result (list (string * pyval)) :=
  match o with
  | VDict items => Ok items
  | _ => Raise AttributeError
  end.

(** *** str and repr *)

Definition hex_digit (n : nat) : ascii :=
  nth n ["0"; "1"; "2"; "3"; "4"; "5"; "6"; "7"; "8"; "9";
         "a"; "b"; "c"; "d"; "e"; "f"]%char "0"%char.

Definition squote : ascii := "'"%char.
Definition dquote : ascii := ascii_of_nat 34.
Definition backslash : ascii := "\"%char.

(** The code points below 256 that [str.isprintable] rejects. *)
Definition unprintable (c : ascii) : bool :=
  let n := nat_of_ascii c in
  ((n <? 32) || (n =? 127) || ((128 <=? n) && (n <=? 160)) || (n =? 173))%nat.

Definition repr_char (quote c : ascii) : string :=
  if Ascii.eqb c backslash then String backslash (String backslash EmptyString)
  else if Ascii.eqb c quote then String backslash (String quote EmptyString)
  else if Ascii.eqb c (ascii_of_nat 9) then String backslash "t"
  else if Ascii.eqb c (ascii_of_nat 10) then String backslash "n"
  else if Ascii.eqb c (ascii_of_nat 13) then String backslash "r"
  else if unprintable c then
    String backslash
      (String "x" (String (hex_digit (nat_of_ascii c / 16)%nat)
                     (String (hex_digit (nat_of_ascii c mod 16)%nat) EmptyString)))
  else String c EmptyString.

Fixpoint has_char (c : ascii) (s : string) : bool :=
  match s with
  | EmptyString => false
  | String c' rest => Ascii.eqb c' c || has_char c rest
  end.

(** [repr] puts a string between single quotes, unless the string holds
    a single quote and no double quote. *)
Definition repr_quote (s : string) : ascii :=
  if has_char squote s && negb (has_char dquote s) then dquote else squote.

Fixpoint repr_chars (quote : ascii) (s : string) : string :=
  match s with
  | EmptyString => EmptyString
  | String c rest => repr_char quote c ++ repr_chars quote rest
  end.

Definition repr_str (s : string) : string :=
  let q := repr_quote s in
  String q (repr_chars q s ++ String q EmptyString).

Definition repr_int (n : Z) : string :=
  NilZero.string_of_int (Z.to_int n).

Definition newline : string := String (ascii_of_nat 10) EmptyString.

Fixpoint join (sep : string) (parts : list string) : string :=
  match parts with
  | [] => ""
  | [p] => p
  | p :: rest => p ++ sep ++ join sep rest
  end.

Section Text.

(** [repr] and [str] of a [datetime] (the standard library's). *)
Variable datetime_repr : Z -> string.
Variable datetime_str : Z -> string.

Fixpoint py_repr (v : pyval) : string :=
  match v with
  | VNone => "None"
  | VBool true => "True"
  | VBool false => "False"
  | VInt n => repr_int n
  | VStr s => repr_str s
  | VList elems => "[" ++ join ", " (map py_repr elems) ++ "]"
  | VDict items =>
      "{" ++ join ", " (map (fun kv => repr_str (fst kv) ++ ": " ++ py_repr (snd kv)) items)
          ++ "}"
  | VDatetime wall => datetime_repr wall
  end.

(** [str(v)], which is also what ["{}".format(v)] inserts. *)
Definition py_str (v : pyval) : string :=
  match v with
  | VStr s => s
  | VDatetime wall => datetime_str wall
  | _ => py_repr v
  end.

End Text.

(** ** Actions on a state *)

(** A call that works on a mutable state [S]: it returns a value or
    raises, and leaves the state as it is at that moment. *)
Definition action (S A : Type) : Type := S -> result A * S.

Definition ret {S A : Type} (a : A) : action S A := fun s => (Ok a, s).

Definition lift {S A : Type} (r : result A) : action S A := fun s => (r, s).

Definition and_then {S A B : Type} (m : action S A) (k : A -> action S B)
  : action S B :=
  fun s =>
    match m s with
    | (Ok a, s') => k a s'
    | (Raise e, s') => (Raise e, s')
    end.

Notation "x <~ m ;; k" := (and_then m (fun x => k))
  (at level 61, m at next level, right associativity).

(** [for x in l: body(x)]. *)
Fixpoint for_each {S A : Type} (body : A -> action S unit) (l : list A)
  : action S unit :=
  match l with
  | [] => ret tt
  | x :: rest => and_then (body x) (fun _ => for_each body rest)
  end.

(** A keyword validator of jsonschema is a generator that may assign into
    the instance it is handed.  [validate] raises the first error the
    generator yields and does not resume it, and an exception raised
    inside the generator ends it as well; so a validator is run up to its
    first error: it returns [Raise e] for the first error it yields or
    raises ([Ok tt] when it is exhausted without one) and leaves the
    instance as it is at that moment. *)
Definition inplace (A : Type) : Type := action pyval A.

(** The instance after the object under key [k] has been worked on in
    place and has become [child]. *)
Definition with_child (inst : pyval) (k : string) (child : pyval) : pyval :=
  match inst with
  | VDict items => VDict (dict_set items k child)
  | _ => inst
  end.

Module Jsonschema.

(** The classes of validators: the library's [Draft4Validator] and the
    class that [validators.extend] makes of it with another
    [properties] validator. *)
Inductive validator_class : Type :=
| Draft4Validator
| Extended.

(** [error.path.appendleft(path)], which [descend] does to every error
    that the validation of a child yields, when it is called with the
    [path] of the child; an exception that is raised goes through as it
    is. *)
Definition add_path (step : pyval) (e : pyexc) : pyexc :=
  match e with
  | ValidationError message path instance =>
      ValidationError message (step :: path) instance
  | _ => e
  end.

Definition at_path (step : pyval) (r : result unit) : result unit :=
  match r with
  | Ok a => Ok a
  | Raise e => Raise (add_path step e)
  end.

Section Draft4.

(** [validator.descend(instance, schema)], before the path is added. *)
Variable descend : pyval -> inplace unit.

(** The body of the loop of [properties_draft4], for one item of
    [properties]. *)
Definition descend_property (ps : string * pyval) : inplace unit :=
  fun inst =>
    let '(property, subschema) := ps in
    match contains property inst with
    | Ok true =>
        match getitem inst property with
        | Ok child =>
            let '(r, child') := descend subschema child in
            (at_path (VStr property) r, with_child inst property child')
        | Raise e => (Raise e, inst)
        end
    | Ok false => (Ok tt, inst)
    | Raise e => (Raise e, inst)
    end.

(** [properties_draft4]. *)
Definition properties_draft4 (properties instance schema : pyval)
  : result unit * pyval :=
  if is_dict instance then
    match properties with
    | VDict props => for_each descend_property props instance
    | _ => (Raise AttributeError, instance)
    end
  else (Ok tt, instance).

(** [descend] on the elements of an array, one after the other, from
    the element at [index] on; the index is the path of the element. *)
Fixpoint each_item (subschema : pyval) (index : Z) (elems : list pyval)
  : result unit * list pyval :=
  match elems with
  | [] => (Ok tt, [])
  | item :: rest =>
      match descend subschema item with
      | (Ok _, item') =>
          let '(r, rest') := each_item subschema (index + 1) rest in
          (r, item' :: rest')
      | (Raise e, item') => (Raise (add_path (VInt index) e), item' :: rest)
      end
  end.

Fixpoint zip_items (subschemas : list pyval) (index : Z) (elems : list pyval)
    {struct subschemas} : result unit * list pyval :=
  match subschemas, elems with
  | subschema :: subschemas', item :: rest =>
      match descend subschema item with
      | (Ok _, item') =>
          let '(r, rest') := zip_items subschemas' (index + 1) rest in
          (r, item' :: rest')
      | (Raise e, item') => (Raise (add_path (VInt index) e), item' :: rest)
      end
  | _, _ => (Ok tt, elems)
  end.

(** [items] of draft 4. *)
Definition items_draft4 (items instance schema : pyval) : result unit * pyval :=
  match instance with
  | VList elems =>
      match items with
      | VDict _ =>
          let '(r, elems') := each_item items 0 elems in (r, VList elems')
      | VList subschemas =>
          let '(r, elems') := zip_items subschemas 0 elems in (r, VList elems')
      | VStr s =>
          match elems, s with
          | _ :: _, String _ _ => (Raise AttributeError, instance)
          | _, _ => (Ok tt, instance)
          end
      | _ => (Raise TypeError, instance)
      end
  | _ => (Ok tt, instance)
  end.

(** [allOf_draft4]. *)
Definition allOf_draft4 (allOf instance schema : pyval) : result unit * pyval :=
  match allOf with
  | VList subschemas => for_each (fun subschema => descend subschema) subschemas instance
  | VDict [] | VStr EmptyString => (Ok tt, instance)
  | VDict _ | VStr _ => (Raise AttributeError, instance)
  | _ => (Raise TypeError, instance)
  end.

End Draft4.

End Jsonschema.

Import Jsonschema.

(** ** The store of objects *)

(** Every object built by [json.loads] or [copy.deepcopy] is a document
    of its own: it gets a cell, and its location is its identity. *)
Definition loc : Type := nat.
Definition heap : Type := list pyval.

Definition deref (h : heap) (l : loc) : pyval := nth l h VNone.

Definition alloc (v : pyval) : action heap loc :=
  fun h => (Ok (List.length h), (h ++ [v])%list).

Fixpoint store (h : heap) (l : loc) (v : pyval) : heap :=
  match h, l with
  | [], _ => []
  | _ :: rest, O => v :: rest
  | x :: rest, S l' => x :: store rest l' v
  end.

(** A call that works in place on the object at [l]. *)
Definition at_loc {A : Type} (l : loc) (m : inplace A) : action heap A :=
  fun h => let '(r, v) := m (deref h l) in (r, store h l v).

(** [copy.deepcopy(v)]: a new object, equal to [v]. *)
Definition deepcopy (v : pyval) : action heap loc := alloc v.

(** [try: body except: handler(e)]. *)
Definition try_except {S A : Type} (body : action S A) (handler : pyexc -> action S A)
  : action S A :=
  fun s =>
    match body s with
    | (Ok a, s') => (Ok a, s')
    | (Raise e, s') => handler e s'
    end.

(** ** The schema registry: the dict [schemas] *)

(** The keys are whatever [o['stream']] holds.  Lists and dicts cannot be
    hashed; [True] and [1], [False] and [0] are the same key. *)
Definition hashable (v : pyval) : bool :=
  match v with
  | VList _ | VDict _ => false
  | _ => true
  end.

Definition as_number (v : pyval) : option Z :=
  match v with
  | VBool b => Some (if b then 1 else 0)%Z
  | VInt n => Some n
  | _ => None
  end.

Definition key_eqb (a b : pyval) : bool :=
  match a, b with
  | VNone, VNone => true
  | VStr s, VStr t => String.eqb s t
  | VDatetime x, VDatetime y => Z.eqb x y
  | _, _ =>
      match as_number a, as_number b with
      | Some x, Some y => Z.eqb x y
      | _, _ => false
      end
  end.

Definition registry : Type := list (pyval * pyval).

Fixpoint registry_get (schemas : registry) (k : pyval) : option pyval :=
  match schemas with
  | [] => None
  | (k', v) :: rest => if key_eqb k' k then Some v else registry_get rest k
  end.

Fixpoint registry_set (schemas : registry) (k v : pyval) : registry :=
  match schemas with
  | [] => [(k, v)]
  | (k', v') :: rest =>
      if key_eqb k' k then (k', v) :: rest else (k', v') :: registry_set rest k v
  end.

(** [k in schemas]. *)
Definition in_registry (k : pyval) (schemas : registry) : result bool :=
  if hashable k then
    Ok (match registry_get schemas k with Some _ => true | None => false end)
  else Raise TypeError.

(** [schemas[k]]. *)
Definition registry_getitem (schemas : registry) (k : pyval) : result pyval :=
  if hashable k then
    match registry_get schemas k with
    | Some v => Ok v
    | None => Raise KeyError
    end
  else Raise TypeError.

(** [schemas[k] = v]. *)
Definition registry_setitem (schemas : registry) (k v : pyval) : result registry :=
  if hashable k then Ok (registry_set schemas k v) else Raise TypeError.

(** ** What the run does to the outside *)

(** The calls of [stitchclient.push], the calls the client makes to its
    callback function, and the texts written to standard output, in the
    order in which they happen. *)
Inductive event : Type :=
| Push (message callback_arg : pyval)
| Callback (states : list pyval)
| Stdout (text : string).

(** ** [DryRunClient] *)

Module DryRunClient.

Record t : Type := new {
  callback_function : list pyval -> list event;
  pending_callback_args : list pyval
}.

Definition init (callback_function : list pyval -> list event) : t :=
  new callback_function [].

(** [flush]: the events of the call, and [self] after it. *)
Definition flush (self : t) : list event * t :=
  (Callback (pending_callback_args self)
     :: callback_function self (pending_callback_args self),
   new (callback_function self) []).

Definition push (self : t) (message callback_arg : pyval) : list event * t :=
  let self' :=
    new (callback_function self) (pending_callback_args self ++ [callback_arg])%list in
  if (List.length (pending_callback_args self') mod 100 =? 0)%nat then
    let '(events, self'') := flush self' in (Push message callback_arg :: events, self'')
  else ([Push message callback_arg], self').

(** [__exit__]. *)
Definition exit (self : t) : list event * t := flush self.

End DryRunClient.

(** ** The transform: [extend_with_default] and [parse_record] *)

(** The range of [datetime]: years 1 to 9999. *)
Definition datetime_min : Z := (-62135596800000000)%Z.
Definition datetime_max : Z := 253402300799999999%Z.

(** What a keyword validator that only inspects the instance does first:
    it is exhausted without an error, or it yields a [ValidationError],
    or it raises an exception of the library or of the interpreter. *)
Inductive verdict : Type :=
| Valid
| Invalid (message : string)
| Fails (exception_name : string).

(** The error that [iter_errors] makes of a verdict on [instance]: it
    sets the instance of the error, whose path is empty at first. *)
Definition result_of_verdict (instance : pyval) (v : verdict) : result unit :=
  match v with
  | Valid => Ok tt
  | Invalid message => Raise (ValidationError message [] instance)
  | Fails name => Raise (BuiltinError name)
  end.

(** What the run takes from the libraries and from the platform. *)
Record Libraries : Type := mkLibraries {
  (** [repr] and [str] of a [datetime]. *)
  datetime_repr : Z -> string;
  datetime_str : Z -> string;
  (** [strict_rfc3339.rfc3339_to_timestamp] on a string: the POSIX
      timestamp, counted in microseconds; [None] when the library raises
      [InvalidRFC3339Error]. *)
  rfc3339_to_timestamp : string -> option Z;
  (** The offset of the local time zone of the process at a timestamp:
      local time minus UTC, in microseconds. *)
  local_utcoffset : Z -> Z;
  (** The keyword validators of [Draft4Validator.VALIDATORS] that inspect
      the instance without descending into it, called with the keyword's
      value, the instance and the schema. *)
  leaf_validators : string -> option (pyval -> pyval -> pyval -> verdict);
  (** [int(time.time() * 1000)], at the n-th reading of the clock. *)
  time_ms : nat -> Z
}.

Section Pipeline.

Variable lib : Libraries.

(** [str(v)]. *)
Definition str (v : pyval) : string :=
  py_str (datetime_repr lib) (datetime_str lib) v.

(** [datetime.fromtimestamp(ts)] without [tz]: the naive local date and
    time, given by what its fields read.  To find out whether the local
    time is in a fold, CPython also works out the local date and time of
    the instant one day before, and raises [ValueError] when either of
    the two is outside the years 1 to 9999. *)
Definition max_fold_seconds : Z := 86400000000%Z.

Definition fromtimestamp (ts : Z) : result Z :=
  let wall := (ts + local_utcoffset lib ts)%Z in
  let probe := (ts - max_fold_seconds + local_utcoffset lib (ts - max_fold_seconds))%Z in
  if ((datetime_min <=? wall) && (wall <=? datetime_max)
      && (datetime_min <=? probe) && (probe <=? datetime_max))%Z
  then Ok wall
  else Raise (BuiltinError "ValueError").

(** [datetime.fromtimestamp(rfc3339_to_timestamp(v)).replace(tzinfo=tz.tzutc())]:
    [replace] keeps the fields and sets the time zone. *)
Definition to_datetime (v : pyval) : result pyval :=
  match v with
  | VStr s =>
      match rfc3339_to_timestamp lib s with
      | Some ts => wall <- fromtimestamp ts ;; Ok (VDatetime wall)
      | None => Raise InvalidRFC3339Error
      end
  | _ => Raise TypeError
  end.

(** The body of the second loop of [set_defaults], for one item of
    [properties]. *)
Definition set_default (property : string) (subschema : pyval) : inplace unit :=
  has_format <~ lift (contains "format" subschema) ;;
  if has_format : bool then
    format <~ lift (getitem subschema "format") ;;
    if eq_str format "date-time" then
      present <~ (fun instance => (contains property instance, instance)) ;;
      if present : bool then
        value <~ (fun instance => (getitem instance property, instance)) ;;
        if is_None value then ret tt
        else
          match to_datetime value with
          | Ok dt => fun instance =>
              match setitem instance property dt with
              | Ok instance' => (Ok tt, instance')
              | Raise e => (Raise e, instance)
              end
          | Raise e =>
              lift (Raise (PyException
                             ("Error parsing property " ++ property ++ ", value "
                             ++ str value)
                             (Some e)))
          end
      else ret tt
    else ret tt
  else ret tt.

(** [set_defaults], closed over [validate_properties]. *)
Definition set_defaults
    (validate_properties : pyval -> pyval -> pyval -> result unit * pyval)
    (properties instance schema : pyval) : result unit * pyval :=
  match validate_properties properties instance schema with
  | (Raise error, instance') => (Raise error, instance')
  | (Ok _, instance') =>
      match dict_items properties with
      | Ok props =>
          for_each (fun ps => set_default (fst ps) (snd ps)) props instance'
      | Raise e => (Raise e, instance')
      end
  end.

(** [VALIDATORS["properties"]] of a class: [extend_with_default]
    replaces the entry of [Draft4Validator] by [set_defaults]. *)
Definition VALIDATORS_properties (cls : validator_class)
    (descend : pyval -> inplace unit)
  : pyval -> pyval -> pyval -> result unit * pyval :=
  match cls with
  | Draft4Validator => properties_draft4 descend
  | Extended => set_defaults (properties_draft4 descend)
  end.

Definition extend_with_default (base : validator_class) : validator_class :=
  Extended.

(** [ref = _schema.get("$ref")], when it is not [None]. *)
Definition schema_ref (keywords : list (string * pyval)) : option pyval :=
  match dict_get keywords "$ref" with
  | Some VNone => None
  | r => r
  end.

Definition leaf (k : string) (v instance schema : pyval) : result unit :=
  match leaf_validators lib k with
  | Some validator => result_of_verdict instance (validator v instance schema)
  | None => Ok tt
  end.

(** The call of the validator that [VALIDATORS] holds for a keyword, in
    the loop of [iter_errors]; a keyword that is not in [VALIDATORS] is
    passed over. *)
Definition call_validator (cls : validator_class) (descend : pyval -> inplace unit)
    (schema : pyval) (kv : string * pyval) : inplace unit :=
  fun inst =>
    let '(k, v) := kv in
    if String.eqb k "properties" then
      VALIDATORS_properties cls descend v inst schema
    else if String.eqb k "items" then items_draft4 descend v inst schema
    else if String.eqb k "allOf" then allOf_draft4 descend v inst schema
    else (leaf k v inst schema, inst).

(** [iter_errors] of jsonschema, for either class: the keywords of the
    schema in the order of the dict, each looked up in [VALIDATORS]; a
    schema that holds [$ref] is checked for that keyword alone. *)
Fixpoint iter_errors (cls : validator_class) (schema : pyval) (instance : pyval)
    {struct schema} : result unit * pyval :=
  match schema with
  | VDict keywords =>
      match schema_ref keywords with
      | Some ref => (leaf "$ref" ref instance schema, instance)
      | None =>
          for_each (call_validator cls (iter_errors cls) schema) keywords instance
      end
  | _ => (Raise AttributeError, instance)
  end.

(** [cls(schema, format_checker=FormatChecker()).validate(instance)]. *)
Definition validate (cls : validator_class) (schema : pyval) : inplace unit :=
  iter_errors cls schema.


(** [parse_key_fields]. *)
Definition parse_key_fields (stream_name : pyval) (schemas : registry)
  : result (list string) :=
  known <- in_registry stream_name schemas ;;
  if known : bool then
    schema <- registry_getitem schemas stream_name ;;
    has_properties <- contains "properties" schema ;;
    if has_properties : bool then
      properties <- getitem schema "properties" ;;
      items <- dict_items properties ;;
      fold_right
        (fun kv rest =>
           has_key <- contains "key" (snd kv) ;;
           keep <- (if has_key : bool
                    then (key <- getitem (snd kv) "key" ;; Ok (is_True key))
                    else Ok false) ;;
           tail <- rest ;;
           Ok (if keep : bool then fst kv :: tail else tail))
        (Ok []) items
    else Ok []
  else Ok [].

(** [parse_record]: [full_record] is the decoded message, an object of
    the store; the result is the location of the transformed copy. *)
Definition parse_record (full_record : loc) (schemas : registry) : action heap loc :=
  try_except
    (stream_name <~ (fun h => (getitem (deref h full_record) "stream", h)) ;;
     known <~ lift (in_registry stream_name schemas) ;;
     schema <~ lift (if known : bool then registry_getitem schemas stream_name
                     else Ok (VDict [])) ;;
     record <~ (fun h => (getitem (deref h full_record) "record", h)) ;;
     o <~ deepcopy record ;;
     let v := extend_with_default Draft4Validator in
     _ <~ at_loc o (validate v schema) ;;
     ret o)
    (fun e h =>
       (Raise (PyException
                 ("Error parsing record "
                  ++ str (deref h full_record))
                 (Some e)), h)).

(** ** The driver: [push_state], [persist_lines], [do_sync] *)

(** [push_state]: what the call writes. *)
Definition push_state (states : list pyval) : list event :=
  flat_map
    (fun state =>
       if is_None state then []
       else [Stdout (str state ++ newline)])
    states.

(** Everything the run can change, besides the local variables of
    [persist_lines]. *)
Record world : Type := mkWorld {
  objects : heap;
  stitchclient : DryRunClient.t;
  events : list event;
  clock_readings : nat
}.

Definition on_heap {A : Type} (m : action heap A) : action world A :=
  fun w =>
    let '(r, h) := m (objects w) in
    (r, mkWorld h (stitchclient w) (events w) (clock_readings w)).

Definition emit (new_events : list event) (w : world) : world :=
  mkWorld (objects w) (stitchclient w) (events w ++ new_events)%list (clock_readings w).

(** [stitchclient.push(message, callback_arg)]. *)
Definition client_push (message callback_arg : pyval) : action world unit :=
  fun w =>
    let '(new_events, client) := DryRunClient.push (stitchclient w) message callback_arg in
    (Ok tt, emit new_events (mkWorld (objects w) client (events w) (clock_readings w))).

(** [stitchclient.__exit__(...)]. *)
Definition client_exit : action world unit :=
  fun w =>
    let '(new_events, client) := DryRunClient.exit (stitchclient w) in
    (Ok tt, emit new_events (mkWorld (objects w) client (events w) (clock_readings w))).

(** [int(time.time() * 1000)]. *)
Definition read_clock : action world Z :=
  fun w =>
    (Ok (time_ms lib (clock_readings w)),
     mkWorld (objects w) (stitchclient w) (events w) (S (clock_readings w))).

(** [o[k]] for the object at [o]. *)
Definition subscript (o : loc) (k : string) : action world pyval :=
  fun w => (getitem (deref (objects w) o) k, w).

(** The local variables of [persist_lines]. *)
Record locals : Type := mkLocals {
  state : pyval;
  schemas : registry
}.

Definition in_world {A : Type} (m : action world A) : action (locals * world) A :=
  fun s => let '(r, w) := m (snd s) in (r, (fst s, w)).

Definition get_locals : action (locals * world) locals :=
  fun s => (Ok (fst s), s).

Definition set_locals (l : locals) : action (locals * world) unit :=
  fun s => (Ok tt, (l, snd s)).

(** The body of the loop of [persist_lines], for one line; [line] is the
    document that [json.loads] decodes. *)
Definition process_line (line : pyval) : action (locals * world) unit :=
  o <~ in_world (on_heap (alloc line)) ;;
  type <~ in_world (subscript o "type") ;;
  vars <~ get_locals ;;
  if eq_str type "RECORD" then
    table_name <~ in_world (subscript o "stream") ;;
    stream <~ in_world (subscript o "stream") ;;
    key_names <~ lift (parse_key_fields stream (schemas vars)) ;;
    sequence <~ in_world read_clock ;;
    data <~ in_world (on_heap (parse_record o (schemas vars))) ;;
    data_value <~ in_world (fun w => (Ok (deref (objects w) data), w)) ;;
    let message :=
      VDict [("action", VStr "upsert");
             ("table_name", table_name);
             ("key_names", VList (map VStr key_names));
             ("sequence", VInt sequence);
             ("data", data_value)] in
    _ <~ in_world (client_push message (state vars)) ;;
    set_locals (mkLocals VNone (schemas vars))
  else if eq_str type "STATE" then
    _ <~ in_world (subscript o "value") ;;
    value <~ in_world (subscript o "value") ;;
    set_locals (mkLocals value (schemas vars))
  else if eq_str type "SCHEMA" then
    schema <~ in_world (subscript o "schema") ;;
    stream <~ in_world (subscript o "stream") ;;
    schemas' <~ lift (registry_setitem (schemas vars) stream schema) ;;
    set_locals (mkLocals (state vars) schemas')
  else
    type' <~ in_world (subscript o "type") ;;
    o_value <~ in_world (fun w => (Ok (deref (objects w) o), w)) ;;
    lift (Raise (PyException
                   ("Unknown message type " ++ str type'
                    ++ " in message " ++ str o_value)
                   None)).

(** The loop of [persist_lines], with the local variables in view. *)
Definition persist_loop (lines : list pyval) : action (locals * world) unit :=
  for_each process_line lines.

(** [persist_lines(stitchclient, lines)]; the client is the one of the
    world. *)
Definition persist_lines (lines : list pyval) : action world pyval :=
  fun w =>
    match persist_loop lines (mkLocals VNone [], w) with
    | (Ok _, (vars, w')) => (Ok (state vars), w')
    | (Raise e, (_, w')) => (Raise e, w')
    end.

(** [stitch_client(args)] with [--dry-run]. *)
Definition stitch_client : DryRunClient.t := DryRunClient.init push_state.

(** [do_sync(args)] with [--dry-run], on the lines of standard input.
    The [with] statement calls [__exit__] on the way out, whether
    [persist_lines] returned or raised. *)
Definition enter (w0 : world) : world :=
  mkWorld (objects w0) stitch_client (events w0) (clock_readings w0).

Definition do_sync (lines : list pyval) : action world unit :=
  fun w0 =>
    match persist_lines lines (enter w0) with
    | (Ok state, w1) =>
        let '(_, w2) := client_exit w1 in
        if is_None state then (Ok tt, w2)
        else (Ok tt, emit [Stdout (str state ++ newline)] w2)
    | (Raise e, w1) =>
        let '(_, w2) := client_exit w1 in (Raise e, w2)
    end.

End Pipeline.

(** ** JSON texts *)

(** A recogniser of the JSON texts of RFC 8259. *)
Module Json.

Definition is_ws (c : ascii) : bool :=
  let n := nat_of_ascii c in
  ((n =? 32) || (n =? 9) || (n =? 10) || (n =? 13))%nat.

Definition is_digit (c : ascii) : bool :=
  let n := nat_of_ascii c in ((48 <=? n) && (n <=? 57))%nat.

Definition is_hex (c : ascii) : bool :=
  let n := nat_of_ascii c in
  (((48 <=? n) && (n <=? 57)) || ((65 <=? n) && (n <=? 70))
   || ((97 <=? n) && (n <=? 102)))%nat.

Definition is_escape (c : ascii) : bool :=
  existsb (Ascii.eqb c) [dquote; backslash; "/"; "b"; "f"; "n"; "r"; "t"]%char.

Fixpoint skip_ws (s : string) : string :=
  match s with
  | String c rest => if is_ws c then skip_ws rest else s
  | EmptyString => EmptyString
  end.

Fixpoint skip_digits (s : string) : string :=
  match s with
  | String c rest => if is_digit c then skip_digits rest else s
  | EmptyString => EmptyString
  end.

(** The characters of a string after its opening quote, and the closing
    quote; the result is what follows. *)
Fixpoint string_body (s : string) : option string :=
  match s with
  | EmptyString => None
  | String c rest =>
      if Ascii.eqb c dquote then Some rest
      else if Ascii.eqb c backslash then
        match rest with
        | String e rest' =>
            if is_escape e then string_body rest'
            else if Ascii.eqb e "u" then
              match rest' with
              | String h1 (String h2 (String h3 (String h4 rest''))) =>
                  if is_hex h1 && is_hex h2 && is_hex h3 && is_hex h4
                  then string_body rest''
                  else None
              | _ => None
              end
            else None
        | EmptyString => None
        end
      else if (nat_of_ascii c <? 32)%nat then None
      else string_body rest
  end.

Definition digits1 (s : string) : option string :=
  match s with
  | String c rest => if is_digit c then Some (skip_digits rest) else None
  | EmptyString => None
  end.

Definition frac (s : string) : option string :=
  match s with
  | String "." rest => digits1 rest
  | _ => Some s
  end.

Definition exp (s : string) : option string :=
  match s with
  | String c rest =>
      if Ascii.eqb c "e" || Ascii.eqb c "E" then
        match rest with
        | String sign rest' =>
            if Ascii.eqb sign "+" || Ascii.eqb sign "-" then digits1 rest'
            else digits1 rest
        | EmptyString => None
        end
      else Some s
  | EmptyString => Some s
  end.

Definition number (s : string) : option string :=
  let unsigned := match s with String "-" rest => rest | _ => s end in
  match unsigned with
  | String c rest =>
      if Ascii.eqb c "0" then
        match frac rest with Some s' => exp s' | None => None end
      else if is_digit c then
        match frac (skip_digits rest) with Some s' => exp s' | None => None end
      else None
  | EmptyString => None
  end.

Fixpoint literal (word s : string) : option string :=
  match word, s with
  | EmptyString, _ => Some s
  | String w word', String c rest => if Ascii.eqb w c then literal word' rest else None
  | String _ _, EmptyString => None
  end.

(** [value n s]: a value at the head of [s]; [members] and [elements] take
    up after the opening bracket and the white space behind it, when the
    object or array is not empty.  Every call reads a character before it
    calls another, so [n] above the length of the text is enough. *)
Fixpoint value (n : nat) (s : string) {struct n} : option string :=
  match n with
  | O => None
  | S n' =>
      match s with
      | EmptyString => None
      | String c rest =>
          if Ascii.eqb c "{" then
            match skip_ws rest with
            | String c' rest' =>
                if Ascii.eqb c' "}" then Some rest' else members n' (String c' rest')
            | EmptyString => None
            end
          else if Ascii.eqb c "[" then
            match skip_ws rest with
            | String c' rest' =>
                if Ascii.eqb c' "]" then Some rest' else elements n' (String c' rest')
            | EmptyString => None
            end
          else if Ascii.eqb c dquote then string_body rest
          else if Ascii.eqb c "t" then literal "rue" rest
          else if Ascii.eqb c "f" then literal "alse" rest
          else if Ascii.eqb c "n" then literal "ull" rest
          else number s
      end
  end
with members (n : nat) (s : string) {struct n} : option string :=
  match n with
  | O => None
  | S n' =>
      match s with
      | String c rest =>
          if Ascii.eqb c dquote then
            match string_body rest with
            | Some after_key =>
                match skip_ws after_key with
                | String colon after_colon =>
                    if Ascii.eqb colon ":" then
                      match value n' (skip_ws after_colon) with
                      | Some after_value =>
                          match skip_ws after_value with
                          | String sep rest' =>
                              if Ascii.eqb sep "," then members n' (skip_ws rest')
                              else if Ascii.eqb sep "}" then Some rest'
                              else None
                          | EmptyString => None
                          end
                      | None => None
                      end
                    else None
                | EmptyString => None
                end
            | None => None
            end
          else None
      | EmptyString => None
      end
  end
with elements (n : nat) (s : string) {struct n} : option string :=
  match n with
  | O => None
  | S n' =>
      match value n' s with
      | Some after_value =>
          match skip_ws after_value with
          | String sep rest' =>
              if Ascii.eqb sep "," then elements n' (skip_ws rest')
              else if Ascii.eqb sep "]" then Some rest'
              else None
          | EmptyString => None
          end
      | None => None
      end
  end.

(** [s] is a JSON text: white space, a value, white space. *)
Definition is_json_text (s : string) : bool :=
  match value (S (String.length s)) (skip_ws s) with
  | Some rest => match skip_ws rest with EmptyString => true | _ => false end
  | None => false
  end.

End Json.

(** ** What the specification speaks of *)

(** The kind of a decoded message. *)
Definition has_type (line : pyval) (kind : string) : bool :=
  match getitem line "type" with
  | Ok t => eq_str t kind
  | Raise _ => false
  end.

Definition is_RECORD (line : pyval) : bool := has_type line "RECORD".
Definition is_STATE (line : pyval) : bool := has_type line "STATE".
Definition is_SCHEMA (line : pyval) : bool := has_type line "SCHEMA".

(** The value a STATE message carries. *)
Definition state_value (line : pyval) : pyval :=
  match getitem line "value" with
  | Ok v => v
  | Raise _ => VNone
  end.

(** A RECORD message as the data model has it: a stream name and a
    record. *)
Definition record_message (line : pyval) : bool :=
  is_RECORD line
  && match getitem line "stream" with Ok (VStr _) => true | _ => false end
  && match getitem line "record" with Ok _ => true | Raise _ => false end.

(** A STATE message as the data model has it. *)
Definition state_message (line : pyval) : bool :=
  is_STATE line
  && match getitem line "value" with Ok _ => true | Raise _ => false end.

(** A RECORD message comes before the next STATE message. *)
Fixpoint record_before_next_state (rest : list pyval) : bool :=
  match rest with
  | [] => false
  | line :: rest' =>
      if is_RECORD line then true
      else if is_STATE line then false
      else record_before_next_state rest'
  end.

(** The non-null STATE values that a RECORD follows before the next
    STATE message, in the order of the input. *)
Fixpoint carried (lines : list pyval) : list pyval :=
  match lines with
  | [] => []
  | line :: rest =>
      if is_STATE line && negb (is_None (state_value line))
         && record_before_next_state rest
      then state_value line :: carried rest
      else carried rest
  end.

(** The checkpoint that belongs to a RECORD, from the messages before it
    (the latest first): the value of the latest STATE message, if no
    RECORD came after that message. *)
Fixpoint attachment (before : list pyval) : pyval :=
  match before with
  | [] => VNone
  | line :: earlier =>
      if is_RECORD line then VNone
      else if is_STATE line then state_value line
      else attachment earlier
  end.

(** The checkpoints of the RECORD messages of [lines], one for each. *)
Fixpoint attachments (before lines : list pyval) : list pyval :=
  match lines with
  | [] => []
  | line :: rest =>
      ((if is_RECORD line then [attachment before] else [])
         ++ attachments (line :: before) rest)%list
  end.

(** The value of a STATE message that no RECORD and no STATE follows. *)
Fixpoint trailing_state (lines : list pyval) : pyval :=
  match lines with
  | [] => VNone
  | line :: rest =>
      if existsb (fun l => is_RECORD l || is_STATE l) rest then trailing_state rest
      else if is_STATE line then state_value line
      else VNone
  end.

(** The parts of a trace. *)
Definition pushed_args (evs : list event) : list pyval :=
  flat_map (fun ev => match ev with Push _ a => [a] | _ => [] end) evs.

Definition written (evs : list event) : list string :=
  flat_map (fun ev => match ev with Stdout text => [text] | _ => [] end) evs.

Definition non_null (states : list pyval) : list pyval :=
  filter (fun v => negb (is_None v)) states.

(** A trace in which the client keeps its books: [ledger lib before evs
    after] holds when, [before] being the callback arguments pushed and
    not yet reported, every callback of [evs] reports exactly the
    arguments pushed since the callback before it, in their order, the
    lines of its non-null states are written right behind it, nothing
    else is written, and [after] is pushed and not yet reported at the
    end. *)
Inductive ledger (lib : Libraries) : list pyval -> list event -> list pyval -> Prop :=
| ledger_done : forall outstanding, ledger lib outstanding [] outstanding
| ledger_push : forall outstanding message arg evs after,
    ledger lib (outstanding ++ [arg])%list evs after ->
    ledger lib outstanding (Push message arg :: evs) after
| ledger_callback : forall outstanding evs after,
    ledger lib [] evs after ->
    ledger lib outstanding
      (Callback outstanding :: push_state lib outstanding ++ evs)%list after.

(** The instant a [datetime] with [tzinfo=tzutc()] denotes, as a POSIX
    timestamp in microseconds: its fields are read as UTC. *)
Definition instant_of (v : pyval) : option Z :=
  match v with
  | VDatetime wall => Some wall
  | _ => None
  end.

(** The value under a path of keys of nested objects. *)
Fixpoint lookup_path (v : pyval) (path : list string) : option pyval :=
  match path with
  | [] => Some v
  | k :: path' =>
      match v with
      | VDict items =>
          match dict_get items k with
          | Some child => lookup_path child path'
          | None => None
          end
      | _ => None
      end
  end.

(** [flagged schema path]: the schema declares format date-time for the
    property under [path], each step of the path going through the
    [properties] keyword of the schema reached so far. *)
Inductive flagged : pyval -> list string -> Prop :=
| flagged_here : forall keywords props property subschema,
    schema_ref keywords = None ->
    dict_get keywords "properties" = Some (VDict props) ->
    dict_get props property = Some subschema ->
    getitem subschema "format" = Ok (VStr "date-time") ->
    flagged (VDict keywords) [property]
| flagged_below : forall keywords props property subschema path,
    schema_ref keywords = None ->
    dict_get keywords "properties" = Some (VDict props) ->
    dict_get props property = Some subschema ->
    flagged subschema path ->
    flagged (VDict keywords) (property :: path).

(** [coerced lib v v']: [v'] is [v] with some of its strings replaced by
    the [datetime] the transform makes of them. *)
Inductive coerced (lib : Libraries) : pyval -> pyval -> Prop :=
| coerced_same : forall v, coerced lib v v
| coerced_datetime : forall v dt, to_datetime lib v = Ok dt -> coerced lib v dt
| coerced_dict : forall items items',
    Forall2 (fun kv kv' => fst kv = fst kv' /\ coerced lib (snd kv) (snd kv'))
      items items' ->
    coerced lib (VDict items) (VDict items')
| coerced_list : forall elems elems',
    Forall2 (coerced lib) elems elems' ->
    coerced lib (VList elems) (VList elems').

(** ** The libraries of the examples *)

(** The examples below run the pipeline with these stand-ins: the
    validators [type], [required] and [format] (with the date-time
    checker) of [Draft4Validator], the timestamps of the date-time
    strings the examples use, and two time zones. *)
Module Examples.

(** [Draft4Validator.is_type]; [None] stands for [UnknownType]. *)
Definition is_type (instance : pyval) (type : string) : option bool :=
  if String.eqb type "array" then Some (is_list instance)
  else if String.eqb type "boolean" then
    Some (match instance with VBool _ => true | _ => false end)
  else if String.eqb type "integer" then
    Some (match instance with VInt _ => true | _ => false end)
  else if String.eqb type "null" then Some (is_None instance)
  else if String.eqb type "number" then
    Some (match instance with VInt _ => true | _ => false end)
  else if String.eqb type "object" then Some (is_dict instance)
  else if String.eqb type "string" then
    Some (match instance with VStr _ => true | _ => false end)
  else None.

(** The elements a [for] loop draws from a value of a schema. *)
Definition iterate (v : pyval) : option (list pyval) :=
  match v with
  | VList elems => Some elems
  | VDict items => Some (map (fun kv => VStr (fst kv)) items)
  | VStr s => Some (map (fun c => VStr (String c EmptyString)) (list_ascii_of_string s))
  | _ => None
  end.

Section Validators.

Variable datetime_repr : Z -> string.
Variable validate_rfc3339 : string -> bool.

(** [type_draft4]. *)
Definition type_draft4 (types instance schema : pyval) : verdict :=
  let candidates := match types with VStr _ => Some [types] | _ => iterate types end in
  match candidates with
  | None => Fails "TypeError"
  | Some types' =>
      (fix any (l : list pyval) : verdict :=
         match l with
         | [] =>
             Invalid (py_repr datetime_repr instance ++ " is not of type "
                      ++ join ", " (map (py_repr datetime_repr) types'))
         | VStr type :: rest =>
             match is_type instance type with
             | Some true => Valid
             | Some false => any rest
             | None => Fails "UnknownType"
             end
         | VList _ :: _ | VDict _ :: _ => Fails "TypeError"
         | _ :: _ => Fails "UnknownType"
         end) types'
  end.

(** [required_draft4]. *)
Definition required_draft4 (required instance schema : pyval) : verdict :=
  match instance with
  | VDict items =>
      match iterate required with
      | None => Fails "TypeError"
      | Some properties =>
          (fix each (l : list pyval) : verdict :=
             match l with
             | [] => Valid
             | VStr property :: rest =>
                 match dict_get items property with
                 | Some _ => each rest
                 | None => Invalid (repr_str property ++ " is a required property")
                 end
             | VList _ :: _ | VDict _ :: _ => Fails "TypeError"
             | property :: _ =>
                 Invalid (py_repr datetime_repr property ++ " is a required property")
             end) properties
      end
  | _ => Valid
  end.

(** [format], with a [FormatChecker] that knows date-time. *)
Definition format (format_name instance schema : pyval) : verdict :=
  match format_name with
  | VList _ | VDict _ => Fails "TypeError"
  | VStr name =>
      if String.eqb name "date-time" then
        match instance with
        | VStr s =>
            if validate_rfc3339 s then Valid
            else Invalid (repr_str s ++ " is not a " ++ repr_str name)
        | _ => Valid
        end
      else Valid
  | _ => Valid
  end.

Definition VALIDATORS (k : string) : option (pyval -> pyval -> pyval -> verdict) :=
  if String.eqb k "type" then Some type_draft4
  else if String.eqb k "required" then Some required_draft4
  else if String.eqb k "format" then Some format
  else None.

End Validators.

(** The fields of a [datetime] are shown by the count that stands for
    them. *)
Definition shown_repr (wall : Z) : string :=
  "datetime.datetime(" ++ repr_int wall ++ ", tzinfo=tzutc())".

Definition shown_str (wall : Z) : string := repr_int wall ++ "+00:00".

(** What [rfc3339_to_timestamp] returns for the strings of the examples;
    the other strings of the examples are not RFC 3339. *)
Definition timestamp_of (s : string) : option Z :=
  if String.eqb s "2017-01-01T00:00:00Z" then Some 1483228800000000%Z
  else if String.eqb s "2017-01-01T02:00:00+02:00" then Some 1483228800000000%Z
  else if String.eqb s "2017-06-15T12:30:00Z" then Some 1497529800000000%Z
  else None.

Definition validate_rfc3339 (s : string) : bool :=
  match timestamp_of s with Some _ => true | None => false end.

Definition clock (n : nat) : Z := (1500000000000 + Z.of_nat n)%Z.

(** A process whose local time zone is UTC. *)
Definition utc : Libraries :=
  mkLibraries shown_repr shown_str timestamp_of (fun _ => 0%Z)
    (VALIDATORS shown_repr validate_rfc3339) clock.

(** A process whose local time zone is five hours behind UTC. *)
Definition new_york : Libraries :=
  mkLibraries shown_repr shown_str timestamp_of
    (fun _ => (-18000000000)%Z)
    (VALIDATORS shown_repr validate_rfc3339) clock.

(** The world before the run. *)
Definition start : world := mkWorld [] (DryRunClient.init (fun _ => [])) [] 0.

Definition users_schema : pyval :=
  VDict [("properties",
          VDict [("id", VDict [("type", VStr "integer"); ("key", VBool true)]);
                 ("updated", VDict [("type", VStr "string");
                                    ("format", VStr "date-time")])])].

Definition SCHEMA (stream : string) (schema : pyval) : pyval :=
  VDict [("type", VStr "SCHEMA"); ("stream", VStr stream); ("schema", schema)].

Definition RECORD (stream : string) (record : pyval) : pyval :=
  VDict [("type", VStr "RECORD"); ("stream", VStr stream); ("record", record)].

Definition STATE (value : pyval) : pyval :=
  VDict [("type", VStr "STATE"); ("value", value)].

Definition offset (n : Z) : pyval := VDict [("offset", VInt n)].

Definition user (id : Z) (updated : string) : pyval :=
  VDict [("id", VInt id); ("updated", VStr updated)].

(** Checkpoints 1 and 3 have a RECORD behind them, checkpoint 2 is
    overwritten, checkpoint 4 is the last line. *)
Definition five_lines : list pyval :=
  [STATE (offset 1); RECORD "users" (user 1 "x"); RECORD "users" (user 2 "y");
   STATE (offset 2); STATE (offset 3); RECORD "users" (user 3 "z");
   STATE VNone; RECORD "users" (user 4 "u"); STATE (offset 4)].

(** A schema with one date-time property. *)
Definition event_schema : pyval :=
  VDict [("properties", VDict [("at", VDict [("format", VStr "date-time")])])].

(** The date-time property is one level down. *)
Definition nested_schema : pyval :=
  VDict [("properties", VDict [("meta", event_schema)])].


(** The date-time property, and a property that the record must have. *)
Definition required_schema : pyval :=
  VDict [("properties", VDict [("at", VDict [("format", VStr "date-time")])]);
         ("required", VList [VStr "id"])].

Definition occurrence (at_ : pyval) : pyval := VDict [("at", at_)].

End Examples.

(** The world once [json.loads] has built the object of a line. *)
Definition loaded (line : pyval) (w : world) : world :=
  mkWorld (objects w ++ [line])%list (stitchclient w) (events w) (clock_readings w).

(** The lines that [push_state] writes for a batch of states. *)
Definition lines_of (lib : Libraries) (states : list pyval) : list string :=
  map (fun v => str lib v ++ newline) (non_null states).

(** The value under a path of keys and indices, as the [path] of a
    [ValidationError] gives them. *)
Fixpoint lookup_deep (v : pyval) (path : list pyval) : option pyval :=
  match path with
  | [] => Some v
  | step :: rest =>
      match v, step with
      | VDict items, VStr k =>
          match dict_get items k with
          | Some child => lookup_deep child rest
          | None => None
          end
      | VList elems, VInt index =>
          if (0 <=? index)%Z then
            match nth_error elems (Z.to_nat index) with
            | Some child => lookup_deep child rest
            | None => None
            end
          else None
      | _, _ => None
      end
  end.

(** [reported lib instance e]: the exception [e], raised by a validation
    that started on [instance], says where it comes from.
    A [ValidationError] carries the path of a value of the instance and,
    as its instance, that value (after the coercions made so far), and
    its message is what a keyword validator of the library says of that
    value.  An [Exception] is the one of [set_defaults]: its message
    names a property and the value that the instance holds under that
    property, in the object under some path, and its context is the
    exception that the conversion of that value raised. *)
Definition reported (lib : Libraries) (instance : pyval) (e : pyexc) : Prop :=
  match e with
  | ValidationError message path rejected =>
      (exists value,
          lookup_deep instance path = Some value /\ coerced lib value rejected)
      /\ exists (keyword : string) (validator : pyval -> pyval -> pyval -> verdict)
                (v schema : pyval),
           leaf_validators lib keyword = Some validator
           /\ validator v rejected schema = Invalid message
  | PyException message context =>
      exists (path : list pyval) (property : string) (found value : pyval)
             (cause : pyexc),
        message = "Error parsing property " ++ property ++ ", value " ++ str lib value
        /\ context = Some cause
        /\ to_datetime lib value = Raise cause
        /\ is_None value = false
        /\ lookup_deep instance (path ++ [VStr property])%list = Some found
        /\ coerced lib found value
  | BuiltinError _ => True
  end.

(** What a validator may do to an instance: it coerces some strings, and
    an exception it raises is reported. *)
Definition sound (lib : Libraries) (instance : pyval) (out : result unit * pyval)
  : Prop :=
  coerced lib instance (snd out)
  /\ match fst out with
     | Raise e => reported lib instance e
     | Ok _ => True
     end.

Definition children_hold (P : pyval -> Prop) (v : pyval) : Prop :=
  match v with
  | VDict items => Forall (fun kv => P (snd kv)) items
  | VList elems => Forall P elems
  | _ => True
  end.

(** The batches that the client hands to its callback function, and
    the messages pushed, in the order of the trace. *)
Definition callbacks (evs : list event) : list (list pyval) :=
  flat_map (fun ev => match ev with Callback states => [states] | _ => [] end) evs.

Definition pushed_messages (evs : list event) : list pyval :=
  flat_map (fun ev => match ev with Push message _ => [message] | _ => [] end) evs.

(** The value under a key of an object, [None] when there is none. *)
Definition field (k : string) (o : pyval) : pyval :=
  match getitem o k with
  | Ok v => v
  | Raise _ => VNone
  end.

(** A subschema that holds ["key": true]. *)
Definition is_key_field (subschema : pyval) : bool :=
  match getitem subschema "key" with
  | Ok v => is_True v
  | Raise _ => false
  end.

(** The schema in force for a stream after some lines have been read:
    the one of the last SCHEMA message of the stream, [known] when
    there is none. *)
Definition latest_schema (stream : pyval) (lines : list pyval) (known : option pyval)
  : option pyval :=
  fold_left
    (fun acc line =>
       if is_SCHEMA line && key_eqb (field "stream" line) stream
       then Some (field "schema" line)
       else acc)
    lines known.

(** The keywords of a subschema ask for the format date-time. *)
Definition date_time_format (keywords : list (string * pyval)) : bool :=
  match dict_get keywords "format" with
  | Some format => eq_str format "date-time"
  | None => false
  end.

(** The keywords of draft 4 under which the library descends and which
    the walk written out here does not follow. *)
Definition not_followed (k : string) : bool :=
  existsb (String.eqb k)
    ["$ref"; "additionalItems"; "additionalProperties"; "anyOf"; "dependencies";
     "not"; "oneOf"; "patternProperties"].

(** A schema in which no property is declared with the format
    date-time: wherever the walk of the validator comes to [properties],
    these are an object, and each property has an object for its
    subschema, which does not ask for date-time and is such a schema
    itself; the subschemas under [items] and [allOf] are such schemas
    too, and the schema uses no keyword that is not followed. *)
Fixpoint without_date_time (schema : pyval) : bool :=
  match schema with
  | VDict keywords =>
      forallb
        (fun kv =>
           if String.eqb (fst kv) "properties" then
             match snd kv with
             | VDict props =>
                 forallb
                   (fun ps =>
                      match snd ps with
                      | VDict subschema =>
                          negb (date_time_format subschema)
                          && without_date_time (snd ps)
                      | _ => false
                      end)
                   props
             | _ => false
             end
           else if String.eqb (fst kv) "items" then
             match snd kv with
             | VDict _ => without_date_time (snd kv)
             | VList subschemas => forallb without_date_time subschemas
             | _ => true
             end
           else if String.eqb (fst kv) "allOf" then
             match snd kv with
             | VList subschemas => forallb without_date_time subschemas
             | _ => true
             end
           else negb (not_followed (fst kv)))
        keywords
  | _ => true
  end.

(** The values in which [in] cannot search: [k in v] raises [TypeError]. *)
Definition not_iterable (v : pyval) : bool :=
  match v with
  | VNone | VBool _ | VInt _ | VDatetime _ => true
  | _ => false
  end.






(** * Facts *)

(** ** The store *)

Lemma deref_app (h t : heap) (l : loc) :
  (l < List.length h)%nat -> deref (h ++ t)%list l = deref h l.
Proof.
  intros Hl. unfold deref. now rewrite app_nth1.
Qed.

Lemma deref_new (h : heap) (v : pyval) : deref (h ++ [v])%list (List.length h) = v.
Proof.
  unfold deref. rewrite app_nth2 by lia. now rewrite Nat.sub_diag.
Qed.

Lemma store_length (h : heap) (l : loc) (v : pyval) :
  List.length (store h l v) = List.length h.
Proof.
  revert l; induction h as [|x h IH]; intros [|l]; simpl; auto.
Qed.

Lemma deref_store_other (h : heap) (l l' : loc) (v : pyval) :
  l <> l' -> deref (store h l v) l' = deref h l'.
Proof.
  unfold deref. revert l l'.
  induction h as [|x h IH]; intros [|l] [|l'] Hne; simpl; auto; try congruence.
Qed.

Lemma deref_store_same (h : heap) (l : loc) (v : pyval) :
  (l < List.length h)%nat -> deref (store h l v) l = v.
Proof.
  unfold deref. revert l.
  induction h as [|x h IH]; intros [|l] Hl; simpl in *; auto; try lia.
  apply IH; lia.
Qed.

Section Facts.

Variable lib : Libraries.

(** ** [parse_record] and the store *)

(** [parse_record] leaves every object that existed before the call as
    it was, whether it returns or raises. *)
Lemma parse_record_frame (full_record : loc) (schemas : registry) (h h' : heap)
    (r : result loc) :
  parse_record lib full_record schemas h = (r, h') ->
  (List.length h <= List.length h')%nat
  /\ forall l, (l < List.length h)%nat -> deref h' l = deref h l.
Proof.
  unfold parse_record, try_except, and_then, lift, ret, deepcopy, alloc, at_loc.
  destruct (getitem (deref h full_record) "stream") as [stream|e].
  2:{ intros H; inversion H; subst; auto. }
  destruct (in_registry stream schemas) as [known|e].
  2:{ intros H; inversion H; subst; auto. }
  destruct (if known then registry_getitem schemas stream else Ok (VDict []))
    as [schema|e].
  2:{ intros H; inversion H; subst; auto. }
  destruct (getitem (deref h full_record) "record") as [record|e].
  2:{ intros H; inversion H; subst; auto. }
  destruct (validate lib (extend_with_default Draft4Validator) schema
              (deref (h ++ [record])%list (List.length h))) as [res inst] eqn:Hv.
  assert (Hframe : (List.length h
                    <= List.length (store (h ++ [record])%list (List.length h) inst))%nat
                   /\ forall l, (l < List.length h)%nat ->
                        deref (store (h ++ [record])%list (List.length h) inst) l
                        = deref h l).
  { split.
    - rewrite store_length, length_app. simpl. lia.
    - intros l Hl. rewrite deref_store_other by lia. now apply deref_app. }
  destruct res; intros H; inversion H; subst; exact Hframe.
Qed.

(** C5. When the transform succeeds on a RECORD message, the decoded
    message, and with it the record it holds, is after the call what it
    was before: the result is an object that did not exist before the
    call, and no object that existed has been written to. *)
Theorem parse_record_keeps_its_argument
    (full_record o : loc) (schemas : registry) (h h' : heap) :
  (full_record < List.length h)%nat ->
  parse_record lib full_record schemas h = (Ok o, h') ->
  deref h' full_record = deref h full_record
  /\ getitem (deref h' full_record) "record" = getitem (deref h full_record) "record"
  /\ (forall l, (l < List.length h)%nat -> deref h' l = deref h l)
  /\ o = List.length h.
Proof.
  intros Hfr Hrun.
  destruct (parse_record_frame _ _ _ _ _ Hrun) as [_ Hsame].
  repeat split; auto.
  - now rewrite Hsame.
  - revert Hrun.
    unfold parse_record, try_except, and_then, lift, ret, deepcopy, alloc, at_loc.
    destruct (getitem (deref h full_record) "stream") as [stream|e]; [|discriminate].
    destruct (in_registry stream schemas) as [known|e]; [|discriminate].
    destruct (if known then registry_getitem schemas stream else Ok (VDict []))
      as [schema|e]; [|discriminate].
    destruct (getitem (deref h full_record) "record") as [record|e]; [|discriminate].
    destruct (validate lib (extend_with_default Draft4Validator) schema
                (deref (h ++ [record])%list (List.length h))) as [[[]|e] inst];
      [|discriminate].
    intros H; inversion H; reflexivity.
Qed.

(** ** One line of input *)

Lemma has_type_getitem (line : pyval) (kind : string) :
  has_type line kind = true -> getitem line "type" = Ok (VStr kind).
Proof.
  unfold has_type. destruct (getitem line "type") as [t|e]; [|discriminate].
  destruct t; simpl; try discriminate.
  intros H. apply String.eqb_eq in H. now subst.
Qed.

Ltac run_action :=
  unfold process_line, and_then, in_world, on_heap, alloc, subscript, get_locals,
    set_locals, lift, ret; simpl;
  repeat rewrite deref_new.

(** A STATE message: the pending state becomes the value of the message,
    whatever it was, and nothing else happens. *)
Lemma process_line_STATE (line : pyval) (vars : locals) (w : world) :
  state_message line = true ->
  process_line lib line (vars, w)
  = (Ok tt, (mkLocals (state_value line) (schemas vars), loaded line w)).
Proof.
  unfold state_message, is_STATE. intros H.
  apply andb_prop in H as [Ht Hv].
  apply has_type_getitem in Ht.
  run_action. rewrite Ht. simpl. rewrite !deref_new.
  unfold state_value.
  destruct (getitem line "value") as [v|e]; [|discriminate].
  reflexivity.
Qed.

(** A RECORD message that is processed: the message built from it is
    pushed with the pending state, and the pending state is [None]
    afterwards. *)
Lemma process_line_RECORD (line : pyval) (vars vars' : locals) (w w' : world) :
  is_RECORD line = true ->
  process_line lib line (vars, w) = (Ok tt, (vars', w')) ->
  exists message,
    vars' = mkLocals VNone (schemas vars)
    /\ events w'
       = (events w ++ fst (DryRunClient.push (stitchclient w) message (state vars)))%list
    /\ stitchclient w' = snd (DryRunClient.push (stitchclient w) message (state vars)).
Proof.
  unfold is_RECORD. intros Ht. apply has_type_getitem in Ht.
  run_action. rewrite Ht. simpl. rewrite !deref_new.
  destruct (getitem line "stream") as [stream|e]; [|discriminate].
  destruct (parse_key_fields stream (schemas vars)) as [keys|e]; [|discriminate].
  unfold read_clock. simpl.
  destruct (parse_record lib (List.length (objects w)) (schemas vars)
              (objects w ++ [line])%list) as [[data|e] h1]; [|discriminate].
  unfold client_push. simpl.
  match goal with
  | |- context [DryRunClient.push ?c ?m ?a] =>
      destruct (DryRunClient.push c m a) as [evs client] eqn:Hpush;
      intros Hrun; exists m
  end.
  inversion Hrun; subst; clear Hrun.
  rewrite Hpush. simpl. auto.
Qed.

Lemma is_RECORD_not_STATE (line : pyval) :
  is_RECORD line = true -> is_STATE line = false.
Proof.
  unfold is_RECORD, is_STATE. intros H.
  apply has_type_getitem in H. unfold has_type. now rewrite H.
Qed.

(** A line that is processed is a RECORD, a STATE or a SCHEMA message,
    and this is all it changes. *)
Lemma process_line_ok (line : pyval) (vars vars' : locals) (w w' : world) :
  process_line lib line (vars, w) = (Ok tt, (vars', w')) ->
  (is_RECORD line = true
   /\ exists message,
        vars' = mkLocals VNone (schemas vars)
        /\ events w'
           = (events w
              ++ fst (DryRunClient.push (stitchclient w) message (state vars)))%list
        /\ stitchclient w'
           = snd (DryRunClient.push (stitchclient w) message (state vars)))
  \/ (is_RECORD line = false /\ is_STATE line = true
      /\ vars' = mkLocals (state_value line) (schemas vars)
      /\ w' = loaded line w)
  \/ (is_RECORD line = false /\ is_STATE line = false /\ is_SCHEMA line = true
      /\ state vars' = state vars /\ w' = loaded line w).
Proof.
  intros Hrun.
  destruct (is_RECORD line) eqn:Hrec.
  { left. split; auto. eapply process_line_RECORD; eauto. }
  revert Hrun. unfold is_RECORD, is_STATE, is_SCHEMA, has_type in *.
  run_action.
  destruct (getitem line "type") as [t|e]; [|discriminate].
  simpl. rewrite Hrec. rewrite ?deref_new. simpl.
  destruct (eq_str t "STATE") eqn:Hst.
  { simpl. rewrite ?deref_new. unfold state_value.
    destruct (getitem line "value") as [v|e]; [|discriminate].
    intros H; inversion H; subst. right; left. auto. }
  simpl. rewrite ?deref_new.
  destruct (eq_str t "SCHEMA") eqn:Hsc; simpl; rewrite ?deref_new.
  - destruct (getitem line "schema") as [schema|e]; [|discriminate].
    simpl. rewrite ?deref_new.
    destruct (getitem line "stream") as [stream|e]; [|discriminate].
    simpl.
    destruct (registry_setitem (schemas vars) stream schema) as [schemas'|e];
      [|discriminate].
    intros H; inversion H; subst. right; right. auto.
  - destruct (getitem line "type"); discriminate.
Qed.

(** ** [DryRunClient] keeps its books *)

Lemma pushed_args_app (evs1 evs2 : list event) :
  pushed_args (evs1 ++ evs2)%list = (pushed_args evs1 ++ pushed_args evs2)%list.
Proof. unfold pushed_args. apply flat_map_app. Qed.

Lemma written_app (evs1 evs2 : list event) :
  written (evs1 ++ evs2)%list = (written evs1 ++ written evs2)%list.
Proof. unfold written. apply flat_map_app. Qed.

Lemma pushed_args_push_state (states : list pyval) :
  pushed_args (push_state lib states) = [].
Proof.
  unfold push_state. induction states as [|v states IH]; simpl; auto.
  rewrite pushed_args_app, IH. destruct (is_None v); reflexivity.
Qed.

Lemma written_push_state (states : list pyval) :
  written (push_state lib states) = lines_of lib states.
Proof.
  unfold push_state, lines_of, non_null.
  induction states as [|v states IH]; simpl; auto.
  rewrite written_app, IH. destruct (is_None v); reflexivity.
Qed.

Lemma ledger_app (o1 o2 o3 : list pyval) (evs1 evs2 : list event) :
  ledger lib o1 evs1 o2 -> ledger lib o2 evs2 o3 ->
  ledger lib o1 (evs1 ++ evs2)%list o3.
Proof.
  induction 1; intros H2; simpl; auto.
  - constructor. auto.
  - rewrite <- app_assoc. constructor. auto.
Qed.

Lemma ledger_flush (outstanding : list pyval) :
  ledger lib outstanding (Callback outstanding :: push_state lib outstanding) [].
Proof.
  rewrite <- (app_nil_r (push_state lib outstanding)).
  constructor. constructor.
Qed.

(** What a trace with its books in order has written: the lines of the
    states that were pushed and have been reported. *)
Lemma ledger_written (o1 o2 : list pyval) (evs : list event) :
  ledger lib o1 evs o2 ->
  (lines_of lib o1 ++ lines_of lib (pushed_args evs))%list
  = (written evs ++ lines_of lib o2)%list.
Proof.
  assert (Happ : forall a b, lines_of lib (a ++ b)%list
                             = (lines_of lib a ++ lines_of lib b)%list).
  { intros a b. unfold lines_of, non_null. now rewrite filter_app, map_app. }
  induction 1.
  - simpl. unfold lines_of at 2. simpl. now rewrite app_nil_r.
  - change (pushed_args (Push message arg :: evs))
      with ([arg] ++ pushed_args evs)%list.
    rewrite Happ, app_assoc, <- Happ. exact IHledger.
  - change (written (Callback outstanding :: push_state lib outstanding ++ evs)%list)
      with (written (push_state lib outstanding ++ evs)%list).
    change (pushed_args (Callback outstanding :: push_state lib outstanding ++ evs)%list)
      with (pushed_args (push_state lib outstanding ++ evs)%list).
    rewrite written_app, pushed_args_app, pushed_args_push_state,
      written_push_state. simpl.
    rewrite <- app_assoc. f_equal. exact IHledger.
Qed.

Lemma push_ledger (c : DryRunClient.t) (message arg : pyval) :
  DryRunClient.callback_function c = push_state lib ->
  ledger lib (DryRunClient.pending_callback_args c)
    (fst (DryRunClient.push c message arg))
    (DryRunClient.pending_callback_args (snd (DryRunClient.push c message arg)))
  /\ pushed_args (fst (DryRunClient.push c message arg)) = [arg]
  /\ DryRunClient.callback_function (snd (DryRunClient.push c message arg))
     = push_state lib.
Proof.
  intros Hcb. unfold DryRunClient.push. simpl.
  destruct (_ =? 0)%nat; simpl.
  - rewrite Hcb. repeat split.
    + constructor. apply ledger_flush.
    + now rewrite pushed_args_push_state.
  - repeat split; auto. constructor. constructor.
Qed.

(** ** The loop of [persist_lines] *)

Lemma persist_loop_cons (line : pyval) (rest : list pyval) (s : locals * world) :
  persist_loop lib (line :: rest) s
  = match process_line lib line s with
    | (Ok _, s') => persist_loop lib rest s'
    | (Raise e, s') => (Raise e, s')
    end.
Proof. reflexivity. Qed.

Lemma persist_loop_app (pre post : list pyval) (s : locals * world) :
  persist_loop lib (pre ++ post)%list s
  = match persist_loop lib pre s with
    | (Ok _, s') => persist_loop lib post s'
    | (Raise e, s') => (Raise e, s')
    end.
Proof.
  revert s. induction pre as [|line pre IH]; intros s.
  - reflexivity.
  - simpl app. rewrite !persist_loop_cons.
    destruct (process_line lib line s) as [[[]|e] s']; auto.
Qed.

(** The pushes of a run that comes to its end: each RECORD is pushed with
    the checkpoint that belongs to it, the client keeps its books, and
    the pending state at the end belongs to the RECORD that would come
    next. *)
Lemma persist_loop_ok (lines : list pyval) :
  forall (before : list pyval) (vars vars' : locals) (w w' : world),
    persist_loop lib lines (vars, w) = (Ok tt, (vars', w')) ->
    DryRunClient.callback_function (stitchclient w) = push_state lib ->
    state vars = attachment before ->
    exists evs,
      events w' = (events w ++ evs)%list
      /\ pushed_args evs = attachments before lines
      /\ ledger lib (DryRunClient.pending_callback_args (stitchclient w)) evs
           (DryRunClient.pending_callback_args (stitchclient w'))
      /\ DryRunClient.callback_function (stitchclient w') = push_state lib
      /\ state vars' = attachment (rev lines ++ before)%list.
Proof.
  induction lines as [|line rest IH]; intros before vars vars' w w' Hrun Hcb Hst.
  - inversion Hrun; subst. exists []. rewrite app_nil_r.
    repeat split; auto. constructor.
  - rewrite persist_loop_cons in Hrun.
    destruct (process_line lib line (vars, w)) as [[[]|e] [vars1 w1]] eqn:Hline;
      [|discriminate].
    assert (Hrev : (rev (line :: rest) ++ before = rev rest ++ line :: before)%list).
    { simpl. now rewrite <- app_assoc. }
    rewrite Hrev.
    destruct (process_line_ok _ _ _ _ _ Hline)
      as [[Hrec [message [Hvars [Hev Hcl]]]]
         |[[Hrec [Hstate [Hvars Hw]]]|[Hrec [Hstate [_ [Hvars Hw]]]]]].
    + destruct (push_ledger (stitchclient w) message (state vars) Hcb)
        as [Hled [Hpushed Hcb1]].
      rewrite <- Hcl in Hled, Hcb1.
      destruct (IH (line :: before) vars1 vars' w1 w' Hrun Hcb1) as [evs H].
      { subst vars1. simpl. now rewrite Hrec. }
      destruct H as [Hev' [Hp' [Hl' [Hcb' Hst']]]].
      exists (fst (DryRunClient.push (stitchclient w) message (state vars)) ++ evs)%list.
      repeat split; auto.
      * rewrite Hev', Hev. now rewrite app_assoc.
      * rewrite pushed_args_app, Hpushed, Hp'. simpl. now rewrite Hrec, Hst.
      * eapply ledger_app; eauto.
    + subst w1.
      destruct (IH (line :: before) vars1 vars' (loaded line w) w' Hrun Hcb) as [evs H].
      { subst vars1. simpl. now rewrite Hrec, Hstate. }
      exists evs. simpl. rewrite Hrec. exact H.
    + subst w1.
      destruct (IH (line :: before) vars1 vars' (loaded line w) w' Hrun Hcb) as [evs H].
      { simpl. rewrite Hrec, Hstate. congruence. }
      exists evs. simpl. rewrite Hrec. exact H.
Qed.

(** The pending state after the last line is the state the
    specification calls trailing. *)
Lemma attachment_rev (lines : list pyval) :
  forall before,
    attachment (rev lines ++ before)%list
    = if existsb (fun l => is_RECORD l || is_STATE l) lines
      then trailing_state lines
      else attachment before.
Proof.
  induction lines as [|line rest IH]; intros before.
  - reflexivity.
  - assert (Hrev : (rev (line :: rest) ++ before = rev rest ++ line :: before)%list).
    { simpl. now rewrite <- app_assoc. }
    rewrite Hrev, IH. simpl.
    destruct (existsb (fun l => is_RECORD l || is_STATE l) rest).
    + now rewrite orb_true_r.
    + rewrite orb_false_r.
      destruct (is_RECORD line) eqn:Hrec.
      * simpl. now rewrite (is_RECORD_not_STATE _ Hrec).
      * simpl. destruct (is_STATE line); reflexivity.
Qed.

Lemma trailing_state_none (lines : list pyval) :
  existsb (fun l => is_RECORD l || is_STATE l) lines = false ->
  trailing_state lines = VNone.
Proof.
  induction lines as [|line rest IH]; simpl; auto.
  intros H. apply orb_false_elim in H as [Hline Hrest].
  apply orb_false_elim in Hline as [_ Hstate].
  now rewrite Hrest, Hstate.
Qed.

Lemma attachment_rev_all (lines : list pyval) :
  attachment (rev lines) = trailing_state lines.
Proof.
  rewrite <- (app_nil_r (rev lines)), attachment_rev.
  destruct (existsb _ lines) eqn:H; auto.
  symmetry. now apply trailing_state_none.
Qed.

(** The non-null checkpoints of the RECORD messages are the STATE values
    that a RECORD follows before the next STATE message. *)
Lemma non_null_attachments (lines : list pyval) :
  forall before,
    non_null (attachments before lines)
    = ((if record_before_next_state lines then non_null [attachment before] else [])
         ++ carried lines)%list.
Proof.
  induction lines as [|line rest IH]; intros before.
  - reflexivity.
  - simpl attachments. unfold non_null in *. rewrite filter_app, IH. simpl.
    destruct (is_RECORD line) eqn:Hrec.
    + rewrite (is_RECORD_not_STATE _ Hrec). simpl.
      destruct (record_before_next_state rest); simpl;
        destruct (is_None (attachment before)); reflexivity.
    + destruct (is_STATE line) eqn:Hstate; simpl.
      * destruct (is_None (state_value line)); simpl;
          destruct (record_before_next_state rest); reflexivity.
      * reflexivity.
Qed.

Lemma non_null_attachments_all (lines : list pyval) :
  non_null (attachments [] lines) = carried lines.
Proof.
  rewrite non_null_attachments. simpl.
  destruct (record_before_next_state lines); reflexivity.
Qed.

(** A RECORD message of the data model is processed, as long as no schema
    has been declared. *)
Lemma process_line_record_message (line : pyval) (vars : locals) (w : world) :
  record_message line = true ->
  schemas vars = [] ->
  exists w', process_line lib line (vars, w) = (Ok tt, (mkLocals VNone [], w')).
Proof.
  unfold record_message, is_RECORD. intros H Hschemas.
  apply andb_prop in H as [H Hrecord]. apply andb_prop in H as [Htype Hstream].
  apply has_type_getitem in Htype.
  destruct (getitem line "stream") as [[| | |stream| | |]|e] eqn:Hs; try discriminate.
  destruct (getitem line "record") as [record|e] eqn:Hr; [|discriminate].
  run_action. rewrite Htype. simpl. rewrite ?deref_new, Hs. simpl.
  rewrite Hschemas. simpl.
  unfold parse_record, try_except, and_then, lift, ret, deepcopy, alloc, at_loc.
  simpl. rewrite ?deref_new, Hs. simpl. rewrite ?deref_new, Hr. simpl.
  unfold client_push.
  match goal with
  | |- context [DryRunClient.push ?c ?m ?a] =>
      destruct (DryRunClient.push c m a) as [evs client]
  end.
  eexists. reflexivity.
Qed.

(** A sequence of STATE and RECORD messages is processed to its end. *)
Lemma persist_loop_states_records (lines : list pyval) :
  forall (vars : locals) (w : world),
    Forall (fun line => record_message line = true \/ state_message line = true) lines ->
    schemas vars = [] ->
    exists vars' w', persist_loop lib lines (vars, w) = (Ok tt, (vars', w')).
Proof.
  induction lines as [|line rest IH]; intros vars w Hall Hschemas.
  - exists vars, w. reflexivity.
  - inversion Hall as [|? ? [Hrec|Hstate] Hrest]; subst.
    + destruct (process_line_record_message line vars w Hrec Hschemas) as [w1 H1].
      rewrite persist_loop_cons, H1. now apply IH.
    + rewrite persist_loop_cons, (process_line_STATE line vars w Hstate).
      now apply IH.
Qed.

Lemma persist_lines_ok (lines : list pyval) (w w' : world) (final : pyval) :
  persist_lines lib lines w = (Ok final, w') ->
  exists vars',
    persist_loop lib lines (mkLocals VNone [], w) = (Ok tt, (vars', w'))
    /\ final = state vars'.
Proof.
  unfold persist_lines.
  destruct (persist_loop lib lines (mkLocals VNone [], w)) as [[[]|e] [vars' w1]];
    intros H; inversion H; subst.
  exists vars'. auto.
Qed.

Lemma client_exit_events (w : world) :
  DryRunClient.callback_function (stitchclient w) = push_state lib ->
  exists w',
    client_exit w = (Ok tt, w')
    /\ events w'
       = (events w
          ++ Callback (DryRunClient.pending_callback_args (stitchclient w))
          :: push_state lib (DryRunClient.pending_callback_args (stitchclient w)))%list.
Proof.
  intros Hcb. unfold client_exit, DryRunClient.exit, DryRunClient.flush.
  eexists. split; [reflexivity|]. simpl. now rewrite Hcb.
Qed.

(** C1. In a run of [do_sync] over STATE and RECORD messages, the run
    comes to its end; every RECORD is pushed with the checkpoint that
    belongs to it, so a non-null STATE value goes to the push of the
    first RECORD behind it and to no other; the client reports every
    argument pushed in exactly one callback, which comes after the push,
    and the line of a non-null state is written right behind the callback
    that reports it; so the lines written through the client are those
    of the STATE values that a RECORD follows before the next STATE
    message, one line for each, and the value of a STATE message that
    another STATE message follows is not among them. *)
Theorem checkpoints_follow_their_records (lines : list pyval) (w0 : world) :
  Forall (fun line => record_message line = true \/ state_message line = true) lines ->
  exists (w' : world) (evs : list event),
    do_sync lib lines w0 = (Ok tt, w')
    /\ events w'
       = (events w0 ++ evs
          ++ (if is_None (trailing_state lines) then []
              else [Stdout (str lib (trailing_state lines) ++ newline)]))%list
    /\ pushed_args evs = attachments [] lines
    /\ non_null (pushed_args evs) = carried lines
    /\ ledger lib [] evs []
    /\ written evs = map (fun v => str lib v ++ newline) (carried lines).
Proof.
  intros Hall.
  destruct (persist_loop_states_records lines (mkLocals VNone []) (enter lib w0)
              Hall eq_refl) as [vars' [w1 Hloop]].
  destruct (persist_loop_ok lines [] _ _ _ _ Hloop eq_refl eq_refl)
    as [evs1 [Hev [Hpushed [Hled [Hcb Hstate]]]]].
  rewrite app_nil_r, attachment_rev_all in Hstate.
  destruct (client_exit_events w1 Hcb) as [w2 [Hexit Hev2]].
  set (P := DryRunClient.pending_callback_args (stitchclient w1)) in *.
  set (evs := (evs1 ++ Callback P :: push_state lib P)%list).
  assert (Hpushed' : pushed_args evs = attachments [] lines).
  { unfold evs. rewrite pushed_args_app. simpl.
    change (pushed_args (Callback P :: push_state lib P))
      with (pushed_args (push_state lib P)).
    now rewrite pushed_args_push_state, app_nil_r. }
  assert (Hled' : ledger lib [] evs []).
  { unfold evs. eapply ledger_app; [exact Hled|apply ledger_flush]. }
  assert (Hfinal : exists w',
             do_sync lib lines w0 = (Ok tt, w')
             /\ events w'
                = (events w2
                   ++ (if is_None (trailing_state lines) then []
                       else [Stdout (str lib (trailing_state lines) ++ newline)]))%list).
  { unfold do_sync, persist_lines. rewrite Hloop, Hexit, Hstate.
    destruct (is_None (trailing_state lines)); eexists; split; try reflexivity.
    now rewrite app_nil_r. }
  destruct Hfinal as [w' [Hsync Hev']].
  exists w', evs. repeat split; auto.
  - rewrite Hev', Hev2, Hev. unfold evs. simpl. now rewrite <- !app_assoc.
  - rewrite Hpushed'. apply non_null_attachments_all.
  - pose proof (ledger_written _ _ _ Hled') as Hw.
    simpl in Hw. rewrite app_nil_r in Hw. rewrite <- Hw, Hpushed'.
    unfold lines_of. now rewrite non_null_attachments_all.
Qed.


(** C8. When the lines before it have been processed, a message whose
    type is none of RECORD, STATE and SCHEMA makes the driver raise
    [Exception("Unknown message type ...")]; the lines behind it are not
    read: the schemas, the pending state, the client and the events are
    what they were when the message was reached, whatever follows. *)
Theorem unknown_type_aborts
    (pre post : list pyval) (bad type : pyval)
    (vars vars1 : locals) (w w1 : world) :
  persist_loop lib pre (vars, w) = (Ok tt, (vars1, w1)) ->
  getitem bad "type" = Ok type ->
  eq_str type "RECORD" = false ->
  eq_str type "STATE" = false ->
  eq_str type "SCHEMA" = false ->
  persist_loop lib (pre ++ bad :: post)%list (vars, w)
  = (Raise (PyException
              ("Unknown message type " ++ str lib type
               ++ " in message " ++ str lib bad) None),
     (vars1, loaded bad w1)).
Proof.
  intros Hpre Htype Hrec Hstate Hschema.
  rewrite persist_loop_app, Hpre, persist_loop_cons.
  run_action. rewrite Htype. simpl. rewrite Hrec, Hstate, Hschema.
  simpl. rewrite ?deref_new, Htype. reflexivity.
Qed.

(** ** What is written for a state *)

Lemma push_state_lines (states : list pyval) :
  push_state lib states
  = map (fun v => Stdout (str lib v ++ newline)) (non_null states).
Proof.
  unfold push_state, non_null.
  induction states as [|v states IH]; simpl; auto.
  rewrite IH. destruct (is_None v); reflexivity.
Qed.

Lemma do_sync_prints_final (lines : list pyval) (w0 w1 : world) (final : pyval) :
  persist_lines lib lines (enter lib w0) = (Ok final, w1) ->
  is_None final = false ->
  exists (w2 : world) (before : list event),
    do_sync lib lines w0 = (Ok tt, w2)
    /\ events w2 = (before ++ [Stdout (str lib final ++ newline)])%list.
Proof.
  intros Hrun Hfinal. unfold do_sync. rewrite Hrun.
  destruct (client_exit w1) as [r w2] eqn:Hexit.
  rewrite Hfinal. eexists. eexists. split; reflexivity.
Qed.

(** No JSON text opens an object with a single quote. *)
Lemma single_quoted_key_is_not_json (rest : string) :
  Json.is_json_text (String "{" (String squote rest)) = false.
Proof. reflexivity. Qed.

Lemma repr_quote_single (k : string) :
  has_char squote k = false \/ has_char dquote k = true ->
  repr_quote k = squote.
Proof.
  unfold repr_quote. intros [H|H]; rewrite H; auto.
  now rewrite andb_false_r.
Qed.

Lemma str_of_object_opens_with_quote (k : string) (v : pyval)
    (rest : list (string * pyval)) :
  exists tail,
    str lib (VDict ((k, v) :: rest)) ++ newline
    = String "{" (String (repr_quote k) tail).
Proof.
  unfold str, py_str. simpl.
  destruct rest as [|kv rest]; simpl; eexists; reflexivity.
Qed.

(** C10, as the code has it.  A state that is not [None] is written as
    [str(state)] and a newline, by [push_state] when the client reports
    it and by [do_sync] at the end of the input; this is not a JSON
    serialisation.  For an object whose first key holds no single quote,
    or holds a double quote as well, the line opens with a single-quoted
    key and is not a JSON text; the line of the empty object is [{}],
    which is one. *)
Theorem states_are_written_with_str :
  (forall states : list pyval,
      push_state lib states
      = map (fun v => Stdout (str lib v ++ newline)) (non_null states))
  /\ (forall (lines : list pyval) (w0 w1 : world) (final : pyval),
         persist_lines lib lines (enter lib w0) = (Ok final, w1) ->
         is_None final = false ->
         exists (w2 : world) (before : list event),
           do_sync lib lines w0 = (Ok tt, w2)
           /\ events w2 = (before ++ [Stdout (str lib final ++ newline)])%list)
  /\ (forall (k : string) (v : pyval) (rest : list (string * pyval)),
         has_char squote k = false \/ has_char dquote k = true ->
         Json.is_json_text (str lib (VDict ((k, v) :: rest)) ++ newline) = false)
  /\ Json.is_json_text (str lib (VDict []) ++ newline) = true.
Proof.
  split; [exact push_state_lines|].
  split; [exact do_sync_prints_final|].
  split; [|reflexivity].
  intros k v rest Hk.
  destruct (str_of_object_opens_with_quote k v rest) as [tail Htail].
  rewrite Htail, (repr_quote_single k Hk).
  apply single_quoted_key_is_not_json.
Qed.

(** ** Values, by structure *)

Lemma pyval_induction (P : pyval -> Prop) :
  P VNone ->
  (forall b, P (VBool b)) ->
  (forall n, P (VInt n)) ->
  (forall s, P (VStr s)) ->
  (forall elems, Forall P elems -> P (VList elems)) ->
  (forall items, Forall (fun kv => P (snd kv)) items -> P (VDict items)) ->
  (forall wall, P (VDatetime wall)) ->
  forall v, P v.
Proof.
  intros HNone HBool HInt HStr HList HDict HDatetime.
  fix IH 1.
  intros [| b | n | s | elems | items | wall];
    [exact HNone | apply HBool | apply HInt | apply HStr | | | apply HDatetime].
  - apply HList.
    refine ((fix all (l : list pyval) : Forall P l :=
               match l with
               | [] => Forall_nil _
               | x :: xs => Forall_cons _ (IH x) (all xs)
               end) elems).
  - apply HDict.
    refine ((fix all (l : list (string * pyval)) : Forall (fun kv => P (snd kv)) l :=
               match l with
               | [] => Forall_nil _
               | kv :: xs => Forall_cons _ (IH (snd kv)) (all xs)
               end) items).
Qed.

(** ** Values and their coerced forms *)

Lemma to_datetime_ok (v dt : pyval) :
  to_datetime lib v = Ok dt ->
  (exists s, v = VStr s) /\ exists wall, dt = VDatetime wall.
Proof.
  unfold to_datetime. destruct v; try discriminate.
  destruct (rfc3339_to_timestamp lib s); [|discriminate].
  destruct (fromtimestamp lib z); simpl; [|discriminate].
  intros H; inversion H. eauto.
Qed.

Ltac to_datetime_absurd :=
  match goal with
  | H : to_datetime _ _ = Ok _ |- _ =>
      let Hs := fresh in let Hw := fresh in
      destruct (to_datetime_ok _ _ H) as [[? Hs] [? Hw]];
      try discriminate Hs; try discriminate Hw
  end.

Lemma coerced_to_datetime (wall : Z) (v : pyval) :
  coerced lib (VDatetime wall) v -> v = VDatetime wall.
Proof.
  intros H. inversion H; subst; auto. to_datetime_absurd.
Qed.

Lemma coerced_to_str (v : pyval) (s : string) :
  coerced lib v (VStr s) -> v = VStr s.
Proof.
  intros H. inversion H; subst; auto. to_datetime_absurd.
Qed.

Lemma coerced_to_None (v : pyval) :
  coerced lib v VNone -> v = VNone.
Proof.
  intros H. inversion H; subst; auto. to_datetime_absurd.
Qed.

Lemma coerced_from_dict (items : list (string * pyval)) (v : pyval) :
  coerced lib (VDict items) v ->
  exists items',
    v = VDict items'
    /\ Forall2 (fun kv kv' => fst kv = fst kv' /\ coerced lib (snd kv) (snd kv'))
         items items'.
Proof.
  intros H. inversion H; subst.
  - exists items. split; auto.
    clear H. induction items; constructor; auto. split; auto. constructor.
  - to_datetime_absurd.
  - eauto.
Qed.

Lemma coerced_trans (a : pyval) :
  forall b c, coerced lib a b -> coerced lib b c -> coerced lib a c.
Proof.
  induction a as [| | | |elems IH|items IH|] using pyval_induction;
    intros y z Hab Hbc.
  1-4,7: inversion Hab; subst; auto;
    to_datetime_absurd; subst;
    match goal with
    | H : coerced _ (VDatetime _) _ |- _ =>
        apply coerced_to_datetime in H; subst; auto
    end.
  - inversion Hab as [| |?|? elems' Hall]; subst; auto; [to_datetime_absurd|].
    inversion Hbc as [| |?|? elems'' Hall']; subst; auto; [to_datetime_absurd|].
    apply coerced_list. clear Hab Hbc.
    revert elems' elems'' Hall Hall'.
    induction IH as [|x xs Hx Hxs IHxs]; intros elems' elems'' Hall Hall'.
    + inversion Hall; subst. inversion Hall'; subst. constructor.
    + inversion Hall; subst. inversion Hall'; subst. constructor; eauto.
  - inversion Hab as [| |? items' Hall|]; subst; auto; [to_datetime_absurd|].
    inversion Hbc as [| |? items'' Hall'|]; subst; auto; [to_datetime_absurd|].
    apply coerced_dict. clear Hab Hbc.
    revert items' items'' Hall Hall'.
    induction IH as [|x xs Hx Hxs IHxs]; intros items' items'' Hall Hall'.
    + inversion Hall; subst. inversion Hall'; subst. constructor.
    + inversion Hall as [|? y ? ys [Hk Hv] Hrest]; subst.
      inversion Hall' as [|? z ? zs [Hk' Hv'] Hrest']; subst.
      constructor; eauto. split; [congruence|eauto].
Qed.

Lemma pyval_deep_induction (P : pyval -> Prop) :
  (forall v, children_hold (fun c => P c /\ children_hold P c) v -> P v) ->
  forall v, P v.
Proof.
  intros Hstep.
  assert (Hdeep : forall v, P v /\ children_hold P v).
  { induction v as [| | | |elems IH|items IH|] using pyval_induction;
      try (split; [apply Hstep|]; exact I).
    - split; [apply Hstep; exact IH|].
      simpl. eapply Forall_impl; [|exact IH]. now intros a [Ha _].
    - split; [apply Hstep; exact IH|].
      simpl. eapply Forall_impl; [|exact IH]. now intros a [Ha _]. }
  intros v. apply Hdeep.
Qed.

(** ** dict *)

Lemma dict_get_set_same (items : list (string * pyval)) (k : string) (v v' : pyval) :
  dict_get items k = Some v -> dict_get (dict_set items k v') k = Some v'.
Proof.
  induction items as [|[k0 v0] items IH]; simpl; [discriminate|].
  destruct (String.eqb k0 k) eqn:Hk; simpl; rewrite Hk; auto.
Qed.

Lemma dict_set_coerced (items : list (string * pyval)) (k : string) (v v' : pyval) :
  dict_get items k = Some v ->
  coerced lib v v' ->
  Forall2 (fun kv kv' => fst kv = fst kv' /\ coerced lib (snd kv) (snd kv'))
    items (dict_set items k v').
Proof.
  assert (Hsame : forall l : list (string * pyval),
             Forall2 (fun kv kv' => fst kv = fst kv' /\ coerced lib (snd kv) (snd kv'))
               l l).
  { induction l; constructor; auto. split; auto. constructor. }
  induction items as [|[k0 v0] items IH]; simpl; [discriminate|].
  destruct (String.eqb k0 k) eqn:Hk; intros Hget Hco.
  - inversion Hget; subst. constructor; auto.
  - constructor; auto. split; auto. constructor.
Qed.

Lemma dict_get_coerced (items items' : list (string * pyval)) (k : string) (v : pyval) :
  Forall2 (fun kv kv' => fst kv = fst kv' /\ coerced lib (snd kv) (snd kv'))
    items items' ->
  dict_get items k = Some v ->
  exists v', dict_get items' k = Some v' /\ coerced lib v v'.
Proof.
  induction 1 as [|[k0 v0] [k1 v1] items items' [Hk Hv] Hrest IH]; simpl;
    [discriminate|].
  simpl in Hk. subst k1.
  destruct (String.eqb k0 k); auto.
  intros H; inversion H; subst. eauto.
Qed.

Lemma dict_get_split (items : list (string * pyval)) (k : string) (v : pyval) :
  dict_get items k = Some v ->
  exists pre post,
    items = (pre ++ (k, v) :: post)%list /\ dict_get pre k = None.
Proof.
  induction items as [|[k0 v0] items IH]; simpl; [discriminate|].
  destruct (String.eqb k0 k) eqn:Hk.
  - intros H; inversion H; subst. apply String.eqb_eq in Hk. subst.
    exists [], items. auto.
  - intros H. destruct (IH H) as [pre [post [Hitems Hpre]]].
    exists ((k0, v0) :: pre), post. subst. simpl. rewrite Hk. auto.
Qed.

(** ** Validators are sound *)

Lemma contains_raise (k : string) (o : pyval) (e : pyexc) :
  contains k o = Raise e -> e = TypeError.
Proof. destruct o; simpl; intros H; inversion H; auto. Qed.

Lemma getitem_raise (o : pyval) (k : string) (e : pyexc) :
  getitem o k = Raise e -> exists name, e = BuiltinError name.
Proof.
  destruct o; simpl;
    try (intros Hraise; inversion Hraise; unfold TypeError; eauto; fail).
  destruct (dict_get items k); intros Hraise; inversion Hraise.
  unfold KeyError. eauto.
Qed.

Lemma getitem_ok (o : pyval) (k : string) (v : pyval) :
  getitem o k = Ok v -> exists items, o = VDict items /\ dict_get items k = Some v.
Proof.
  destruct o; simpl; try discriminate.
  destruct (dict_get items k) eqn:H; intros H'; inversion H'; subst. eauto.
Qed.

Lemma dict_get_coerced_back (items items' : list (string * pyval)) (k : string)
    (v' : pyval) :
  Forall2 (fun kv kv' => fst kv = fst kv' /\ coerced lib (snd kv) (snd kv'))
    items items' ->
  dict_get items' k = Some v' ->
  exists v, dict_get items k = Some v /\ coerced lib v v'.
Proof.
  induction 1 as [|[k0 v0] [k1 v1] items items' [Hk Hv] Hrest IH]; simpl;
    [discriminate|].
  simpl in Hk. subst k1.
  destruct (String.eqb k0 k); auto.
  intros H; inversion H; subst. eauto.
Qed.

Lemma nth_error_coerced_back (elems elems' : list pyval) (n : nat) (v' : pyval) :
  Forall2 (coerced lib) elems elems' ->
  nth_error elems' n = Some v' ->
  exists v, nth_error elems n = Some v /\ coerced lib v v'.
Proof.
  intros Hall. revert n.
  induction Hall as [|x y elems elems' Hxy _ IH]; intros [|n]; simpl;
    try discriminate.
  - intros H; inversion H; subst. eauto.
  - apply IH.
Qed.

(** What is found in an instance after some coercions was there before,
    coerced or not. *)
Lemma lookup_deep_coerced_back (path : list pyval) :
  forall a b vb,
    coerced lib a b ->
    lookup_deep b path = Some vb ->
    exists va, lookup_deep a path = Some va /\ coerced lib va vb.
Proof.
  induction path as [|step path IH]; intros a b vb Hco; simpl.
  - intros H; inversion H; subst. eauto.
  - inversion Hco as [x|x dt Hdt|items items' Hall|elems elems' Hall]; subst.
    + intros H. destruct b; try discriminate; destruct step; try discriminate.
      * destruct (0 <=? n)%Z; [|discriminate].
        destruct (nth_error elems (Z.to_nat n)) as [child|]; [|discriminate].
        exists vb. split; auto. constructor.
      * destruct (dict_get items s) as [child|]; [|discriminate].
        exists vb. split; auto. constructor.
    + destruct (to_datetime_ok _ _ Hdt) as [_ [wall ->]]. discriminate.
    + destruct step; try discriminate.
      destruct (dict_get items' s) as [child'|] eqn:Hget'; [|discriminate].
      destruct (dict_get_coerced_back _ _ _ _ Hall Hget') as [child [Hget Hchild]].
      rewrite Hget. intros H. eapply IH; eauto.
    + destruct step; try discriminate.
      destruct (0 <=? n)%Z; [|discriminate].
      destruct (nth_error elems' (Z.to_nat n)) as [child'|] eqn:Hnth'; [|discriminate].
      destruct (nth_error_coerced_back _ _ _ _ Hall Hnth') as [child [Hnth Hchild]].
      rewrite Hnth. intros H. eapply IH; eauto.
Qed.

(** An exception reported from an instance after some coercions is
    reported from the instance before them. *)
Lemma reported_back (a b : pyval) (e : pyexc) :
  coerced lib a b -> reported lib b e -> reported lib a e.
Proof.
  intros Hco. destruct e as [name|message path rejected|message context]; simpl; auto.
  - intros [[value [Hv Hvr]] Hlib]. split; auto.
    destruct (lookup_deep_coerced_back _ _ _ _ Hco Hv) as [va [Hva Hvav]].
    exists va. split; auto. eapply coerced_trans; eauto.
  - intros [path [property [found [value [cause [Hm [Hc [Hdt [Hn [Hf Hfv]]]]]]]]]].
    destruct (lookup_deep_coerced_back _ _ _ _ Hco Hf) as [va [Hva Hvav]].
    exists path, property, va, value, cause. repeat split; auto.
    eapply coerced_trans; eauto.
Qed.

(** The error of a child, with the key of the child in front of its
    path, is reported from the object. *)
Lemma reported_under_key (inst child : pyval) (property : string) (e : pyexc) :
  getitem inst property = Ok child ->
  reported lib child e ->
  reported lib inst (add_path (VStr property) e).
Proof.
  intros Hget. apply getitem_ok in Hget as [items [-> Hget]].
  destruct e as [name|message path rejected|message context]; simpl; auto.
  - rewrite Hget. auto.
  - intros [path [p [found [value [cause [Hm [Hc [Hdt [Hn [Hf Hfv]]]]]]]]]].
    exists (VStr property :: path), p, found, value, cause. repeat split; auto.
    simpl. now rewrite Hget.
Qed.

Lemma reported_under_index (prefix rest : list pyval) (item : pyval) (e : pyexc) :
  reported lib item e ->
  reported lib (VList (prefix ++ item :: rest)%list)
    (add_path (VInt (Z.of_nat (List.length prefix))) e).
Proof.
  assert (Hnth : nth_error (prefix ++ item :: rest)%list
                   (Z.to_nat (Z.of_nat (List.length prefix))) = Some item).
  { rewrite Nat2Z.id, nth_error_app2, Nat.sub_diag by lia. reflexivity. }
  assert (Hpos : (0 <=? Z.of_nat (List.length prefix))%Z = true)
    by (apply Z.leb_le; lia).
  destruct e as [name|message path rejected|message context]; simpl; auto.
  - rewrite Hpos, Hnth. auto.
  - intros [path [p [found [value [cause [Hm [Hc [Hdt [Hn [Hf Hfv]]]]]]]]]].
    exists (VInt (Z.of_nat (List.length prefix)) :: path), p, found, value, cause.
    repeat split; auto.
    simpl. now rewrite Hpos, Hnth.
Qed.

Lemma sound_ok (inst : pyval) : sound lib inst (Ok tt, inst).
Proof. split; simpl; auto. constructor. Qed.

Lemma sound_builtin (inst : pyval) (name : string) :
  sound lib inst (Raise (BuiltinError name), inst).
Proof. split; simpl; auto. constructor. Qed.

Lemma sound_then (inst inst1 : pyval) (out : result unit * pyval) :
  coerced lib inst inst1 -> sound lib inst1 out -> sound lib inst out.
Proof.
  intros H1 [H2 H3]. split; [eapply coerced_trans; eauto|].
  destruct (fst out); auto. eapply reported_back; eauto.
Qed.

Lemma for_each_sound {A : Type} (body : A -> inplace unit) (l : list A) :
  (forall x, In x l -> forall s, sound lib s (body x s)) ->
  forall s, sound lib s (for_each body l s).
Proof.
  induction l as [|x l IH]; intros Hbody s; simpl.
  - apply sound_ok.
  - unfold and_then.
    pose proof (Hbody x (or_introl eq_refl) s) as Hx.
    destruct (body x s) as [[[]|e] s1]; auto.
    destruct Hx as [Hco _]. eapply sound_then; eauto.
    apply IH. intros y Hy. apply Hbody. now right.
Qed.

Lemma with_child_coerced (inst child child' : pyval) (k : string) :
  getitem inst k = Ok child ->
  coerced lib child child' ->
  coerced lib inst (with_child inst k child').
Proof.
  intros Hget Hco. apply getitem_ok in Hget as [items [Hinst Hget]]. subst.
  simpl. apply coerced_dict. eapply dict_set_coerced; eauto.
Qed.

Lemma set_default_sound (property : string) (subschema inst : pyval) :
  sound lib inst (set_default lib property subschema inst).
Proof.
  unfold set_default, and_then, lift, ret.
  destruct (contains "format" subschema) as [[|]|e] eqn:Hfmt;
    [| apply sound_ok | apply contains_raise in Hfmt; subst; apply sound_builtin].
  destruct (getitem subschema "format") as [format|e] eqn:Hformat;
    [| apply getitem_raise in Hformat as [name ->]; apply sound_builtin].
  destruct (eq_str format "date-time"); [|apply sound_ok].
  destruct (contains property inst) as [[|]|e] eqn:Hin;
    [| apply sound_ok | apply contains_raise in Hin; subst; apply sound_builtin].
  destruct (getitem inst property) as [value|e] eqn:Hvalue;
    [| apply getitem_raise in Hvalue as [name ->]; apply sound_builtin].
  destruct (is_None value) eqn:Hnone; [apply sound_ok|].
  destruct (to_datetime lib value) as [dt|e] eqn:Hdt.
  - destruct (getitem_ok _ _ _ Hvalue) as [items [-> Hget]]. simpl.
    split; simpl; auto.
    apply coerced_dict. eapply dict_set_coerced; eauto.
    now apply coerced_datetime.
  - split; simpl; [constructor|].
    destruct (getitem_ok _ _ _ Hvalue) as [items [-> Hget]].
    exists [], property, value, value, e. repeat split; auto.
    + simpl. now rewrite Hget.
    + constructor.
Qed.

Section Draft4Sound.

Variable descend : pyval -> inplace unit.

Lemma properties_draft4_sound (properties inst schema : pyval) :
  children_hold (fun sub => forall c, sound lib c (descend sub c)) properties ->
  sound lib inst (properties_draft4 descend properties inst schema).
Proof.
  intros Hsub. unfold properties_draft4.
  destruct (is_dict inst); [|apply sound_ok].
  destruct properties as [| | | | |props|]; try apply sound_builtin.
  apply for_each_sound. intros [property subschema] Hin s.
  simpl in Hsub. rewrite Forall_forall in Hsub.
  specialize (Hsub _ Hin). simpl in Hsub.
  unfold descend_property.
  destruct (contains property s) as [[|]|e] eqn:Hc;
    [| apply sound_ok | apply contains_raise in Hc; subst; apply sound_builtin].
  destruct (getitem s property) as [child|e] eqn:Hchild;
    [| apply getitem_raise in Hchild as [name ->]; apply sound_builtin].
  specialize (Hsub child).
  destruct (descend subschema child) as [r child'].
  destruct Hsub as [Hco Hr]. split.
  - simpl. eapply with_child_coerced; eauto.
  - simpl in *. destruct r as [[]|e]; simpl; auto.
    eapply reported_under_key; eauto.
Qed.

Lemma index_after (prefix : list pyval) (item : pyval) :
  (Z.of_nat (List.length prefix) + 1)%Z
  = Z.of_nat (List.length (prefix ++ [item])%list).
Proof. rewrite length_app. simpl. lia. Qed.

Lemma each_item_sound (subschema : pyval) (elems : list pyval) :
  (forall c, sound lib c (descend subschema c)) ->
  forall prefix : list pyval,
    Forall2 (coerced lib) elems
      (snd (each_item descend subschema (Z.of_nat (List.length prefix)) elems))
    /\ match fst (each_item descend subschema (Z.of_nat (List.length prefix)) elems) with
       | Raise e => reported lib (VList (prefix ++ elems)%list) e
       | Ok _ => True
       end.
Proof.
  intros Hsub. induction elems as [|item rest IH]; intros prefix; simpl.
  - split; auto.
  - pose proof (Hsub item) as Hitem.
    destruct (descend subschema item) as [[[]|e] item']; destruct Hitem as [Hco Hr].
    + specialize (IH (prefix ++ [item])%list).
      rewrite <- index_after, <- app_assoc in IH. simpl in IH.
      destruct (each_item descend subschema (Z.of_nat (List.length prefix) + 1) rest)
        as [r rest'].
      simpl in *. destruct IH as [IH1 IH2]. split; auto.
    + simpl in *. split.
      * constructor; auto. clear. induction rest; constructor; auto. constructor.
      * now apply reported_under_index.
Qed.

Lemma zip_items_sound (subschemas : list pyval) :
  Forall (fun sub => forall c, sound lib c (descend sub c)) subschemas ->
  forall elems prefix,
    Forall2 (coerced lib) elems
      (snd (zip_items descend subschemas (Z.of_nat (List.length prefix)) elems))
    /\ match fst (zip_items descend subschemas (Z.of_nat (List.length prefix)) elems) with
       | Raise e => reported lib (VList (prefix ++ elems)%list) e
       | Ok _ => True
       end.
Proof.
  assert (Hsame : forall l : list pyval, Forall2 (coerced lib) l l).
  { induction l; constructor; auto. constructor. }
  induction 1 as [|sub subs Hsub Hsubs IH]; intros elems prefix.
  - simpl. split; auto.
  - destruct elems as [|item rest]; simpl; [split; auto|].
    pose proof (Hsub item) as Hitem.
    destruct (descend sub item) as [[[]|e] item']; destruct Hitem as [Hco Hr].
    + specialize (IH rest (prefix ++ [item])%list).
      rewrite <- index_after, <- app_assoc in IH. simpl in IH.
      destruct (zip_items descend subs (Z.of_nat (List.length prefix) + 1) rest)
        as [r rest'].
      simpl in *. destruct IH as [IH1 IH2]. split; auto.
    + simpl in *. split; auto.
      now apply reported_under_index.
Qed.

Lemma items_draft4_sound (items inst schema : pyval) :
  (forall c, sound lib c (descend items c)) ->
  children_hold (fun sub => forall c, sound lib c (descend sub c)) items ->
  sound lib inst (items_draft4 descend items inst schema).
Proof.
  intros Hself Hsub. unfold items_draft4.
  destruct inst as [| | | |elems| |]; try apply sound_ok.
  destruct items as [| | |s|subschemas|props|]; try apply sound_builtin.
  - destruct elems; [apply sound_ok|]. destruct s; [apply sound_ok|apply sound_builtin].
  - destruct (zip_items_sound subschemas Hsub elems []) as [H1 H2].
    simpl in H1, H2.
    destruct (zip_items descend subschemas 0 elems) as [r elems'].
    split; simpl in *; auto. now apply coerced_list.
  - destruct (each_item_sound (VDict props) elems Hself []) as [H1 H2].
    simpl in H1, H2.
    destruct (each_item descend (VDict props) 0 elems) as [r elems'].
    split; simpl in *; auto. now apply coerced_list.
Qed.

Lemma allOf_draft4_sound (allOf inst schema : pyval) :
  children_hold (fun sub => forall c, sound lib c (descend sub c)) allOf ->
  sound lib inst (allOf_draft4 descend allOf inst schema).
Proof.
  intros Hsub. unfold allOf_draft4.
  destruct allOf as [| | |s|subschemas|props|]; try apply sound_builtin.
  - destruct s; [apply sound_ok|apply sound_builtin].
  - apply for_each_sound. intros sub Hin s.
    simpl in Hsub. rewrite Forall_forall in Hsub. now apply Hsub.
  - destruct props; [apply sound_ok|apply sound_builtin].
Qed.

End Draft4Sound.

Lemma iter_errors_dict (cls : validator_class) (keywords : list (string * pyval))
    (inst : pyval) :
  iter_errors lib cls (VDict keywords) inst
  = match schema_ref keywords with
    | Some ref => (leaf lib "$ref" ref inst (VDict keywords), inst)
    | None =>
        for_each (call_validator lib cls (iter_errors lib cls) (VDict keywords))
          keywords inst
    end.
Proof. reflexivity. Qed.

Lemma leaf_sound (k : string) (v inst schema : pyval) :
  sound lib inst (leaf lib k v inst schema, inst).
Proof.
  unfold leaf.
  destruct (leaf_validators lib k) as [validator|] eqn:Hk; [|apply sound_ok].
  destruct (validator v inst schema) eqn:Hv; simpl; split; simpl; auto;
    try constructor.
  - exists inst. split; auto. constructor.
  - exists k, validator, v, schema. auto.
Qed.

Lemma set_defaults_sound
    (validate_properties : pyval -> pyval -> pyval -> result unit * pyval)
    (properties inst schema : pyval) :
  sound lib inst (validate_properties properties inst schema) ->
  sound lib inst (set_defaults lib validate_properties properties inst schema).
Proof.
  intros Hvp. unfold set_defaults.
  destruct (validate_properties properties inst schema) as [[[]|e] inst1]; auto.
  destruct Hvp as [Hco _]. simpl in Hco.
  destruct (dict_items properties) as [props|e] eqn:Hitems.
  - eapply sound_then; eauto. apply for_each_sound. intros x _ s.
    apply set_default_sound.
  - destruct properties; inversion Hitems; subst; split; simpl; auto.
Qed.

(** Whatever the schema, a validation coerces strings of the instance
    and changes nothing else, and what it raises is well reported. *)
Lemma iter_errors_sound (cls : validator_class) (schema : pyval) :
  forall inst, sound lib inst (iter_errors lib cls schema inst).
Proof.
  induction schema as [schema IH] using pyval_deep_induction. intros inst.
  destruct schema as [| | | | |keywords|]; try apply sound_builtin.
  rewrite iter_errors_dict.
  destruct (schema_ref keywords); [apply leaf_sound|].
  apply for_each_sound. intros [k v] Hin s.
  simpl in IH. rewrite Forall_forall in IH.
  destruct (IH _ Hin) as [Hv Hchildren]. simpl in Hv, Hchildren.
  unfold call_validator.
  destruct (String.eqb k "properties").
  { destruct cls; simpl.
    - now apply properties_draft4_sound.
    - apply set_defaults_sound. now apply properties_draft4_sound. }
  destruct (String.eqb k "items"); [now apply items_draft4_sound|].
  destruct (String.eqb k "allOf"); [now apply allOf_draft4_sound|].
  apply leaf_sound.
Qed.

(** ** The failures of the transform *)


(** ** Date-times under nested properties *)

Lemma children_hold_all (P : pyval -> Prop) (v : pyval) :
  (forall x, P x) -> children_hold P v.
Proof.
  intros H. destruct v; simpl; auto; apply Forall_forall; auto.
Qed.

Lemma descend_property_sound (cls : validator_class) (ps : string * pyval)
    (s : pyval) :
  sound lib s (descend_property (iter_errors lib cls) ps s).
Proof.
  destruct ps as [property subschema]. unfold descend_property.
  destruct (contains property s) as [[|]|e] eqn:Hc;
    [| apply sound_ok | apply contains_raise in Hc; subst; apply sound_builtin].
  destruct (getitem s property) as [child|e] eqn:Hchild;
    [| apply getitem_raise in Hchild as [name ->]; apply sound_builtin].
  pose proof (iter_errors_sound cls subschema child) as Hsub.
  destruct (iter_errors lib cls subschema child) as [r child'].
  destruct Hsub as [Hco Hr]. split.
  - simpl. eapply with_child_coerced; eauto.
  - simpl in *. destruct r as [[]|e]; simpl; auto.
    eapply reported_under_key; eauto.
Qed.

Lemma call_validator_sound (cls : validator_class) (schema : pyval)
    (kv : string * pyval) (s : pyval) :
  sound lib s (call_validator lib cls (iter_errors lib cls) schema kv s).
Proof.
  destruct kv as [k v]. unfold call_validator.
  assert (Hall : forall sub c, sound lib c (iter_errors lib cls sub c))
    by (intros; apply iter_errors_sound).
  assert (Hch : forall x,
             children_hold (fun sub => forall c, sound lib c (iter_errors lib cls sub c))
               x) by (intros; now apply children_hold_all).
  destruct (String.eqb k "properties").
  { destruct cls; simpl.
    - now apply properties_draft4_sound.
    - apply set_defaults_sound. now apply properties_draft4_sound. }
  destruct (String.eqb k "items"); [now apply items_draft4_sound|].
  destruct (String.eqb k "allOf"); [now apply allOf_draft4_sound|].
  apply leaf_sound.
Qed.

Lemma for_each_coerced {A : Type} (body : A -> inplace unit) (l : list A)
    (s s' : pyval) (r : result unit) :
  (forall x s, sound lib s (body x s)) ->
  for_each body l s = (r, s') ->
  coerced lib s s'.
Proof.
  intros Hbody Hrun.
  pose proof (for_each_sound body l (fun x _ => Hbody x) s) as [Hco _].
  now rewrite Hrun in Hco.
Qed.

Lemma for_each_at {A : Type} (body : A -> inplace unit) (pre post : list A) (x : A)
    (s s' : pyval) :
  for_each body (pre ++ x :: post)%list s = (Ok tt, s') ->
  exists s1 s2,
    for_each body pre s = (Ok tt, s1)
    /\ body x s1 = (Ok tt, s2)
    /\ for_each body post s2 = (Ok tt, s').
Proof.
  revert s. induction pre as [|y pre IH]; intros s; simpl; unfold and_then.
  - destruct (body x s) as [[[]|e] s2] eqn:Hx; [|discriminate].
    intros H. exists s, s2. auto.
  - destruct (body y s) as [[[]|e] s0]; [|discriminate].
    intros H. apply IH in H. exact H.
Qed.

Lemma lookup_path_coerced (path : list string) :
  forall inst inst1 v,
    coerced lib inst inst1 ->
    lookup_path inst path = Some v ->
    exists v1, lookup_path inst1 path = Some v1 /\ coerced lib v v1.
Proof.
  induction path as [|k path IH]; intros inst inst1 v Hco; simpl.
  - intros H; inversion H; subst. eauto.
  - destruct inst as [| | | | |items|]; try discriminate.
    destruct (dict_get items k) as [child|] eqn:Hget; [|discriminate].
    intros Hv.
    apply coerced_from_dict in Hco as [items' [-> Hall]].
    destruct (dict_get_coerced _ _ _ _ Hall Hget) as [child' [Hget' Hchild]].
    rewrite Hget'. eauto.
Qed.

Lemma lookup_path_datetime_kept (path : list string) (inst inst' : pyval) (wall : Z) :
  coerced lib inst inst' ->
  lookup_path inst path = Some (VDatetime wall) ->
  lookup_path inst' path = Some (VDatetime wall).
Proof.
  intros Hco Hv.
  destruct (lookup_path_coerced path _ _ _ Hco Hv) as [v1 [Hv1 Hco1]].
  apply coerced_to_datetime in Hco1. now subst.
Qed.

Lemma coerced_not_None (v v1 : pyval) :
  coerced lib v v1 -> is_None v = false -> is_None v1 = false.
Proof.
  intros Hco Hv. destruct v1; auto.
  apply coerced_to_None in Hco. now subst.
Qed.

(** What [set_defaults] does to a property that holds a value and whose
    subschema says date-time, when it does not raise. *)
Lemma set_default_converts (property : string) (subschema : pyval)
    (items : list (string * pyval)) (v s' : pyval) :
  getitem subschema "format" = Ok (VStr "date-time") ->
  dict_get items property = Some v ->
  is_None v = false ->
  set_default lib property subschema (VDict items) = (Ok tt, s') ->
  exists wall,
    to_datetime lib v = Ok (VDatetime wall)
    /\ s' = VDict (dict_set items property (VDatetime wall)).
Proof.
  intros Hformat Hget Hnone.
  unfold set_default, and_then, lift, ret.
  destruct (getitem_ok _ _ _ Hformat) as [kws [-> Hkws]].
  unfold contains, getitem, setitem. rewrite Hkws. cbn.
  rewrite Hget. cbn. rewrite Hget. cbn. rewrite Hnone.
  destruct (to_datetime lib v) as [dt|e] eqn:Hdt; [|discriminate].
  destruct (to_datetime_ok _ _ Hdt) as [_ [wall ->]].
  intros H; inversion H; subst. eauto.
Qed.

Lemma lookup_path_cons (s : pyval) (k : string) (path : list string) (v : pyval) :
  lookup_path s (k :: path) = Some v ->
  exists items child,
    s = VDict items /\ dict_get items k = Some child
    /\ lookup_path child path = Some v.
Proof.
  simpl. destruct s as [| | | | |items|]; try discriminate.
  destruct (dict_get items k) as [child|] eqn:Hget; [|discriminate].
  eauto.
Qed.

(** The walk of the extended validator through a schema that has
    [properties]: it reaches that keyword, checks the properties, then
    sets the defaults, and goes on. *)
Lemma iter_errors_at_properties (keywords props : list (string * pyval))
    (inst inst' : pyval) :
  schema_ref keywords = None ->
  dict_get keywords "properties" = Some (VDict props) ->
  iter_errors lib Extended (VDict keywords) inst = (Ok tt, inst') ->
  exists s1 s2 s3,
    coerced lib inst s1
    /\ properties_draft4 (iter_errors lib Extended) (VDict props) s1 (VDict keywords)
       = (Ok tt, s2)
    /\ for_each (fun ps => set_default lib (fst ps) (snd ps)) props s2 = (Ok tt, s3)
    /\ coerced lib s3 inst'.
Proof.
  intros Href Hprops Hrun. rewrite iter_errors_dict, Href in Hrun.
  destruct (dict_get_split _ _ _ Hprops) as [pre [post [-> Hpre]]].
  destruct (for_each_at _ _ _ _ _ _ Hrun) as [s1 [s3 [H1 [H2 H3]]]].
  unfold call_validator in H2. simpl in H2.
  unfold set_defaults in H2.
  destruct (properties_draft4 (iter_errors lib Extended) (VDict props) s1
              (VDict (pre ++ ("properties", VDict props) :: post)%list))
    as [[[]|e] s2] eqn:Hcheck; [|discriminate].
  simpl in H2.
  exists s1, s2, s3. repeat split; auto.
  - eapply for_each_coerced; [|exact H1]. intros; apply call_validator_sound.
  - eapply for_each_coerced; [|exact H3]. intros; apply call_validator_sound.
Qed.

(** C9. Whenever the validation of the transform passes, a property that
    the schema reaches through [properties], at any depth, and declares
    with format date-time, and that holds a value other than [None] in
    the record, holds in the result the [datetime] made of that value. *)
Theorem nested_date_times_are_converted (schema : pyval) (path : list string) :
  flagged schema path ->
  forall (inst inst' v : pyval),
    validate lib (extend_with_default Draft4Validator) schema inst = (Ok tt, inst') ->
    lookup_path inst path = Some v ->
    is_None v = false ->
    exists wall,
      to_datetime lib v = Ok (VDatetime wall)
      /\ lookup_path inst' path = Some (VDatetime wall).
Proof.
  unfold validate, extend_with_default.
  induction 1 as [keywords props property subschema Href Hprops Hsub Hformat
                 |keywords props property subschema path Href Hprops Hsub Hflag IH];
    intros inst inst' v Hrun Hv Hnone.
  - destruct (iter_errors_at_properties _ _ _ _ Href Hprops Hrun)
      as [s1 [s2 [s3 [H1 [Hcheck [Hset H3]]]]]].
    assert (H12 : coerced lib s1 s2).
    { pose proof (properties_draft4_sound (iter_errors lib Extended) (VDict props) s1
                    (VDict keywords)) as Hs.
      rewrite Hcheck in Hs. apply Hs.
      apply children_hold_all. intros; apply iter_errors_sound. }
    destruct (dict_get_split _ _ _ Hsub) as [pre [post [-> Hpre]]].
    destruct (for_each_at _ _ _ _ _ _ Hset) as [sB [sC [HB [Hx HC]]]].
    assert (H2B : coerced lib s2 sB).
    { eapply for_each_coerced; [|exact HB]. intros; apply set_default_sound. }
    assert (HC3 : coerced lib sC s3).
    { eapply for_each_coerced; [|exact HC]. intros; apply set_default_sound. }
    assert (HiB : coerced lib inst sB).
    { eapply coerced_trans; [exact H1|]. eapply coerced_trans; eauto. }
    destruct (lookup_path_coerced _ _ _ _ HiB Hv) as [vB [HvB HcoB]].
    destruct (lookup_path_cons _ _ _ _ HvB) as [itemsB [child [-> [HgetB Hchild]]]].
    simpl in Hchild. inversion Hchild; subst child.
    simpl in Hx.
    destruct (set_default_converts _ _ _ _ _ Hformat HgetB
                (coerced_not_None _ _ HcoB Hnone) Hx) as [wall [Hdt ->]].
    destruct (to_datetime_ok _ _ Hdt) as [[s ->] _].
    apply coerced_to_str in HcoB. subst v.
    exists wall. split; auto.
    eapply lookup_path_datetime_kept; [exact H3|].
    eapply lookup_path_datetime_kept; [exact HC3|].
    simpl. now rewrite (dict_get_set_same _ _ _ _ HgetB).
  - destruct (iter_errors_at_properties _ _ _ _ Href Hprops Hrun)
      as [s1 [s2 [s3 [H1 [Hcheck [Hset H3]]]]]].
    assert (H23 : coerced lib s2 s3).
    { eapply for_each_coerced; [|exact Hset]. intros; apply set_default_sound. }
    destruct (lookup_path_coerced _ _ _ _ H1 Hv) as [v1 [Hv1 Hco1]].
    destruct (lookup_path_cons _ _ _ _ Hv1) as [items1 [child1 [-> [Hget1 Hchild1]]]].
    unfold properties_draft4 in Hcheck. simpl in Hcheck.
    destruct (dict_get_split _ _ _ Hsub) as [pre [post [-> Hpre]]].
    destruct (for_each_at _ _ _ _ _ _ Hcheck) as [sB [sC [HB [Hx HC]]]].
    assert (H1B : coerced lib (VDict items1) sB).
    { eapply for_each_coerced; [|exact HB]. intros; apply descend_property_sound. }
    assert (HC2 : coerced lib sC s2).
    { eapply for_each_coerced; [|exact HC]. intros; apply descend_property_sound. }
    destruct (lookup_path_coerced _ _ _ _ H1B Hv1) as [vB [HvB HcoB]].
    destruct (lookup_path_cons _ _ _ _ HvB) as [itemsB [childB [-> [HgetB HchildB]]]].
    unfold descend_property in Hx. simpl in Hx. rewrite HgetB in Hx.
    destruct (iter_errors lib Extended subschema childB) as [[[]|e] child']
      eqn:Hdescend; [|discriminate].
    simpl in Hx. inversion Hx; subst sC.
    assert (HvvB : coerced lib v vB) by (eapply coerced_trans; eauto).
    destruct (IH _ _ _ Hdescend HchildB (coerced_not_None _ _ HvvB Hnone))
      as [wall [Hdt Hfound]].
    destruct (to_datetime_ok _ _ Hdt) as [[s ->] _].
    apply coerced_to_str in HvvB. subst v.
    exists wall. split; auto.
    eapply lookup_path_datetime_kept; [exact H3|].
    eapply lookup_path_datetime_kept; [exact H23|].
    eapply lookup_path_datetime_kept; [exact HC2|].
    simpl. now rewrite (dict_get_set_same _ _ _ _ HgetB).
Qed.

(** ** When the coercion takes place *)


(** * More of what the program does *)

(** ** A line that fails *)

Lemma process_line_raise (line : pyval) (vars vars' : locals) (w w' : world)
    (e : pyexc) :
  process_line lib line (vars, w) = (Raise e, (vars', w')) ->
  vars' = vars /\ events w' = events w /\ stitchclient w' = stitchclient w.
Proof.
  run_action.
  destruct (getitem line "type") as [t|e0].
  2:{ intros H; inversion H; subst; auto. }
  simpl. rewrite ?deref_new.
  destruct (eq_str t "RECORD").
  { simpl. rewrite ?deref_new.
    destruct (getitem line "stream") as [stream|e0].
    2:{ intros H; inversion H; subst; auto. }
    simpl.
    destruct (parse_key_fields stream (schemas vars)) as [keys|e0].
    2:{ intros H; inversion H; subst; auto. }
    unfold read_clock. simpl.
    destruct (parse_record lib (List.length (objects w)) (schemas vars)
                (objects w ++ [line])%list) as [[data|e0] h1].
    2:{ intros H; inversion H; subst; auto. }
    unfold client_push. simpl.
    match goal with
    | |- context [DryRunClient.push ?c ?m ?a] => destruct (DryRunClient.push c m a)
    end.
    discriminate. }
  destruct (eq_str t "STATE").
  { simpl. rewrite ?deref_new.
    destruct (getitem line "value") as [v|e0].
    2:{ intros H; inversion H; subst; auto. }
    discriminate. }
  destruct (eq_str t "SCHEMA"); simpl; rewrite ?deref_new.
  - destruct (getitem line "schema") as [schema|e0].
    2:{ intros H; inversion H; subst; auto. }
    simpl. rewrite ?deref_new.
    destruct (getitem line "stream") as [stream|e0].
    2:{ intros H; inversion H; subst; auto. }
    simpl.
    destruct (registry_setitem (schemas vars) stream schema) as [schemas'|e0].
    2:{ intros H; inversion H; subst; auto. }
    discriminate.
  - destruct (getitem line "type") as [t'|e0];
      intros H; inversion H; subst; auto.
Qed.

(** ** The batches of [DryRunClient] *)

Lemma callbacks_app (evs1 evs2 : list event) :
  callbacks (evs1 ++ evs2)%list = (callbacks evs1 ++ callbacks evs2)%list.
Proof. unfold callbacks. apply flat_map_app. Qed.

Lemma callbacks_push_state (states : list pyval) :
  callbacks (push_state lib states) = [].
Proof.
  rewrite push_state_lines. induction (non_null states); simpl; auto.
Qed.

(** The books balance: what was outstanding and what is pushed is what
    is reported and what is outstanding at the end. *)
Lemma ledger_concat (o1 o2 : list pyval) (evs : list event) :
  ledger lib o1 evs o2 ->
  (o1 ++ pushed_args evs)%list = (List.concat (callbacks evs) ++ o2)%list.
Proof.
  induction 1 as [o|o message arg evs after _ IH|o evs after _ IH].
  - simpl. now rewrite app_nil_r.
  - simpl. rewrite <- IH, <- app_assoc. reflexivity.
  - change (Callback o :: push_state lib o ++ evs)%list
      with ([Callback o] ++ push_state lib o ++ evs)%list.
    rewrite !pushed_args_app, !callbacks_app.
    rewrite pushed_args_push_state, callbacks_push_state. simpl.
    simpl in IH. rewrite IH, app_assoc. reflexivity.
Qed.

(** One push: a batch is handed over when it is the hundredth. *)
Lemma push_batches (c : DryRunClient.t) (message arg : pyval) :
  DryRunClient.callback_function c = push_state lib ->
  (List.length (DryRunClient.pending_callback_args c) < 100)%nat ->
  Forall (fun batch => List.length batch = 100%nat)
    (callbacks (fst (DryRunClient.push c message arg)))
  /\ (List.length (DryRunClient.pending_callback_args
                     (snd (DryRunClient.push c message arg))) < 100)%nat.
Proof.
  intros Hcb Hlen. unfold DryRunClient.push, DryRunClient.flush.
  cbn [DryRunClient.pending_callback_args DryRunClient.callback_function].
  rewrite length_app. cbn [List.length].
  match goal with
  | |- context [(?n mod 100 =? 0)%nat] => destruct (n mod 100 =? 0)%nat eqn:Hmod
  end; cbn [fst snd DryRunClient.pending_callback_args callbacks flat_map app].
  - rewrite Hcb, callbacks_push_state. split; [|cbn [List.length]; lia].
    constructor; [|constructor].
    rewrite length_app. cbn [List.length].
    apply Nat.eqb_eq in Hmod.
    apply Nat.Div0.mod_divides in Hmod as [q Hq]. lia.
  - split; [constructor|].
    rewrite length_app. cbn [List.length].
    apply Nat.eqb_neq in Hmod.
    assert (List.length (DryRunClient.pending_callback_args c) + 1 <> 100)%nat.
    { intros Heq. apply Hmod. rewrite Heq. reflexivity. }
    lia.
Qed.

(** The loop, wherever it ends: the client keeps its books, every batch
    it hands over in the loop holds a hundred states, and fewer than a
    hundred are left with it. *)
Lemma persist_loop_batches (lines : list pyval) :
  forall (vars vars' : locals) (w w' : world) (r : result unit),
    persist_loop lib lines (vars, w) = (r, (vars', w')) ->
    DryRunClient.callback_function (stitchclient w) = push_state lib ->
    (List.length (DryRunClient.pending_callback_args (stitchclient w)) < 100)%nat ->
    exists evs,
      events w' = (events w ++ evs)%list
      /\ ledger lib (DryRunClient.pending_callback_args (stitchclient w)) evs
           (DryRunClient.pending_callback_args (stitchclient w'))
      /\ Forall (fun batch => List.length batch = 100%nat) (callbacks evs)
      /\ DryRunClient.callback_function (stitchclient w') = push_state lib
      /\ (List.length (DryRunClient.pending_callback_args (stitchclient w')) < 100)%nat.
Proof.
  induction lines as [|line rest IH]; intros vars vars' w w' r Hrun Hcb Hlen.
  - inversion Hrun; subst. exists []. rewrite app_nil_r.
    repeat split; auto. constructor.
  - rewrite persist_loop_cons in Hrun.
    destruct (process_line lib line (vars, w)) as [[[]|e] [vars1 w1]] eqn:Hline.
    + destruct (process_line_ok _ _ _ _ _ Hline)
        as [[Hrec [message [Hvars [Hev Hcl]]]]
           |[[Hrec [Hstate [Hvars Hw]]]|[Hrec [Hstate [_ [Hvars Hw]]]]]].
      * destruct (push_ledger (stitchclient w) message (state vars) Hcb)
          as [Hled [_ Hcb1]].
        destruct (push_batches (stitchclient w) message (state vars) Hcb Hlen)
          as [Hfull Hlen1].
        rewrite <- Hcl in Hled, Hcb1, Hlen1.
        destruct (IH vars1 vars' w1 w' r Hrun Hcb1 Hlen1)
          as [evs [Hev' [Hl' [Hf' [Hcb' Hlen']]]]].
        exists (fst (DryRunClient.push (stitchclient w) message (state vars)) ++ evs)%list.
        repeat split; auto.
        -- rewrite Hev', Hev. now rewrite app_assoc.
        -- eapply ledger_app; eauto.
        -- rewrite callbacks_app. apply Forall_app. split; auto.
      * subst w1. exact (IH vars1 vars' (loaded line w) w' r Hrun Hcb Hlen).
      * subst w1. exact (IH vars1 vars' (loaded line w) w' r Hrun Hcb Hlen).
    + inversion Hrun; subst.
      destruct (process_line_raise _ _ _ _ _ _ Hline) as [_ [Hev Hcl]].
      exists []. rewrite app_nil_r, Hcl.
      repeat split; auto; constructor.
Qed.

Lemma persist_lines_loop (lines : list pyval) (w : world) :
  exists (r : result unit) (vars' : locals),
    persist_loop lib lines (mkLocals VNone [], w)
    = (r, (vars', snd (persist_lines lib lines w)))
    /\ fst (persist_lines lib lines w)
       = match r with
         | Ok _ => Ok (state vars')
         | Raise e => Raise e
         end.
Proof.
  unfold persist_lines.
  destruct (persist_loop lib lines (mkLocals VNone [], w)) as [[[]|e] [vars' w']].
  - exists (Ok tt), vars'. auto.
  - exists (Raise e), vars'. auto.
Qed.

(** The trace of [do_sync], whether the run comes to its end or fails:
    the trace of the loop, the batch of [__exit__], and the final state
    when there is one. *)
Lemma do_sync_trace (lines : list pyval) (w0 : world) :
  let w1 := snd (persist_lines lib lines (enter lib w0)) in
  let last := DryRunClient.pending_callback_args (stitchclient w1) in
  exists (evs : list event),
    events w1 = (events w0 ++ evs)%list
    /\ ledger lib [] evs last
    /\ Forall (fun batch => List.length batch = 100%nat) (callbacks evs)
    /\ (List.length last < 100)%nat
    /\ do_sync lib lines w0
       = (match fst (persist_lines lib lines (enter lib w0)) with
          | Ok _ => Ok tt
          | Raise e => Raise e
          end,
          mkWorld (objects w1)
            (DryRunClient.new (push_state lib) [])
            (events w1 ++ Callback last :: push_state lib last
             ++ match fst (persist_lines lib lines (enter lib w0)) with
                | Ok final =>
                    if is_None final then []
                    else [Stdout (str lib final ++ newline)]
                | Raise _ => []
                end)%list
            (clock_readings w1)).
Proof.
  intros w1 last.
  destruct (persist_lines_loop lines (enter lib w0)) as [r [vars' [Hloop Hfst]]].
  fold w1 in Hloop.
  destruct (persist_loop_batches lines _ _ _ _ _ Hloop eq_refl)
    as [evs [Hev [Hled [Hfull [Hcb Hlen]]]]].
  { simpl. lia. }
  exists evs. repeat split; auto.
  unfold do_sync.
  destruct (persist_lines lib lines (enter lib w0)) as [[final|e] w1'] eqn:Hp.
  - subst w1 last. simpl in *. unfold client_exit, DryRunClient.exit, DryRunClient.flush.
    simpl. rewrite Hcb.
    destruct (is_None final); unfold emit; simpl;
      rewrite <- ?app_assoc; simpl; rewrite ?app_nil_r; reflexivity.
  - subst w1 last. simpl in *. unfold client_exit, DryRunClient.exit, DryRunClient.flush.
    simpl. rewrite Hcb. unfold emit. simpl. rewrite ?app_nil_r. reflexivity.
Qed.

Lemma concat_length_batches (full : list (list pyval)) :
  Forall (fun batch => List.length batch = 100%nat) full ->
  List.length (List.concat full) = (100 * List.length full)%nat.
Proof.
  induction 1 as [|batch full Hb _ IH]; [reflexivity|].
  cbn [List.concat List.length]. rewrite length_app, Hb, IH. lia.
Qed.

(** In a dry run, whether the run comes to its end or fails, the client
    hands every callback argument that was pushed to [push_state], once
    and in the order of the pushes; the lines written up to the last
    batch are those of the non-null arguments, and behind them comes at
    most the final state, which a run that fails does not write. *)
Theorem every_pushed_state_is_reported_once (lines : list pyval) (w0 : world) :
  exists (evs final : list event),
    events (snd (do_sync lib lines w0)) = (events w0 ++ evs ++ final)%list
    /\ List.concat (callbacks evs) = pushed_args evs
    /\ written evs = lines_of lib (pushed_args evs)
    /\ ledger lib [] evs []
    /\ pushed_args final = []
    /\ callbacks final = []
    /\ (forall e, fst (do_sync lib lines w0) = Raise e -> final = []).
Proof.
  destruct (do_sync_trace lines w0) as [evs [Hev [Hled [_ [_ Hsync]]]]].
  set (w1 := snd (persist_lines lib lines (enter lib w0))) in *.
  set (last := DryRunClient.pending_callback_args (stitchclient w1)) in *.
  assert (Hall : ledger lib [] (evs ++ Callback last :: push_state lib last)%list []).
  { eapply ledger_app; [exact Hled|apply ledger_flush]. }
  exists (evs ++ Callback last :: push_state lib last)%list.
  exists (match fst (persist_lines lib lines (enter lib w0)) with
          | Ok final => if is_None final then []
                        else [Stdout (str lib final ++ newline)]
          | Raise _ => []
          end).
  rewrite Hsync. cbn [snd fst events].
  split.
  { rewrite Hev, <- !app_assoc. reflexivity. }
  split.
  { pose proof (ledger_concat _ _ _ Hall) as H. simpl in H.
    now rewrite app_nil_r in H. }
  split.
  { pose proof (ledger_written _ _ _ Hall) as H. simpl in H.
    now rewrite app_nil_r in H. }
  split; [exact Hall|].
  destruct (fst (persist_lines lib lines (enter lib w0))) as [final|e].
  - destruct (is_None final); repeat split; auto; discriminate.
  - repeat split; auto.
Qed.

(** In a dry run the callback function is called with a hundred states
    each time but the last, when the client is left: that batch holds
    the states that remain, fewer than a hundred, none when the pushes
    were a multiple of a hundred. *)
Theorem batches_hold_a_hundred_states (lines : list pyval) (w0 : world) :
  exists (trace : list event) (full : list (list pyval)) (last : list pyval),
    events (snd (do_sync lib lines w0)) = (events w0 ++ trace)%list
    /\ callbacks trace = (full ++ [last])%list
    /\ Forall (fun batch => List.length batch = 100%nat) full
    /\ (List.length last < 100)%nat
    /\ List.length (pushed_args trace) = (100 * List.length full + List.length last)%nat
    /\ DryRunClient.pending_callback_args (stitchclient (snd (do_sync lib lines w0))) = [].
Proof.
  destruct (do_sync_trace lines w0) as [evs [Hev [Hled [Hfull [Hlen Hsync]]]]].
  set (w1 := snd (persist_lines lib lines (enter lib w0))) in *.
  set (last := DryRunClient.pending_callback_args (stitchclient w1)) in *.
  set (final := match fst (persist_lines lib lines (enter lib w0)) with
                | Ok final => if is_None final then []
                              else [Stdout (str lib final ++ newline)]
                | Raise _ => []
                end) in *.
  assert (Hfinal : callbacks final = [] /\ pushed_args final = []).
  { subst final. destruct (fst (persist_lines lib lines (enter lib w0))) as [f|e]; auto.
    destruct (is_None f); auto. }
  destruct Hfinal as [Hcf Hpf].
  exists (evs ++ Callback last :: push_state lib last ++ final)%list,
    (callbacks evs), last.
  rewrite Hsync. cbn [snd events stitchclient DryRunClient.pending_callback_args].
  split.
  { rewrite Hev, <- !app_assoc. reflexivity. }
  split.
  { change (Callback last :: push_state lib last ++ final)%list
      with ([Callback last] ++ push_state lib last ++ final)%list.
    rewrite !callbacks_app, callbacks_push_state, Hcf. reflexivity. }
  split; [exact Hfull|]. split; [exact Hlen|]. split; [|reflexivity].
  change (Callback last :: push_state lib last ++ final)%list
    with ([Callback last] ++ push_state lib last ++ final)%list.
  rewrite !pushed_args_app, pushed_args_push_state, Hpf. simpl.
  rewrite app_nil_r.
  pose proof (ledger_concat _ _ _ Hled) as H. simpl in H.
  rewrite H, length_app, concat_length_batches by exact Hfull. reflexivity.
Qed.

(** When [persist_lines] raises, [do_sync] raises the same exception,
    but not before the [with] statement has left the client: the states
    of the records pushed so far are handed to [push_state] and written,
    and no final state is written. *)
Theorem a_failed_run_flushes_what_it_pushed
    (lines : list pyval) (w0 w1 : world) (e : pyexc) :
  persist_lines lib lines (enter lib w0) = (Raise e, w1) ->
  exists (w2 : world) (trace : list event),
    do_sync lib lines w0 = (Raise e, w2)
    /\ events w2
       = (events w1
          ++ Callback (DryRunClient.pending_callback_args (stitchclient w1))
          :: push_state lib (DryRunClient.pending_callback_args (stitchclient w1)))%list
    /\ events w2 = (events w0 ++ trace)%list
    /\ written trace = lines_of lib (pushed_args trace)
    /\ DryRunClient.pending_callback_args (stitchclient w2) = [].
Proof.
  intros Hp.
  destruct (do_sync_trace lines w0) as [evs [Hev [Hled [_ [_ Hsync]]]]].
  rewrite Hp in *. cbn [fst snd] in *.
  set (last := DryRunClient.pending_callback_args (stitchclient w1)) in *.
  assert (Hall : ledger lib [] (evs ++ Callback last :: push_state lib last)%list []).
  { eapply ledger_app; [exact Hled|apply ledger_flush]. }
  eexists. exists (evs ++ Callback last :: push_state lib last)%list.
  split; [exact Hsync|]. cbn [events stitchclient DryRunClient.pending_callback_args].
  rewrite app_nil_r.
  split; [reflexivity|]. split.
  { rewrite Hev, <- !app_assoc. reflexivity. }
  split; [|reflexivity].
  pose proof (ledger_written _ _ _ Hall) as H. simpl in H.
  now rewrite app_nil_r in H.
Qed.

(** A line on which the loop fails changes neither the pending state nor
    the schemas, pushes nothing and writes nothing, and the lines behind
    it are not read. *)
Theorem a_line_that_fails_pushes_nothing
    (pre post : list pyval) (bad : pyval) (vars vars1 vars2 : locals)
    (w w1 w2 : world) (e : pyexc) :
  persist_loop lib pre (vars, w) = (Ok tt, (vars1, w1)) ->
  process_line lib bad (vars1, w1) = (Raise e, (vars2, w2)) ->
  persist_loop lib (pre ++ bad :: post)%list (vars, w) = (Raise e, (vars2, w2))
  /\ vars2 = vars1
  /\ events w2 = events w1
  /\ stitchclient w2 = stitchclient w1.
Proof.
  intros Hpre Hbad. split.
  - rewrite persist_loop_app, Hpre, persist_loop_cons, Hbad. reflexivity.
  - exact (process_line_raise _ _ _ _ _ _ Hbad).
Qed.

(** ** The schemas *)

Lemma key_eqb_true (a b : pyval) :
  key_eqb a b = true -> forall c, key_eqb a c = key_eqb b c.
Proof.
  destruct a as [|[|]| | | | |], b as [|[|]| | | | |];
    cbn -[Z.eqb String.eqb]; try discriminate;
    intros H c;
    try (apply Z.eqb_eq in H; subst);
    try (apply String.eqb_eq in H; subst);
    destruct c as [|[|]| | | | |]; cbn -[Z.eqb String.eqb]; auto.
Qed.

Lemma key_eqb_refl (k : pyval) : hashable k = true -> key_eqb k k = true.
Proof.
  destruct k as [|[|]| | | | |]; simpl; try discriminate; intros _; auto.
  - apply Z.eqb_refl.
  - apply String.eqb_refl.
  - apply Z.eqb_refl.
Qed.

(** [schemas[k] = v] and then [schemas[k2]]. *)
Lemma registry_get_set (schemas : registry) (k v k2 : pyval) :
  hashable k = true ->
  registry_get (registry_set schemas k v) k2
  = if key_eqb k k2 then Some v else registry_get schemas k2.
Proof.
  intros Hk. induction schemas as [|[k' v'] rest IH]; simpl.
  - destruct (key_eqb k k2); reflexivity.
  - destruct (key_eqb k' k) eqn:Heq; simpl.
    + rewrite (key_eqb_true _ _ Heq k2).
      destruct (key_eqb k k2); reflexivity.
    + rewrite IH.
      destruct (key_eqb k' k2) eqn:H2; destruct (key_eqb k k2) eqn:H3; auto.
      pose proof (key_eqb_true _ _ H2 k) as E1.
      pose proof (key_eqb_true _ _ H3 k) as E2.
      rewrite key_eqb_refl in E2 by exact Hk. congruence.
Qed.

Lemma is_SCHEMA_only (line : pyval) :
  is_SCHEMA line = true -> is_RECORD line = false /\ is_STATE line = false.
Proof.
  unfold is_RECORD, is_STATE, is_SCHEMA. intros H.
  apply has_type_getitem in H. unfold has_type. rewrite H.
  split; reflexivity.
Qed.

(** A SCHEMA message that is processed: its schema is the one of its
    stream from now on. *)
Lemma process_line_SCHEMA (line : pyval) (vars vars' : locals) (w w' : world) :
  is_SCHEMA line = true ->
  process_line lib line (vars, w) = (Ok tt, (vars', w')) ->
  hashable (field "stream" line) = true
  /\ vars' = mkLocals (state vars)
               (registry_set (schemas vars) (field "stream" line) (field "schema" line))
  /\ w' = loaded line w.
Proof.
  unfold is_SCHEMA. intros Ht. apply has_type_getitem in Ht.
  run_action. rewrite Ht. simpl. rewrite ?deref_new.
  unfold field.
  destruct (getitem line "schema") as [schema|e]; [|discriminate].
  simpl. rewrite ?deref_new.
  destruct (getitem line "stream") as [stream|e]; [|discriminate].
  simpl. unfold registry_setitem.
  destruct (hashable stream); [|discriminate].
  intros H; inversion H; subst. auto.
Qed.

Lemma persist_loop_schemas (lines : list pyval) :
  forall (vars vars' : locals) (w w' : world) (stream : pyval),
    persist_loop lib lines (vars, w) = (Ok tt, (vars', w')) ->
    registry_get (schemas vars') stream
    = latest_schema stream lines (registry_get (schemas vars) stream).
Proof.
  induction lines as [|line rest IH]; intros vars vars' w w' stream Hrun.
  - inversion Hrun; subst. reflexivity.
  - rewrite persist_loop_cons in Hrun.
    destruct (process_line lib line (vars, w)) as [[[]|e] [vars1 w1]] eqn:Hline;
      [|discriminate].
    rewrite (IH _ _ _ _ stream Hrun). unfold latest_schema. simpl. f_equal.
    destruct (is_SCHEMA line) eqn:Hs.
    + destruct (process_line_SCHEMA _ _ _ _ _ Hs Hline) as [Hh [-> _]]. simpl.
      now rewrite registry_get_set by exact Hh.
    + destruct (process_line_ok _ _ _ _ _ Hline)
        as [[_ [m [-> _]]]|[[_ [_ [-> _]]]|[_ [_ [Hs' _]]]]]; simpl; auto.
      congruence.
Qed.

(** After the lines that the loop has read, the schema of a stream is
    the one of the last SCHEMA message of that stream: a later SCHEMA
    message replaces an earlier one, and leaves the schemas of the other
    streams as they are.  Two streams are the same when Python finds
    them equal as keys of a dict. *)
Theorem the_last_schema_of_a_stream_is_in_force
    (lines : list pyval) (vars vars' : locals) (w w' : world) :
  persist_loop lib lines (vars, w) = (Ok tt, (vars', w')) ->
  forall stream : pyval,
    registry_get (schemas vars') stream
    = latest_schema stream lines (registry_get (schemas vars) stream).
Proof.
  intros Hrun stream. eapply persist_loop_schemas; eauto.
Qed.

(** ** The messages pushed *)

(** A RECORD message that is processed, with what is pushed for it. *)
Lemma process_line_RECORD_message (line : pyval) (vars vars' : locals) (w w' : world) :
  is_RECORD line = true ->
  process_line lib line (vars, w) = (Ok tt, (vars', w')) ->
  exists (key_names : list string) (o : loc) (h1 : heap),
    parse_key_fields (field "stream" line) (schemas vars) = Ok key_names
    /\ parse_record lib (List.length (objects w)) (schemas vars)
         (objects w ++ [line])%list = (Ok o, h1)
    /\ events w'
       = (events w
          ++ fst (DryRunClient.push (stitchclient w)
                    (VDict [("action", VStr "upsert");
                            ("table_name", field "stream" line);
                            ("key_names", VList (map VStr key_names));
                            ("sequence", VInt (time_ms lib (clock_readings w)));
                            ("data", deref h1 o)])
                    (state vars)))%list
    /\ stitchclient w'
       = snd (DryRunClient.push (stitchclient w)
                (VDict [("action", VStr "upsert");
                        ("table_name", field "stream" line);
                        ("key_names", VList (map VStr key_names));
                        ("sequence", VInt (time_ms lib (clock_readings w)));
                        ("data", deref h1 o)])
                (state vars))
    /\ clock_readings w' = S (clock_readings w).
Proof.
  unfold is_RECORD. intros Ht. apply has_type_getitem in Ht.
  run_action. rewrite Ht. simpl. rewrite !deref_new.
  unfold field.
  destruct (getitem line "stream") as [stream|e]; [|discriminate].
  destruct (parse_key_fields stream (schemas vars)) as [keys|e]; [|discriminate].
  unfold read_clock. simpl.
  destruct (parse_record lib (List.length (objects w)) (schemas vars)
              (objects w ++ [line])%list) as [[data|e] h1]; [|discriminate].
  unfold client_push. simpl.
  match goal with
  | |- context [DryRunClient.push ?c ?m ?a] =>
      destruct (DryRunClient.push c m a) as [evs client] eqn:Hpush
  end.
  intros Hrun. exists keys, data, h1.
  inversion Hrun; subst; clear Hrun.
  rewrite Hpush. simpl. auto.
Qed.

(** [parse_record] when it returns: the record has passed the validation
    against the schema of its stream, the empty schema when the stream
    has none, and the copy is what the validation has made of it. *)
Lemma parse_record_ok (full_record o : loc) (schemas : registry) (h h' : heap) :
  parse_record lib full_record schemas h = (Ok o, h') ->
  hashable (field "stream" (deref h full_record)) = true
  /\ validate lib (extend_with_default Draft4Validator)
       (match registry_get schemas (field "stream" (deref h full_record)) with
        | Some schema => schema
        | None => VDict []
        end)
       (field "record" (deref h full_record))
     = (Ok tt, deref h' o).
Proof.
  unfold parse_record, try_except, and_then, lift, ret, deepcopy, alloc, at_loc, field.
  destruct (getitem (deref h full_record) "stream") as [stream|e]; [|discriminate].
  unfold in_registry, registry_getitem. cbv beta iota.
  destruct (hashable stream) eqn:Hh; [|discriminate].
  assert (Hschema : (if match registry_get schemas stream with
                         | Some _ => true
                         | None => false
                         end
                     then match registry_get schemas stream with
                          | Some v => Ok v
                          | None => Raise KeyError
                          end
                     else Ok (VDict []))
                    = Ok (match registry_get schemas stream with
                          | Some schema => schema
                          | None => VDict []
                          end)).
  { destruct (registry_get schemas stream); reflexivity. }
  rewrite Hschema.
  destruct (getitem (deref h full_record) "record") as [record|e]; [|discriminate].
  cbv beta iota. rewrite deref_new.
  destruct (validate lib (extend_with_default Draft4Validator) _ record)
    as [[[]|e] inst] eqn:Hv; [|discriminate].
  intros H; inversion H; subst. split; auto.
  rewrite deref_store_same; auto.
  rewrite length_app. simpl. lia.
Qed.

(** [parse_key_fields] looks at the schema of the stream and at nothing
    else in [schemas]. *)
Lemma parse_key_fields_ext (stream : pyval) (schemas1 schemas2 : registry) :
  registry_get schemas1 stream = registry_get schemas2 stream ->
  parse_key_fields stream schemas1 = parse_key_fields stream schemas2.
Proof.
  intros H. unfold parse_key_fields, in_registry, registry_getitem.
  now rewrite H.
Qed.

Lemma pushed_messages_app (evs1 evs2 : list event) :
  pushed_messages (evs1 ++ evs2)%list
  = (pushed_messages evs1 ++ pushed_messages evs2)%list.
Proof. unfold pushed_messages. apply flat_map_app. Qed.

Lemma pushed_messages_push_state (states : list pyval) :
  pushed_messages (push_state lib states) = [].
Proof.
  rewrite push_state_lines. induction (non_null states); simpl; auto.
Qed.

(** What [push] adds to the trace: the push, and the batch when it is
    handed over. *)
Lemma push_trace (c : DryRunClient.t) (message arg : pyval) :
  exists flushed,
    fst (DryRunClient.push c message arg) = Push message arg :: flushed
    /\ (DryRunClient.callback_function c = push_state lib ->
        pushed_messages flushed = []).
Proof.
  unfold DryRunClient.push, DryRunClient.flush.
  cbn [DryRunClient.pending_callback_args DryRunClient.callback_function].
  match goal with
  | |- context [(?n mod 100 =? 0)%nat] => destruct (n mod 100 =? 0)%nat
  end; cbn [fst].
  - eexists. split; [reflexivity|]. intros Hcb. rewrite Hcb.
    cbn [pushed_messages flat_map app]. apply pushed_messages_push_state.
  - exists []. auto.
Qed.

(** The messages of a run that comes to its end, one for each RECORD
    line and in the order of the lines. *)
Lemma persist_loop_messages (lines : list pyval) :
  forall (vars vars' : locals) (w w' : world),
    persist_loop lib lines (vars, w) = (Ok tt, (vars', w')) ->
    DryRunClient.callback_function (stitchclient w) = push_state lib ->
    exists trace,
      events w' = (events w ++ trace)%list
      /\ DryRunClient.callback_function (stitchclient w') = push_state lib
      /\ clock_readings w'
         = (clock_readings w + List.length (filter is_RECORD lines))%nat
      /\ Forall2 (fun line message =>
                    field "action" message = VStr "upsert"
                    /\ field "table_name" message = field "stream" line
                    /\ coerced lib (field "record" line) (field "data" message))
           (filter is_RECORD lines) (pushed_messages trace)
      /\ map (field "sequence") (pushed_messages trace)
         = map (fun n => VInt (time_ms lib n))
             (seq (clock_readings w) (List.length (filter is_RECORD lines))).
Proof.
  induction lines as [|line rest IH]; intros vars vars' w w' Hrun Hcb.
  - inversion Hrun; subst. exists []. rewrite app_nil_r. simpl.
    repeat split; auto.
  - rewrite persist_loop_cons in Hrun.
    destruct (process_line lib line (vars, w)) as [[[]|e] [vars1 w1]] eqn:Hline;
      [|discriminate].
    destruct (is_RECORD line) eqn:Hrec.
    + destruct (process_line_RECORD_message _ _ _ _ _ Hrec Hline)
        as [keys [o [h1 [Hkeys [Hparse [Hev [Hcl Hclock]]]]]]].
      set (message := VDict [("action", VStr "upsert");
                             ("table_name", field "stream" line);
                             ("key_names", VList (map VStr keys));
                             ("sequence", VInt (time_ms lib (clock_readings w)));
                             ("data", deref h1 o)]) in *.
      destruct (push_ledger (stitchclient w) message (state vars) Hcb)
        as [_ [_ Hcb1]].
      rewrite <- Hcl in Hcb1.
      destruct (push_trace (stitchclient w) message (state vars))
        as [flushed [Hpush Hflushed]].
      specialize (Hflushed Hcb).
      destruct (IH vars1 vars' w1 w' Hrun Hcb1)
        as [trace [Hev' [Hcb' [Hclock' [Hall Hseq]]]]].
      exists (fst (DryRunClient.push (stitchclient w) message (state vars)) ++ trace)%list.
      simpl filter. rewrite Hrec. simpl List.length.
      rewrite pushed_messages_app, Hpush.
      change (pushed_messages (Push message (state vars) :: flushed))
        with (message :: pushed_messages flushed).
      rewrite Hflushed. simpl app.
      repeat split; auto.
      * rewrite Hev', Hev, Hpush, <- app_assoc. reflexivity.
      * rewrite Hclock', Hclock. lia.
      * constructor; auto. repeat split; auto.
        destruct (parse_record_ok _ _ _ _ _ Hparse) as [_ Hv].
        rewrite deref_new in Hv.
        unfold validate, extend_with_default in Hv.
        pose proof (iter_errors_sound Extended
                      (match registry_get (schemas vars) (field "stream" line) with
                       | Some schema => schema
                       | None => VDict []
                       end)
                      (field "record" line)) as [Hco _].
        rewrite Hv in Hco. exact Hco.
      * simpl map. rewrite Hseq, Hclock. reflexivity.
    + assert (Hw : w1 = loaded line w).
      { destruct (process_line_ok _ _ _ _ _ Hline)
          as [[Hrec' _]|[[_ [_ [_ Hw]]]|[_ [_ [_ [_ Hw]]]]]]; auto. congruence. }
      subst w1.
      destruct (IH vars1 vars' (loaded line w) w' Hrun Hcb) as [trace H].
      exists trace. simpl filter. rewrite Hrec. exact H.
Qed.

(** C3. The driver holds one pending checkpoint.  A STATE message puts
    its value in the place of the pending one, whatever that was, and
    pushes nothing.  A RECORD message that is processed is pushed once:
    what is pushed is the upsert made of the message, with its table,
    its key names, the reading of the clock and the transformed record,
    and the callback argument is the pending checkpoint; [None] is
    pending afterwards.  So in a run that reaches the end of its input
    there is one upsert for each RECORD message, and the non-null
    callback arguments pushed are, in order, the values of the STATE
    messages that a RECORD follows before the next STATE message, each
    message counted once. *)
Theorem one_pending_checkpoint :
  (forall (line : pyval) (vars : locals) (w : world),
      state_message line = true ->
      process_line lib line (vars, w)
      = (Ok tt, (mkLocals (state_value line) (schemas vars), loaded line w)))
  /\ (forall (line : pyval) (vars vars' : locals) (w w' : world),
         is_RECORD line = true ->
         process_line lib line (vars, w) = (Ok tt, (vars', w')) ->
         vars' = mkLocals VNone (schemas vars)
         /\ exists (key_names : list string) (o : loc) (h1 : heap)
                   (flushed : list event),
              parse_key_fields (field "stream" line) (schemas vars) = Ok key_names
              /\ parse_record lib (List.length (objects w)) (schemas vars)
                   (objects w ++ [line])%list = (Ok o, h1)
              /\ events w'
                 = (events w
                    ++ Push (VDict [("action", VStr "upsert");
                                    ("table_name", field "stream" line);
                                    ("key_names", VList (map VStr key_names));
                                    ("sequence", VInt (time_ms lib (clock_readings w)));
                                    ("data", deref h1 o)])
                         (state vars)
                    :: flushed)%list
              /\ (flushed = []
                  \/ exists batch,
                       flushed
                       = Callback batch
                           :: DryRunClient.callback_function (stitchclient w) batch))
  /\ (forall (lines : list pyval) (vars' : locals) (w w' : world),
         DryRunClient.callback_function (stitchclient w) = push_state lib ->
         persist_loop lib lines (mkLocals VNone [], w) = (Ok tt, (vars', w')) ->
         exists evs,
           events w' = (events w ++ evs)%list
           /\ pushed_args evs = attachments [] lines
           /\ non_null (pushed_args evs) = carried lines
           /\ Forall2 (fun line message =>
                         field "action" message = VStr "upsert"
                         /\ field "table_name" message = field "stream" line
                         /\ coerced lib (field "record" line) (field "data" message))
                (filter is_RECORD lines) (pushed_messages evs)).
Proof.
  split; [|split].
  - intros line vars w H. now apply process_line_STATE.
  - intros line vars vars' w w' Hrec Hrun.
    destruct (process_line_RECORD _ _ _ _ _ Hrec Hrun) as [_ [Hvars _]].
    split; [exact Hvars|].
    destruct (process_line_RECORD_message _ _ _ _ _ Hrec Hrun)
      as [keys [o [h1 [Hkeys [Hparse [Hev _]]]]]].
    exists keys, o, h1. revert Hev. unfold DryRunClient.push.
    match goal with
    | |- context [(?n mod 100 =? 0)%nat] => destruct (n mod 100 =? 0)%nat
    end; cbn [fst DryRunClient.flush DryRunClient.pending_callback_args
              DryRunClient.callback_function];
      intros Hev; eexists; repeat split; eauto.
  - intros lines vars' w w' Hcb Hrun.
    destruct (persist_loop_ok lines [] _ _ _ _ Hrun Hcb eq_refl)
      as [evs [Hev [Hpushed _]]].
    destruct (persist_loop_messages lines _ _ _ _ Hrun Hcb)
      as [trace [Hev' [_ [_ [Hall _]]]]].
    assert (trace = evs).
    { rewrite Hev in Hev'. now apply app_inv_head in Hev'. }
    subst trace.
    exists evs. repeat split; auto.
    rewrite Hpushed. apply non_null_attachments_all.
Qed.

(** In a run that comes to its end, the messages pushed are those of
    the RECORD lines, one for each and in their order: an upsert into
    the table named by the stream of the line, whose data are the record
    of the line with some of its date-time strings turned into
    [datetime]s and nothing else changed. *)
Theorem records_are_pushed_in_order
    (lines : list pyval) (w0 w1 : world) (final : pyval) :
  persist_lines lib lines (enter lib w0) = (Ok final, w1) ->
  exists trace : list event,
    events w1 = (events w0 ++ trace)%list
    /\ Forall2 (fun line message =>
                  field "action" message = VStr "upsert"
                  /\ field "table_name" message = field "stream" line
                  /\ coerced lib (field "record" line) (field "data" message))
         (filter is_RECORD lines) (pushed_messages trace).
Proof.
  intros Hp. destruct (persist_lines_ok _ _ _ _ Hp) as [vars' [Hloop _]].
  destruct (persist_loop_messages lines _ _ _ _ Hloop eq_refl)
    as [trace [Hev [_ [_ [Hall _]]]]].
  exists trace. split; auto.
Qed.

(** The sequence number of a message is the reading of the clock made
    for its line: the clock is read once for each RECORD line, so the
    numbers of the messages are successive readings, in the order of
    the pushes. *)
Theorem sequence_numbers_follow_the_clock
    (lines : list pyval) (w0 w1 : world) (final : pyval) :
  persist_lines lib lines (enter lib w0) = (Ok final, w1) ->
  exists trace : list event,
    events w1 = (events w0 ++ trace)%list
    /\ map (field "sequence") (pushed_messages trace)
       = map (fun n => VInt (time_ms lib n))
           (seq (clock_readings w0) (List.length (filter is_RECORD lines)))
    /\ clock_readings w1
       = (clock_readings w0 + List.length (filter is_RECORD lines))%nat.
Proof.
  intros Hp. destruct (persist_lines_ok _ _ _ _ Hp) as [vars' [Hloop _]].
  destruct (persist_loop_messages lines _ _ _ _ Hloop eq_refl)
    as [trace [Hev [_ [Hclock [_ Hseq]]]]].
  exists trace. repeat split; auto.
Qed.

(** A RECORD line is handled with the schema that the last SCHEMA line
    of its stream before it has set, the empty schema when there is
    none: the key names of the message are those of that schema, and the
    data are what the validation against that schema has made of the
    record. *)
Theorem a_record_is_checked_against_the_latest_schema
    (pre : list pyval) (line : pyval) (vars1 vars2 : locals) (w w1 w2 : world) :
  persist_loop lib pre (mkLocals VNone [], w) = (Ok tt, (vars1, w1)) ->
  is_RECORD line = true ->
  process_line lib line (vars1, w1) = (Ok tt, (vars2, w2)) ->
  exists (message : pyval) (flushed : list event) (key_names : list string),
    events w2 = (events w1 ++ Push message (state vars1) :: flushed)%list
    /\ field "table_name" message = field "stream" line
    /\ field "key_names" message = VList (map VStr key_names)
    /\ parse_key_fields (field "stream" line)
         (match latest_schema (field "stream" line) pre None with
          | Some schema => [(field "stream" line, schema)]
          | None => []
          end)
       = Ok key_names
    /\ validate lib (extend_with_default Draft4Validator)
         (match latest_schema (field "stream" line) pre None with
          | Some schema => schema
          | None => VDict []
          end)
         (field "record" line)
       = (Ok tt, field "data" message).
Proof.
  intros Hpre Hrec Hline.
  pose proof (persist_loop_schemas pre _ _ _ _ (field "stream" line) Hpre) as Hlatest.
  simpl in Hlatest.
  destruct (process_line_RECORD_message _ _ _ _ _ Hrec Hline)
    as [keys [o [h1 [Hkeys [Hparse [Hev _]]]]]].
  destruct (parse_record_ok _ _ _ _ _ Hparse) as [Hh Hv].
  rewrite deref_new in Hh, Hv.
  match type of Hev with
  | context [DryRunClient.push ?c ?m ?a] =>
      destruct (push_trace c m a) as [flushed [Hpush _]]; exists m
  end.
  exists flushed, keys. rewrite Hpush in Hev.
  split; [exact Hev|]. split; [reflexivity|]. split; [reflexivity|].
  rewrite <- Hlatest. split.
  - rewrite <- Hkeys. apply parse_key_fields_ext.
    destruct (registry_get (schemas vars1) (field "stream" line)); simpl; auto.
    now rewrite key_eqb_refl.
  - exact Hv.
Qed.

(** ** [parse_key_fields] *)

(** The key names of a stream are the names of the properties of its
    schema that hold ["key": true], in the order of the schema; a
    property whose [key] is anything but [True], [1] or ["true"] say,
    is not one of them. *)
Theorem parse_key_fields_selects_the_keys
    (stream : pyval) (schemas : registry) (keywords props : list (string * pyval)) :
  hashable stream = true ->
  registry_get schemas stream = Some (VDict keywords) ->
  dict_get keywords "properties" = Some (VDict props) ->
  Forall (fun ps => is_dict (snd ps) = true) props ->
  parse_key_fields stream schemas
  = Ok (map fst (filter (fun ps => is_key_field (snd ps)) props)).
Proof.
  intros Hh Hget Hprops Hall.
  unfold parse_key_fields, in_registry, registry_getitem.
  rewrite Hh, Hget. simpl. rewrite Hprops. simpl. clear Hprops.
  induction Hall as [|[property sub] rest Hd _ IH]; [reflexivity|].
  simpl in Hd. destruct sub as [| | | | |kws|]; try discriminate.
  simpl. rewrite IH. unfold is_key_field. simpl.
  destruct (dict_get kws "key") as [key|]; simpl; [|reflexivity].
  destruct (is_True key); reflexivity.
Qed.

(** A stream that has no schema, or whose schema has no [properties],
    has no key names; a stream that cannot be the key of a dict makes
    [parse_key_fields] raise [TypeError]. *)
Theorem parse_key_fields_without_properties (stream : pyval) (schemas : registry) :
  (hashable stream = false -> parse_key_fields stream schemas = Raise TypeError)
  /\ (hashable stream = true ->
      registry_get schemas stream = None ->
      parse_key_fields stream schemas = Ok [])
  /\ (forall keywords : list (string * pyval),
         hashable stream = true ->
         registry_get schemas stream = Some (VDict keywords) ->
         dict_get keywords "properties" = None ->
         parse_key_fields stream schemas = Ok []).
Proof.
  unfold parse_key_fields, in_registry, registry_getitem.
  split; [|split].
  - intros ->. reflexivity.
  - intros -> ->. reflexivity.
  - intros keywords -> -> Hprops. simpl. now rewrite Hprops.
Qed.

(** What [parse_key_fields] raises, when the schema of the stream is
    not made as a schema is: [TypeError] or [AttributeError], and never
    [KeyError]. *)
Theorem parse_key_fields_raises_no_KeyError
    (stream : pyval) (schemas : registry) (e : pyexc) :
  parse_key_fields stream schemas = Raise e ->
  e = TypeError \/ e = AttributeError.
Proof.
  unfold parse_key_fields, in_registry, registry_getitem.
  destruct (hashable stream); [|intros H; inversion H; auto].
  destruct (registry_get schemas stream) as [schema|]; simpl; [|discriminate].
  destruct (contains "properties" schema) as [[|]|e0] eqn:Hc; simpl;
    [| discriminate | intros H; inversion H; subst; left; eapply contains_raise; eauto].
  destruct (getitem schema "properties") as [properties|e0] eqn:Hp; simpl.
  2:{ intros H; inversion H; subst.
      destruct schema; simpl in Hp, Hc; inversion Hp; auto.
      destruct (dict_get items "properties"); discriminate. }
  destruct (dict_items properties) as [items|e0] eqn:Hi; simpl.
  2:{ intros H; inversion H; subst. destruct properties; inversion Hi; auto. }
  clear. induction items as [|[property sub] rest IH]; simpl; [discriminate|].
  destruct (contains "key" sub) as [[|]|e0] eqn:Hc; simpl.
  - destruct (getitem sub "key") as [key|e0] eqn:Hk; simpl.
    + destruct (fold_right _ _ rest) as [tail|e0]; simpl; [discriminate|].
      intros H; inversion H; subst. now apply IH.
    + intros H; inversion H; subst.
      destruct sub; simpl in Hk, Hc; inversion Hk; auto.
      destruct (dict_get items "key"); discriminate.
  - destruct (fold_right _ _ rest) as [tail|e0]; simpl; [discriminate|].
    intros H; inversion H; subst. now apply IH.
  - intros H; inversion H; subst. left. eapply contains_raise; eauto.
Qed.

(** ** The instant of a date-time *)

(** The [datetime] made of a date-time string shows the local date and
    time of its instant and says they are UTC: the instant it denotes
    is the instant of the string moved by the offset of the local time
    zone, and it is the instant of the string when, and only when, that
    offset is zero. *)
Theorem the_instant_is_moved_by_the_local_offset (s : string) (ts : Z) (dt : pyval) :
  rfc3339_to_timestamp lib s = Some ts ->
  to_datetime lib (VStr s) = Ok dt ->
  instant_of dt = Some (ts + local_utcoffset lib ts)%Z
  /\ (instant_of dt = Some ts <-> local_utcoffset lib ts = 0%Z).
Proof.
  intros Hts. unfold to_datetime, fromtimestamp. rewrite Hts. cbv zeta.
  match goal with
  | |- context [if ?c then _ else _] => destruct c
  end; simpl; [|discriminate].
  intros H; inversion H; subst. simpl. split; [reflexivity|]. split.
  - intros Heq. injection Heq as Heq. lia.
  - intros Hzero. rewrite Hzero. f_equal. lia.
Qed.

(** ** Records of a stream without a schema *)

Lemma store_new (h : heap) (v v' : pyval) :
  store (h ++ [v])%list (List.length h) v' = (h ++ [v'])%list.
Proof.
  induction h as [|x h IH]; simpl; auto. now rewrite IH.
Qed.

Lemma iter_errors_empty (cls : validator_class) (inst : pyval) :
  iter_errors lib cls (VDict []) inst = (Ok tt, inst).
Proof. reflexivity. Qed.

(** A record whose stream has no schema is checked against the empty
    schema, which every record meets: [parse_record] returns a copy that
    is equal to the record, date-time strings included. *)
Theorem a_record_without_a_schema_is_copied
    (full_record : loc) (schemas : registry) (h : heap) (stream record : pyval) :
  getitem (deref h full_record) "stream" = Ok stream ->
  hashable stream = true ->
  registry_get schemas stream = None ->
  getitem (deref h full_record) "record" = Ok record ->
  parse_record lib full_record schemas h
  = (Ok (List.length h), (h ++ [record])%list).
Proof.
  intros Hstream Hh Hnone Hrecord.
  unfold parse_record, try_except, and_then, lift, ret, deepcopy, alloc, at_loc.
  rewrite Hstream. unfold in_registry. rewrite Hh, Hnone, Hrecord.
  rewrite deref_new. unfold validate. rewrite iter_errors_empty.
  now rewrite store_new.
Qed.

(** ** Messages that lack a key *)

(** A message without [type] stops the run with the exception of the
    lookup, and so does a RECORD message without [stream], a STATE
    message without [value] and a SCHEMA message without [schema] or
    without [stream]: for an object that is [KeyError], as Python
    raises it, not wrapped in an exception of the program.  The pending
    state and the schemas are as before, and nothing is pushed. *)
Theorem a_message_without_a_needed_key (line : pyval) (vars : locals) (w : world) :
  (forall e, getitem line "type" = Raise e ->
             process_line lib line (vars, w) = (Raise e, (vars, loaded line w)))
  /\ (forall e, is_RECORD line = true ->
                getitem line "stream" = Raise e ->
                e = KeyError
                /\ process_line lib line (vars, w) = (Raise e, (vars, loaded line w)))
  /\ (forall e, is_STATE line = true ->
                getitem line "value" = Raise e ->
                e = KeyError
                /\ process_line lib line (vars, w) = (Raise e, (vars, loaded line w)))
  /\ (forall e, is_SCHEMA line = true ->
                getitem line "schema" = Raise e ->
                e = KeyError
                /\ process_line lib line (vars, w) = (Raise e, (vars, loaded line w)))
  /\ (forall e schema, is_SCHEMA line = true ->
                getitem line "schema" = Ok schema ->
                getitem line "stream" = Raise e ->
                e = KeyError
                /\ process_line lib line (vars, w) = (Raise e, (vars, loaded line w))).
Proof.
  assert (Hkey : forall k e t, getitem line "type" = Ok t ->
                               getitem line k = Raise e -> e = KeyError).
  { intros k e t Ht Hk. apply getitem_ok in Ht as [items [-> _]].
    simpl in Hk. destruct (dict_get items k); inversion Hk. reflexivity. }
  split; [|split; [|split; [|split]]].
  - intros e He. run_action. rewrite He. reflexivity.
  - unfold is_RECORD. intros e Ht He. apply has_type_getitem in Ht.
    split; [eapply Hkey; eauto|].
    run_action. rewrite Ht. simpl. rewrite ?deref_new. rewrite He. reflexivity.
  - unfold is_STATE. intros e Ht He. apply has_type_getitem in Ht.
    split; [eapply Hkey; eauto|].
    run_action. rewrite Ht. simpl. rewrite ?deref_new. rewrite He. reflexivity.
  - unfold is_SCHEMA. intros e Ht He. apply has_type_getitem in Ht.
    split; [eapply Hkey; eauto|].
    run_action. rewrite Ht. simpl. rewrite ?deref_new. rewrite He. reflexivity.
  - unfold is_SCHEMA. intros e schema Ht Hs He. apply has_type_getitem in Ht.
    split; [eapply Hkey; eauto|].
    run_action. rewrite Ht. simpl. rewrite ?deref_new. rewrite Hs. simpl.
    rewrite ?deref_new. rewrite He. reflexivity.
Qed.

(** ** What the transform leaves as it is *)

Lemma dict_get_coerced_none (items items' : list (string * pyval)) (k : string) :
  Forall2 (fun kv kv' => fst kv = fst kv' /\ coerced lib (snd kv) (snd kv'))
    items items' ->
  dict_get items k = None ->
  dict_get items' k = None.
Proof.
  induction 1 as [|[k0 v0] [k1 v1] items items' [Hk Hv] Hrest IH]; simpl; auto.
  simpl in Hk. subst k1.
  destruct (String.eqb k0 k); [discriminate|auto].
Qed.

Lemma lookup_path_coerced_none (path : list string) :
  forall inst inst1,
    coerced lib inst inst1 ->
    lookup_path inst path = None ->
    lookup_path inst1 path = None.
Proof.
  induction path as [|k path IH]; intros inst inst1 Hco; [discriminate|].
  inversion Hco as [v|v dt Hdt|items items' Hall|elems elems' Hall]; subst; auto.
  - destruct (to_datetime_ok _ _ Hdt) as [_ [wall ->]]. reflexivity.
  - simpl. destruct (dict_get items k) as [child|] eqn:Hget.
    + destruct (dict_get_coerced _ _ _ _ Hall Hget) as [child' [Hget' Hchild]].
      rewrite Hget'. now apply IH.
    + now rewrite (dict_get_coerced_none _ _ _ Hall Hget).
Qed.

Lemma coerced_scalar (v v' : pyval) :
  coerced lib v v' ->
  is_dict v = false ->
  is_list v = false ->
  v' = v
  \/ exists s wall,
       v = VStr s /\ to_datetime lib v = Ok (VDatetime wall) /\ v' = VDatetime wall.
Proof.
  intros Hco Hd Hl.
  inversion Hco as [x|x dt Hdt|items items' Hall|elems elems' Hall]; subst;
    try discriminate; auto.
  destruct (to_datetime_ok _ _ Hdt) as [[s ->] [wall ->]].
  right. exists s, wall. auto.
Qed.

(** Whatever the schema, and whether the validation passes or fails,
    the transform adds no property to the record and takes none away,
    keeps the properties in their order, and changes a value only by
    putting, in the place of a string, the [datetime] made of that
    string: numbers, booleans, [None] and all other strings are as
    they were. *)
Theorem the_transform_only_turns_strings_into_datetimes (schema inst : pyval) :
  let inst' := snd (validate lib (extend_with_default Draft4Validator) schema inst) in
  coerced lib inst inst'
  /\ forall path : list string,
       match lookup_path inst path with
       | None => lookup_path inst' path = None
       | Some v =>
           exists v',
             lookup_path inst' path = Some v'
             /\ coerced lib v v'
             /\ (is_dict v = false ->
                 is_list v = false ->
                 v' = v
                 \/ exists s wall,
                      v = VStr s
                      /\ to_datetime lib v = Ok (VDatetime wall)
                      /\ v' = VDatetime wall)
       end.
Proof.
  intros inst'.
  assert (Hco : coerced lib inst inst').
  { subst inst'. unfold validate, extend_with_default.
    apply (iter_errors_sound Extended schema inst). }
  split; [exact Hco|]. intros path.
  destruct (lookup_path inst path) as [v|] eqn:Hv.
  - destruct (lookup_path_coerced path _ _ _ Hco Hv) as [v' [Hv' Hvv']].
    exists v'. repeat split; auto. now apply coerced_scalar.
  - now apply (lookup_path_coerced_none path inst).
Qed.

(** ** Schemas without date-time *)

Lemma for_each_ext {S A : Type} (f g : A -> action S unit) (l : list A) :
  (forall x, In x l -> forall s, f x s = g x s) ->
  forall s, for_each f l s = for_each g l s.
Proof.
  induction l as [|x l IH]; intros H s; simpl; [reflexivity|].
  unfold and_then. rewrite (H x (or_introl eq_refl) s).
  destruct (g x s) as [[[]|e] s1]; auto.
  apply IH. intros y Hy. apply H. now right.
Qed.

Lemma for_each_skip {S A : Type} (body : A -> action S unit) (l : list A) :
  (forall x, In x l -> forall s, body x s = (Ok tt, s)) ->
  forall s, for_each body l s = (Ok tt, s).
Proof.
  induction l as [|x l IH]; intros H s; simpl; [reflexivity|].
  unfold and_then. rewrite (H x (or_introl eq_refl) s).
  apply IH. intros y Hy. apply H. now right.
Qed.

Lemma for_each_same {A : Type} (body : A -> inplace unit) (l : list A) :
  (forall x, In x l -> forall s, snd (body x s) = s) ->
  forall s, snd (for_each body l s) = s.
Proof.
  induction l as [|x l IH]; intros H s; simpl; [reflexivity|].
  unfold and_then. pose proof (H x (or_introl eq_refl) s) as Hx.
  destruct (body x s) as [[[]|e] s1]; simpl in Hx; subst; auto.
  apply IH. intros y Hy. apply H. now right.
Qed.

Lemma dict_set_same_value (items : list (string * pyval)) (k : string) (v : pyval) :
  dict_get items k = Some v -> dict_set items k v = items.
Proof.
  induction items as [|[k0 v0] items IH]; simpl; [discriminate|].
  destruct (String.eqb k0 k) eqn:Hk.
  - intros H; inversion H; subst. reflexivity.
  - intros H. now rewrite IH.
Qed.

Lemma with_child_same (inst child : pyval) (k : string) :
  getitem inst k = Ok child -> with_child inst k child = inst.
Proof.
  intros H. apply getitem_ok in H as [items [-> Hget]]. simpl.
  now rewrite dict_set_same_value.
Qed.

(** A subschema that does not ask for date-time sets no default. *)
Lemma set_default_plain (property : string) (keywords : list (string * pyval))
    (inst : pyval) :
  date_time_format keywords = false ->
  set_default lib property (VDict keywords) inst = (Ok tt, inst).
Proof.
  unfold date_time_format, set_default, and_then, lift, ret. simpl.
  destruct (dict_get keywords "format") as [format|]; [|reflexivity].
  intros ->. reflexivity.
Qed.

Section Draft4Walk.

Variables d1 d2 : pyval -> inplace unit.

Lemma properties_draft4_ext (props : list (string * pyval)) (inst schema : pyval) :
  (forall ps, In ps props -> forall c, d1 (snd ps) c = d2 (snd ps) c) ->
  properties_draft4 d1 (VDict props) inst schema
  = properties_draft4 d2 (VDict props) inst schema.
Proof.
  intros H. unfold properties_draft4. destruct (is_dict inst); [|reflexivity].
  apply for_each_ext. intros [property subschema] Hin s.
  unfold descend_property.
  destruct (contains property s) as [[|]|e]; auto.
  destruct (getitem s property) as [child|e]; auto.
  pose proof (H _ Hin child) as Hchild. simpl in Hchild.
  now rewrite Hchild.
Qed.

Lemma each_item_ext (subschema : pyval) (elems : list pyval) :
  (forall c, d1 subschema c = d2 subschema c) ->
  forall index,
    each_item d1 subschema index elems = each_item d2 subschema index elems.
Proof.
  intros H. induction elems as [|item rest IH]; intros index; simpl; [reflexivity|].
  rewrite H, IH. reflexivity.
Qed.

Lemma zip_items_ext (subschemas : list pyval) :
  (forall sub, In sub subschemas -> forall c, d1 sub c = d2 sub c) ->
  forall index elems,
    zip_items d1 subschemas index elems = zip_items d2 subschemas index elems.
Proof.
  induction subschemas as [|sub subs IH]; intros H index elems; [reflexivity|].
  destruct elems as [|item rest]; simpl; [reflexivity|].
  rewrite (H sub (or_introl eq_refl)).
  rewrite IH; auto. intros s Hs. apply H. now right.
Qed.

Lemma properties_draft4_same (properties inst schema : pyval) :
  children_hold (fun sub => forall c, snd (d1 sub c) = c) properties ->
  snd (properties_draft4 d1 properties inst schema) = inst.
Proof.
  intros Hsub. unfold properties_draft4.
  destruct (is_dict inst); [|reflexivity].
  destruct properties as [| | | | |props|]; try reflexivity.
  apply for_each_same. intros [property subschema] Hin s.
  simpl in Hsub. rewrite Forall_forall in Hsub.
  specialize (Hsub _ Hin). simpl in Hsub.
  unfold descend_property.
  destruct (contains property s) as [[|]|e]; auto.
  destruct (getitem s property) as [child|e] eqn:Hchild; auto.
  specialize (Hsub child).
  destruct (d1 subschema child) as [r child']. simpl in *. subst.
  now apply with_child_same.
Qed.

Lemma each_item_same (subschema : pyval) (elems : list pyval) :
  (forall c, snd (d1 subschema c) = c) ->
  forall index, snd (each_item d1 subschema index elems) = elems.
Proof.
  intros H. induction elems as [|item rest IH]; intros index; simpl; [reflexivity|].
  pose proof (H item) as Hitem.
  destruct (d1 subschema item) as [[[]|e] item']; simpl in Hitem; subst; auto.
  specialize (IH (index + 1)%Z).
  destruct (each_item d1 subschema (index + 1) rest) as [r rest']. simpl in *.
  now subst.
Qed.

Lemma zip_items_same (subschemas : list pyval) :
  Forall (fun sub => forall c, snd (d1 sub c) = c) subschemas ->
  forall index elems, snd (zip_items d1 subschemas index elems) = elems.
Proof.
  induction 1 as [|sub subs Hsub _ IH]; intros index elems; [reflexivity|].
  destruct elems as [|item rest]; simpl; [reflexivity|].
  pose proof (Hsub item) as Hitem.
  destruct (d1 sub item) as [[[]|e] item']; simpl in Hitem; subst; auto.
  specialize (IH (index + 1)%Z rest).
  destruct (zip_items d1 subs (index + 1) rest) as [r rest']. simpl in *. now subst.
Qed.

Lemma items_draft4_same (items inst schema : pyval) :
  (forall c, snd (d1 items c) = c) ->
  children_hold (fun sub => forall c, snd (d1 sub c) = c) items ->
  snd (items_draft4 d1 items inst schema) = inst.
Proof.
  intros Hself Hsub. unfold items_draft4.
  destruct inst as [| | | |elems| |]; try reflexivity.
  destruct items as [| | |s|subschemas|props|]; try reflexivity.
  - destruct elems; [reflexivity|]. destruct s; reflexivity.
  - pose proof (zip_items_same subschemas Hsub 0%Z elems) as H.
    destruct (zip_items d1 subschemas 0 elems) as [r elems']. simpl in *. now subst.
  - pose proof (each_item_same (VDict props) elems Hself 0%Z) as H.
    destruct (each_item d1 (VDict props) 0 elems) as [r elems']. simpl in *. now subst.
Qed.

Lemma allOf_draft4_same (allOf inst schema : pyval) :
  children_hold (fun sub => forall c, snd (d1 sub c) = c) allOf ->
  snd (allOf_draft4 d1 allOf inst schema) = inst.
Proof.
  intros Hsub. unfold allOf_draft4.
  destruct allOf as [| | |s|subschemas|props|]; try reflexivity.
  - destruct s; reflexivity.
  - apply for_each_same. intros sub Hin s.
    simpl in Hsub. rewrite Forall_forall in Hsub. now apply Hsub.
  - destruct props; reflexivity.
Qed.

End Draft4Walk.

(** The validator of the library changes nothing in the instance. *)
Lemma iter_errors_draft4_same (schema : pyval) :
  forall inst, snd (iter_errors lib Draft4Validator schema inst) = inst.
Proof.
  induction schema as [schema IH] using pyval_deep_induction. intros inst.
  destruct schema as [| | | | |keywords|]; try reflexivity.
  rewrite iter_errors_dict.
  destruct (schema_ref keywords); [reflexivity|].
  apply for_each_same. intros [k v] Hin s.
  simpl in IH. rewrite Forall_forall in IH.
  destruct (IH _ Hin) as [Hv Hchildren]. simpl in Hv, Hchildren.
  unfold call_validator.
  destruct (String.eqb k "properties");
    [now apply properties_draft4_same|].
  destruct (String.eqb k "items"); [now apply items_draft4_same|].
  destruct (String.eqb k "allOf"); [now apply allOf_draft4_same|].
  reflexivity.
Qed.

Lemma without_date_time_dict (keywords : list (string * pyval)) :
  without_date_time (VDict keywords)
  = forallb
      (fun kv =>
         if String.eqb (fst kv) "properties" then
           match snd kv with
           | VDict props =>
               forallb
                 (fun ps =>
                    match snd ps with
                    | VDict subschema =>
                        negb (date_time_format subschema)
                        && without_date_time (snd ps)
                    | _ => false
                    end)
                 props
           | _ => false
           end
         else if String.eqb (fst kv) "items" then
           match snd kv with
           | VDict _ => without_date_time (snd kv)
           | VList subschemas => forallb without_date_time subschemas
           | _ => true
           end
         else if String.eqb (fst kv) "allOf" then
           match snd kv with
           | VList subschemas => forallb without_date_time subschemas
           | _ => true
           end
         else negb (not_followed (fst kv)))
      keywords.
Proof. reflexivity. Qed.

(** On a schema without date-time the extended validator does what the
    validator of the library does. *)
Lemma iter_errors_without_date_time (schema : pyval) :
  without_date_time schema = true ->
  forall inst,
    iter_errors lib Extended schema inst = iter_errors lib Draft4Validator schema inst.
Proof.
  induction schema as [schema IH] using pyval_deep_induction. intros Hplain inst.
  destruct schema as [| | | | |keywords|]; try reflexivity.
  rewrite !iter_errors_dict.
  destruct (schema_ref keywords); [reflexivity|].
  rewrite without_date_time_dict, forallb_forall in Hplain.
  apply for_each_ext. intros [k v] Hin s.
  simpl in IH. rewrite Forall_forall in IH.
  destruct (IH _ Hin) as [Hv Hchildren]. simpl in Hv, Hchildren.
  specialize (Hplain _ Hin). simpl in Hplain.
  unfold call_validator.
  destruct (String.eqb k "properties").
  { destruct v as [| | | | |props|]; try discriminate.
    simpl in Hchildren. rewrite Forall_forall in Hchildren.
    rewrite forallb_forall in Hplain.
    simpl. unfold set_defaults.
    rewrite (properties_draft4_ext (iter_errors lib Extended)
               (iter_errors lib Draft4Validator)).
    2:{ intros ps Hps c. apply Hchildren; auto.
        specialize (Hplain _ Hps). destruct (snd ps); try discriminate.
        now apply andb_prop in Hplain as [_ H]. }
    destruct (properties_draft4 (iter_errors lib Draft4Validator) (VDict props) s
                (VDict keywords)) as [[[]|e] s1]; auto.
    simpl. apply for_each_skip. intros [property sub] Hps x. simpl.
    specialize (Hplain _ Hps). simpl in Hplain.
    destruct sub as [| | | | |kws|]; try discriminate.
    apply andb_prop in Hplain as [Hfmt _].
    apply set_default_plain. now apply negb_true_iff in Hfmt. }
  destruct (String.eqb k "items").
  { unfold items_draft4. destruct s as [| | | |elems| |]; try reflexivity.
    destruct v as [| | |str|subschemas|props|]; try reflexivity.
    - rewrite (zip_items_ext (iter_errors lib Extended)
                 (iter_errors lib Draft4Validator)); auto.
      intros sub Hsub c. simpl in Hchildren. rewrite Forall_forall in Hchildren.
      apply Hchildren; auto. rewrite forallb_forall in Hplain. now apply Hplain.
    - rewrite (each_item_ext (iter_errors lib Extended)
                 (iter_errors lib Draft4Validator)); auto. }
  destruct (String.eqb k "allOf").
  { unfold allOf_draft4. destruct v as [| | |str|subschemas|props|]; try reflexivity.
    apply for_each_ext. intros sub Hsub c.
    simpl in Hchildren. rewrite Forall_forall in Hchildren.
    apply Hchildren; auto. rewrite forallb_forall in Hplain. now apply Hplain. }
  reflexivity.
Qed.

(** When the schema declares no property with the format date-time,
    and keeps to the keywords that the walk follows, the transform is
    the validation of the library and nothing more:
    it accepts and rejects the same records, with the same error, and
    the copy it leaves is equal to the record. *)
Theorem a_schema_without_date_time_leaves_the_record (schema inst : pyval) :
  without_date_time schema = true ->
  validate lib (extend_with_default Draft4Validator) schema inst
  = validate lib Draft4Validator schema inst
  /\ snd (validate lib (extend_with_default Draft4Validator) schema inst) = inst.
Proof.
  intros Hplain. unfold validate, extend_with_default.
  rewrite iter_errors_without_date_time by exact Hplain.
  split; [reflexivity|]. apply iter_errors_draft4_same.
Qed.

(** ** The transform on what it has transformed, and on arrays *)

(** The walk to a flagged property, for the proofs below. *)
Lemma flagged_is_converted (schema : pyval) (path : list string) :
  flagged schema path ->
  forall (inst inst' v : pyval),
    validate lib (extend_with_default Draft4Validator) schema inst = (Ok tt, inst') ->
    lookup_path inst path = Some v ->
    is_None v = false ->
    exists wall,
      to_datetime lib v = Ok (VDatetime wall)
      /\ lookup_path inst' path = Some (VDatetime wall).
Proof.
  unfold validate, extend_with_default.
  induction 1 as [keywords props property subschema Href Hprops Hsub Hformat
                 |keywords props property subschema path Href Hprops Hsub Hflag IH];
    intros inst inst' v Hrun Hv Hnone.
  - destruct (iter_errors_at_properties _ _ _ _ Href Hprops Hrun)
      as [s1 [s2 [s3 [H1 [Hcheck [Hset H3]]]]]].
    assert (H12 : coerced lib s1 s2).
    { pose proof (properties_draft4_sound (iter_errors lib Extended) (VDict props) s1
                    (VDict keywords)) as Hs.
      rewrite Hcheck in Hs. apply Hs.
      apply children_hold_all. intros; apply iter_errors_sound. }
    destruct (dict_get_split _ _ _ Hsub) as [pre [post [-> Hpre]]].
    destruct (for_each_at _ _ _ _ _ _ Hset) as [sB [sC [HB [Hx HC]]]].
    assert (H2B : coerced lib s2 sB).
    { eapply for_each_coerced; [|exact HB]. intros; apply set_default_sound. }
    assert (HC3 : coerced lib sC s3).
    { eapply for_each_coerced; [|exact HC]. intros; apply set_default_sound. }
    assert (HiB : coerced lib inst sB).
    { eapply coerced_trans; [exact H1|]. eapply coerced_trans; eauto. }
    destruct (lookup_path_coerced _ _ _ _ HiB Hv) as [vB [HvB HcoB]].
    destruct (lookup_path_cons _ _ _ _ HvB) as [itemsB [child [-> [HgetB Hchild]]]].
    simpl in Hchild. inversion Hchild; subst child.
    simpl in Hx.
    destruct (set_default_converts _ _ _ _ _ Hformat HgetB
                (coerced_not_None _ _ HcoB Hnone) Hx) as [wall [Hdt ->]].
    destruct (to_datetime_ok _ _ Hdt) as [[s ->] _].
    apply coerced_to_str in HcoB. subst v.
    exists wall. split; auto.
    eapply lookup_path_datetime_kept; [exact H3|].
    eapply lookup_path_datetime_kept; [exact HC3|].
    simpl. now rewrite (dict_get_set_same _ _ _ _ HgetB).
  - destruct (iter_errors_at_properties _ _ _ _ Href Hprops Hrun)
      as [s1 [s2 [s3 [H1 [Hcheck [Hset H3]]]]]].
    assert (H23 : coerced lib s2 s3).
    { eapply for_each_coerced; [|exact Hset]. intros; apply set_default_sound. }
    destruct (lookup_path_coerced _ _ _ _ H1 Hv) as [v1 [Hv1 Hco1]].
    destruct (lookup_path_cons _ _ _ _ Hv1) as [items1 [child1 [-> [Hget1 Hchild1]]]].
    unfold properties_draft4 in Hcheck. simpl in Hcheck.
    destruct (dict_get_split _ _ _ Hsub) as [pre [post [-> Hpre]]].
    destruct (for_each_at _ _ _ _ _ _ Hcheck) as [sB [sC [HB [Hx HC]]]].
    assert (H1B : coerced lib (VDict items1) sB).
    { eapply for_each_coerced; [|exact HB]. intros; apply descend_property_sound. }
    assert (HC2 : coerced lib sC s2).
    { eapply for_each_coerced; [|exact HC]. intros; apply descend_property_sound. }
    destruct (lookup_path_coerced _ _ _ _ H1B Hv1) as [vB [HvB HcoB]].
    destruct (lookup_path_cons _ _ _ _ HvB) as [itemsB [childB [-> [HgetB HchildB]]]].
    unfold descend_property in Hx. simpl in Hx. rewrite HgetB in Hx.
    destruct (iter_errors lib Extended subschema childB) as [[[]|e] child']
      eqn:Hdescend; [|discriminate].
    simpl in Hx. inversion Hx; subst sC.
    assert (HvvB : coerced lib v vB) by (eapply coerced_trans; eauto).
    destruct (IH _ _ _ Hdescend HchildB (coerced_not_None _ _ HvvB Hnone))
      as [wall [Hdt Hfound]].
    destruct (to_datetime_ok _ _ Hdt) as [[s ->] _].
    apply coerced_to_str in HvvB. subst v.
    exists wall. split; auto.
    eapply lookup_path_datetime_kept; [exact H3|].
    eapply lookup_path_datetime_kept; [exact H23|].
    eapply lookup_path_datetime_kept; [exact HC2|].
    simpl. now rewrite (dict_get_set_same _ _ _ _ HgetB).
Qed.

(** ** An instance that is not an object *)

Lemma coerced_not_iterable (v v' : pyval) :
  coerced lib v v' -> not_iterable v = true -> v' = v.
Proof.
  intros Hco Hv.
  inversion Hco as [x|x dt Hdt|items items' Hall|elems elems' Hall]; subst;
    try discriminate; auto.
  destruct (to_datetime_ok _ _ Hdt) as [[s ->] _]. discriminate.
Qed.

Lemma set_default_not_iterable (property : string) (subschema inst : pyval) :
  not_iterable inst = true ->
  set_default lib property subschema inst = (Ok tt, inst)
  \/ set_default lib property subschema inst = (Raise TypeError, inst).
Proof.
  intros Hinst. unfold set_default, and_then, lift, ret.
  destruct (contains "format" subschema) as [[|]|e] eqn:Hc; auto.
  2:{ apply contains_raise in Hc. subst. auto. }
  destruct (getitem subschema "format") as [format|e] eqn:Hf.
  2:{ right. destruct subschema; simpl in Hf, Hc; inversion Hf; auto.
      destruct (dict_get items "format"); discriminate. }
  destruct (eq_str format "date-time"); auto.
  destruct inst; try discriminate; simpl; auto.
Qed.

Lemma set_default_not_iterable_date_time (property : string) (subschema inst : pyval) :
  getitem subschema "format" = Ok (VStr "date-time") ->
  not_iterable inst = true ->
  set_default lib property subschema inst = (Raise TypeError, inst).
Proof.
  intros Hf Hinst. unfold set_default, and_then, lift, ret.
  destruct (getitem_ok _ _ _ Hf) as [kws [-> Hkws]].
  unfold contains at 1. unfold getitem at 1. rewrite Hkws. simpl.
  destruct inst; try discriminate; reflexivity.
Qed.

Lemma set_defaults_loop_not_iterable (props : list (string * pyval))
    (property : string) (subschema inst : pyval) :
  In (property, subschema) props ->
  getitem subschema "format" = Ok (VStr "date-time") ->
  not_iterable inst = true ->
  for_each (fun ps => set_default lib (fst ps) (snd ps)) props inst
  = (Raise TypeError, inst).
Proof.
  intros Hin Hf Hinst. induction props as [|[p sub] rest IH]; [contradiction|].
  simpl. unfold and_then.
  destruct Hin as [Heq|Hin].
  - inversion Heq; subst.
    now rewrite set_default_not_iterable_date_time.
  - destruct (set_default_not_iterable p sub inst Hinst) as [H|H]; rewrite H; auto.
Qed.

(** [set_defaults] looks for its properties in whatever instance it is
    given.  The check of the library says nothing of an instance that
    is not an object; but when a property is declared with the format
    date-time and the instance is [None], a boolean or a number, the
    test [property in instance] raises [TypeError]: a schema that
    describes an object with a date-time property rejects a null in the
    place of that object, whatever else it allows. *)
Theorem a_null_in_the_place_of_an_object_is_rejected
    (props : list (string * pyval)) (property : string) (subschema inst : pyval) :
  In (property, subschema) props ->
  getitem subschema "format" = Ok (VStr "date-time") ->
  not_iterable inst = true ->
  (forall (descend : pyval -> inplace unit) (schema : pyval),
      properties_draft4 descend (VDict props) inst schema = (Ok tt, inst)
      /\ set_defaults lib (properties_draft4 descend) (VDict props) inst schema
         = (Raise TypeError, inst))
  /\ (forall keywords : list (string * pyval),
         schema_ref keywords = None ->
         In ("properties", VDict props) keywords ->
         exists e s,
           validate lib (extend_with_default Draft4Validator) (VDict keywords) inst
           = (Raise e, s)).
Proof.
  intros Hin Hf Hinst.
  assert (Hcheck : forall descend schema,
             properties_draft4 descend (VDict props) inst schema = (Ok tt, inst)).
  { intros descend schema. unfold properties_draft4.
    destruct inst; try discriminate; reflexivity. }
  assert (Hset : forall descend schema,
             set_defaults lib (properties_draft4 descend) (VDict props) inst schema
             = (Raise TypeError, inst)).
  { intros descend schema. unfold set_defaults. rewrite Hcheck. simpl.
    eapply set_defaults_loop_not_iterable; eauto. }
  split; [intros; split; auto|].
  intros keywords Href Hkw.
  unfold validate, extend_with_default. rewrite iter_errors_dict, Href.
  destruct (for_each (call_validator lib Extended (iter_errors lib Extended)
                        (VDict keywords)) keywords inst) as [[[]|e] s] eqn:Hrun;
    [|eauto].
  exfalso.
  destruct (in_split _ _ Hkw) as [pre [post Hsplit]].
  rewrite Hsplit in Hrun at 2.
  destruct (for_each_at _ _ _ _ _ _ Hrun) as [s1 [s2 [H1 [H2 _]]]].
  assert (Hs1 : s1 = inst).
  { eapply coerced_not_iterable; eauto.
    eapply for_each_coerced; [|exact H1]. intros; apply call_validator_sound. }
  subst s1. unfold call_validator in H2. simpl in H2.
  rewrite Hset in H2. discriminate.
Qed.

(** ** The transform on what it has transformed *)

(** An instance that holds a [datetime] under a property declared with
    the format date-time does not pass: the conversion of a [datetime]
    raises [TypeError]. *)
Lemma datetime_under_flagged_is_rejected (schema : pyval) (path : list string) :
  flagged schema path ->
  forall (inst : pyval) (wall : Z),
    lookup_path inst path = Some (VDatetime wall) ->
    exists e s, iter_errors lib Extended schema inst = (Raise e, s).
Proof.
  induction 1 as [keywords props property subschema Href Hprops Hsub Hformat
                 |keywords props property subschema path Href Hprops Hsub Hflag IH];
    intros inst wall Hv;
    (destruct (iter_errors lib Extended (VDict keywords) inst) as [[[]|e] s] eqn:Hrun;
     [exfalso|eauto]).
  - destruct (iter_errors_at_properties _ _ _ _ Href Hprops Hrun)
      as [s1 [s2 [s3 [H1 [Hcheck [Hset H3]]]]]].
    assert (H12 : coerced lib s1 s2).
    { pose proof (properties_draft4_sound (iter_errors lib Extended) (VDict props) s1
                    (VDict keywords)) as Hs.
      rewrite Hcheck in Hs. apply Hs.
      apply children_hold_all. intros; apply iter_errors_sound. }
    destruct (dict_get_split _ _ _ Hsub) as [pre [post [-> Hpre]]].
    destruct (for_each_at _ _ _ _ _ _ Hset) as [sB [sC [HB [Hx HC]]]].
    assert (H2B : coerced lib s2 sB).
    { eapply for_each_coerced; [|exact HB]. intros; apply set_default_sound. }
    assert (HiB : coerced lib inst sB).
    { eapply coerced_trans; [exact H1|]. eapply coerced_trans; eauto. }
    pose proof (lookup_path_datetime_kept _ _ _ _ HiB Hv) as HvB.
    destruct (lookup_path_cons _ _ _ _ HvB) as [itemsB [child [-> [HgetB Hchild]]]].
    simpl in Hchild. inversion Hchild; subst child.
    simpl in Hx.
    destruct (set_default_converts _ _ _ _ _ Hformat HgetB eq_refl Hx)
      as [wall' [Hdt _]].
    discriminate Hdt.
  - destruct (iter_errors_at_properties _ _ _ _ Href Hprops Hrun)
      as [s1 [s2 [s3 [H1 [Hcheck [Hset H3]]]]]].
    pose proof (lookup_path_datetime_kept _ _ _ _ H1 Hv) as Hv1.
    destruct (lookup_path_cons _ _ _ _ Hv1) as [items1 [child1 [-> [Hget1 Hchild1]]]].
    unfold properties_draft4 in Hcheck. simpl in Hcheck.
    destruct (dict_get_split _ _ _ Hsub) as [pre [post [-> Hpre]]].
    destruct (for_each_at _ _ _ _ _ _ Hcheck) as [sB [sC [HB [Hx HC]]]].
    assert (H1B : coerced lib (VDict items1) sB).
    { eapply for_each_coerced; [|exact HB]. intros; apply descend_property_sound. }
    pose proof (lookup_path_datetime_kept _ _ _ _ H1B Hv1) as HvB.
    destruct (lookup_path_cons _ _ _ _ HvB) as [itemsB [childB [-> [HgetB HchildB]]]].
    unfold descend_property in Hx. simpl in Hx. rewrite HgetB in Hx.
    destruct (IH _ _ HchildB) as [e [s' Hraise]].
    rewrite Hraise in Hx. discriminate.
Qed.

(** The transform is to be applied once.  When a record has passed and
    holds a value under a property declared with the format date-time,
    the result of the transform does not pass the same schema: the
    property now holds a [datetime], which cannot be converted again.
    So a schema that states such a declaration twice, in two branches
    of [allOf], rejects every record that has the property. *)
Theorem the_transform_rejects_what_it_has_transformed
    (schema : pyval) (path : list string) :
  flagged schema path ->
  forall (inst v : pyval),
    lookup_path inst path = Some v ->
    is_None v = false ->
    (forall inst',
        validate lib (extend_with_default Draft4Validator) schema inst = (Ok tt, inst') ->
        exists e s,
          validate lib (extend_with_default Draft4Validator) schema inst' = (Raise e, s))
    /\ exists e s,
         validate lib (extend_with_default Draft4Validator)
           (VDict [("allOf", VList [schema; schema])]) inst
         = (Raise e, s).
Proof.
  intros Hflag inst v Hv Hnone.
  assert (Htwice : forall inst',
             validate lib (extend_with_default Draft4Validator) schema inst
             = (Ok tt, inst') ->
             exists e s,
               validate lib (extend_with_default Draft4Validator) schema inst'
               = (Raise e, s)).
  { intros inst' Hrun.
    destruct (flagged_is_converted schema path Hflag inst inst' v Hrun Hv Hnone)
      as [wall [_ Hwall]].
    unfold validate, extend_with_default.
    eapply datetime_under_flagged_is_rejected; eauto. }
  split; [exact Htwice|].
  unfold validate, extend_with_default in *.
  rewrite iter_errors_dict.
  unfold schema_ref, call_validator, allOf_draft4. simpl. unfold and_then.
  destruct (iter_errors lib Extended schema inst) as [[[]|e] inst1] eqn:Hfirst;
    [|eauto].
  destruct (Htwice inst1 eq_refl) as [e [s Hsecond]].
  rewrite Hsecond. eauto.
Qed.

(** ** Date-times in the objects of an array *)

Lemma coerced_from_list (elems : list pyval) (v : pyval) :
  coerced lib (VList elems) v ->
  exists elems', v = VList elems' /\ Forall2 (coerced lib) elems elems'.
Proof.
  intros Hco.
  inversion Hco as [x|x dt Hdt|items items' Hall|l l' Hall]; subst.
  - exists elems. split; auto. clear. induction elems; constructor; auto. constructor.
  - destruct (to_datetime_ok _ _ Hdt) as [[s Hs] _]. discriminate.
  - eauto.
Qed.

Lemma each_item_ok (descend : pyval -> inplace unit) (subschema : pyval)
    (elems : list pyval) :
  forall index elems',
    each_item descend subschema index elems = (Ok tt, elems') ->
    Forall2 (fun element element' => descend subschema element = (Ok tt, element'))
      elems elems'.
Proof.
  induction elems as [|item rest IH]; simpl; intros index elems' H.
  - inversion H; subst. constructor.
  - destruct (descend subschema item) as [[[]|e] item'] eqn:Hitem; [|discriminate].
    destruct (each_item descend subschema (index + 1) rest) as [r rest'] eqn:Hrest.
    inversion H; subst. constructor; eauto.
Qed.

Lemma Forall2_chain {A : Type} (R1 R2 R3 R : A -> A -> Prop) :
  (forall a b c d, R1 a b -> R2 b c -> R3 c d -> R a d) ->
  forall l1 l2 l3 l4,
    Forall2 R1 l1 l2 -> Forall2 R2 l2 l3 -> Forall2 R3 l3 l4 -> Forall2 R l1 l4.
Proof.
  intros Hstep l1 l2 l3 l4 H1. revert l3 l4.
  induction H1 as [|a b l1 l2 Hab _ IH]; intros l3 l4 H2 H3.
  - inversion H2; subst. inversion H3; subst. constructor.
  - inversion H2; subst. inversion H3; subst. constructor; eauto.
Qed.

(** The coercion reaches the objects of an array: when the schema of
    the elements, given under [items], declares a property with the
    format date-time, at any depth under [properties], and the
    validation of an array passes, that property is converted in every
    element that holds a value for it. *)
Theorem date_times_in_arrays_are_converted
    (keywords item_keywords : list (string * pyval)) (path : list string)
    (elems : list pyval) (inst' : pyval) :
  schema_ref keywords = None ->
  dict_get keywords "items" = Some (VDict item_keywords) ->
  flagged (VDict item_keywords) path ->
  validate lib (extend_with_default Draft4Validator) (VDict keywords) (VList elems)
  = (Ok tt, inst') ->
  exists elems',
    inst' = VList elems'
    /\ Forall2
         (fun element element' =>
            forall v,
              lookup_path element path = Some v ->
              is_None v = false ->
              exists wall,
                to_datetime lib v = Ok (VDatetime wall)
                /\ lookup_path element' path = Some (VDatetime wall))
         elems elems'.
Proof.
  intros Href Hitems Hflag. unfold validate, extend_with_default.
  rewrite iter_errors_dict, Href. intros Hrun.
  destruct (dict_get_split _ _ _ Hitems) as [pre [post [Hsplit Hpre]]].
  rewrite Hsplit in Hrun at 2.
  destruct (for_each_at _ _ _ _ _ _ Hrun) as [s1 [s2 [H1 [H2 H3]]]].
  assert (Hco1 : coerced lib (VList elems) s1).
  { eapply for_each_coerced; [|exact H1]. intros; apply call_validator_sound. }
  destruct (coerced_from_list _ _ Hco1) as [elems1 [-> F1]].
  unfold call_validator, items_draft4 in H2. simpl in H2.
  destruct (each_item (iter_errors lib Extended) (VDict item_keywords) 0 elems1)
    as [r elems2] eqn:Heach.
  inversion H2; subst r s2.
  pose proof (each_item_ok _ _ _ _ _ Heach) as F2.
  assert (Hco3 : coerced lib (VList elems2) inst').
  { eapply for_each_coerced; [|exact H3]. intros; apply call_validator_sound. }
  destruct (coerced_from_list _ _ Hco3) as [elems' [-> F3]].
  exists elems'. split; [reflexivity|].
  eapply Forall2_chain; [|exact F1|exact F2|exact F3].
  intros a b c d Hab Hbc Hcd v Hv Hnone. simpl in Hbc.
  destruct (lookup_path_coerced _ _ _ _ Hab Hv) as [vb [Hvb Hcob]].
  destruct (flagged_is_converted _ _ Hflag b c vb Hbc Hvb
              (coerced_not_None _ _ Hcob Hnone)) as [wall [Hdt Hc]].
  exists wall. split.
  - destruct (to_datetime_ok _ _ Hdt) as [[s ->] _].
    apply coerced_to_str in Hcob. now subst.
  - eapply lookup_path_datetime_kept; eauto.
Qed.

(** ** The order of the checks and of the coercion *)

























Section ItemsJustified.

Variable descend : pyval -> inplace unit.



End ItemsJustified.




End Facts.

(** * The facts at work *)

Import Examples.

(** C5 at work: the record of the message still holds its string, the
    copy holds the [datetime]. *)
Lemma parse_record_keeps_its_argument_witness :
  let h := [RECORD "users" (user 1 "2017-01-01T00:00:00Z")] in
  let schemas := [(VStr "users", users_schema)] in
  exists h',
    parse_record utc 0 schemas h = (Ok 1%nat, h')
    /\ deref h' 1 = VDict [("id", VInt 1); ("updated", VDatetime 1483228800000000)]
    /\ getitem (deref h' 0) "record" = Ok (user 1 "2017-01-01T00:00:00Z").
Proof.
  intros h schemas. eexists. split; [reflexivity|]. split; [reflexivity|].
  assert (Hlt : (0 < List.length h)%nat) by (simpl; lia).
  destruct (parse_record_keeps_its_argument utc 0 1 schemas h _ Hlt eq_refl)
    as [_ [Hrecord _]].
  exact Hrecord.
Defined.

(** C1 at work: offsets 1 and 3 are carried, offset 2 is overwritten. *)
Lemma checkpoints_follow_their_records_witness :
  carried five_lines = [offset 1; offset 3]
  /\ exists (w' : world) (evs : list event),
       do_sync utc five_lines start = (Ok tt, w')
       /\ events w'
          = (events start ++ evs
             ++ (if is_None (trailing_state five_lines) then []
                 else [Stdout (str utc (trailing_state five_lines) ++ newline)]))%list
       /\ pushed_args evs = attachments [] five_lines
       /\ non_null (pushed_args evs) = carried five_lines
       /\ ledger utc [] evs []
       /\ written evs = map (fun v => str utc v ++ newline) (carried five_lines).
Proof.
  split; [reflexivity|].
  apply (checkpoints_follow_their_records utc five_lines start).
  unfold five_lines.
  repeat (constructor; [first [left; reflexivity | right; reflexivity]|]).
  constructor.
Defined.

(** C3 at work: a RECORD message with the checkpoint 1 pending.  The
    upsert of the record is pushed with that checkpoint, and [None] is
    pending afterwards. *)
Lemma one_pending_checkpoint_witness :
  let line := RECORD "users" (user 1 "2017-01-01T00:00:00Z") in
  let vars := mkLocals (offset 1) [(VStr "users", users_schema)] in
  let w' := snd (snd (process_line utc line (vars, start))) in
  process_line utc line (vars, start)
  = (Ok tt, (mkLocals VNone [(VStr "users", users_schema)], w'))
  /\ events w'
     = [Push (VDict [("action", VStr "upsert");
                     ("table_name", VStr "users");
                     ("key_names", VList [VStr "id"]);
                     ("sequence", VInt 1500000000000);
                     ("data", VDict [("id", VInt 1);
                                     ("updated", VDatetime 1483228800000000)])])
          (offset 1)].
Proof.
  intros line vars w'.
  assert (Hrun : process_line utc line (vars, start)
                 = (Ok tt, (mkLocals VNone [(VStr "users", users_schema)], w')))
    by reflexivity.
  split; [exact Hrun|].
  destruct (proj1 (proj2 (one_pending_checkpoint utc)) line vars _ start w'
              eq_refl Hrun)
    as [_ [key_names [o [h1 [flushed [Hkeys [Hrecord [Hevents Hflushed]]]]]]]].
  vm_compute in Hkeys. injection Hkeys as <-.
  vm_compute in Hrecord. injection Hrecord as <- <-.
  rewrite Hevents.
  destruct Hflushed as [->|[batch ->]]; [reflexivity|].
  vm_compute in Hevents. discriminate Hevents.
Defined.


(** C8 at work: the RECORD behind the unknown message is not pushed. *)
Lemma unknown_type_aborts_witness :
  let pre := [SCHEMA "users" users_schema;
              RECORD "users" (user 1 "2017-01-01T00:00:00Z")] in
  let bad := VDict [("type", VStr "ACTIVATE_VERSION")] in
  let post := [RECORD "users" (user 2 "2017-06-15T12:30:00Z"); STATE (offset 2)] in
  let s0 := (mkLocals VNone [], enter utc start) in
  let s1 := snd (persist_loop utc pre s0) in
  persist_loop utc pre s0 = (Ok tt, s1)
  /\ persist_loop utc (pre ++ bad :: post)%list s0
     = (Raise (PyException
                 "Unknown message type ACTIVATE_VERSION in message {'type': 'ACTIVATE_VERSION'}"
                 None),
        (fst s1, loaded bad (snd s1))).
Proof.
  intros pre bad post s0 s1. split; [reflexivity|].
  apply (unknown_type_aborts utc pre post bad (VStr "ACTIVATE_VERSION")
           (mkLocals VNone []) (fst s1) (enter utc start) (snd s1));
    reflexivity.
Defined.

(** C10 at work. *)
Lemma states_are_written_with_str_witness :
  Json.is_json_text (str utc (offset 1) ++ newline) = false
  /\ str utc (offset 1) = "{'offset': 1}".
Proof.
  split; [|reflexivity].
  apply (proj1 (proj2 (proj2 (states_are_written_with_str utc)))).
  left. reflexivity.
Defined.

(** C10 as the specification has it fails: the empty object is a state
    that is not [None], and the line written for it is a JSON text. *)
Lemma empty_object_is_written_as_json :
  ~ (forall (state : pyval) (text : string),
        is_dict state = true ->
        push_state utc [state] = [Stdout text] ->
        Json.is_json_text text = false).
Proof.
  intros H.
  specialize (H (VDict []) ("{}" ++ newline) eq_refl eq_refl).
  discriminate H.
Defined.

(** C2 at the failing input.  The process runs five hours behind UTC.
    The date-time of the record is 2017-01-01T00:00:00Z, the instant
    1483228800 s; [datetime.fromtimestamp] gives the local fields, 19:00
    of the day before, and [replace(tzinfo=tz.tzutc())] declares them to
    be UTC: the value in the copy is an instant five hours early. *)
Theorem date_time_is_read_in_local_time :
  let h := [RECORD "users" (user 1 "2017-01-01T00:00:00Z")] in
  let schemas := [(VStr "users", users_schema)] in
  rfc3339_to_timestamp new_york "2017-01-01T00:00:00Z" = Some 1483228800000000%Z
  /\ (exists h',
        parse_record new_york 0 schemas h = (Ok 1%nat, h')
        /\ lookup_path (deref h' 1) ["updated"] = Some (VDatetime 1483210800000000))
  /\ instant_of (VDatetime 1483210800000000) <> Some 1483228800000000%Z.
Proof.
  intros h schemas. split; [reflexivity|]. split.
  - eexists. split; reflexivity.
  - simpl. intros H. inversion H.
Qed.


(** C9 at work: the date-time is one level down, next to a property
    that the schema does not know. *)
Lemma nested_date_times_are_converted_witness :
  let inst := VDict [("meta", VDict [("at", VStr "2017-06-15T12:30:00Z");
                                     ("by", VStr "2017-06-15T12:30:00Z")])] in
  let inst' := VDict [("meta", VDict [("at", VDatetime 1497529800000000);
                                      ("by", VStr "2017-06-15T12:30:00Z")])] in
  validate utc (extend_with_default Draft4Validator) nested_schema inst = (Ok tt, inst')
  /\ exists wall,
       to_datetime utc (VStr "2017-06-15T12:30:00Z") = Ok (VDatetime wall)
       /\ lookup_path inst' ["meta"; "at"] = Some (VDatetime wall).
Proof.
  intros inst inst'. split; [reflexivity|].
  assert (Hflag : flagged nested_schema ["meta"; "at"]).
  { eapply flagged_below; [reflexivity|reflexivity|reflexivity|].
    eapply flagged_here; reflexivity. }
  apply (nested_date_times_are_converted utc nested_schema ["meta"; "at"] Hflag
           inst inst' (VStr "2017-06-15T12:30:00Z"));
    reflexivity.
Defined.



(** A run that fails on its fourth line: the state of the record pushed
    before is written all the same. *)
Lemma a_failed_run_flushes_what_it_pushed_witness :
  let bad := RECORD "users" (VDict [("id", VStr "one")]) in
  let lines := [SCHEMA "users" users_schema; STATE (offset 1);
                RECORD "users" (user 1 "2017-01-01T00:00:00Z"); bad] in
  let e := PyException ("Error parsing record " ++ str utc bad)
             (Some (ValidationError "'one' is not of type 'integer'" [VStr "id"]
                      (VStr "one"))) in
  let w1 := snd (persist_lines utc lines (enter utc start)) in
  DryRunClient.pending_callback_args (stitchclient w1) = [offset 1]
  /\ exists (w2 : world) (trace : list event),
       do_sync utc lines start = (Raise e, w2)
       /\ events w2
          = (events w1
             ++ Callback (DryRunClient.pending_callback_args (stitchclient w1))
             :: push_state utc (DryRunClient.pending_callback_args (stitchclient w1)))%list
       /\ events w2 = (events start ++ trace)%list
       /\ written trace = lines_of utc (pushed_args trace)
       /\ DryRunClient.pending_callback_args (stitchclient w2) = [].
Proof.
  intros bad lines e w1. split; [reflexivity|].
  apply (a_failed_run_flushes_what_it_pushed utc lines start w1 e).
  reflexivity.
Defined.

(** The second record has no [id] of the type of the schema: the run
    stops there with the first record pushed and nothing more. *)
Lemma a_line_that_fails_pushes_nothing_witness :
  let pre := [SCHEMA "users" users_schema; STATE (offset 1);
              RECORD "users" (user 1 "2017-01-01T00:00:00Z"); STATE (offset 2)] in
  let bad := RECORD "users" (VDict [("id", VStr "one")]) in
  let post := [RECORD "users" (user 3 "2017-06-15T12:30:00Z")] in
  let s0 := (mkLocals VNone [], enter utc start) in
  let s1 := snd (persist_loop utc pre s0) in
  let s2 := snd (process_line utc bad s1) in
  let e := PyException ("Error parsing record " ++ str utc bad)
             (Some (ValidationError "'one' is not of type 'integer'" [VStr "id"]
                      (VStr "one"))) in
  state (fst s1) = offset 2
  /\ pushed_args (events (snd s1)) = [offset 1]
  /\ persist_loop utc (pre ++ bad :: post)%list s0 = (Raise e, s2)
  /\ fst s2 = fst s1
  /\ events (snd s2) = events (snd s1)
  /\ stitchclient (snd s2) = stitchclient (snd s1).
Proof.
  intros pre bad post s0 s1 s2 e.
  split; [reflexivity|]. split; [reflexivity|].
  apply (a_line_that_fails_pushes_nothing utc pre post bad
           (mkLocals VNone []) (fst s1) (fst s2)
           (enter utc start) (snd s1) (snd s2) e);
    reflexivity.
Defined.

(** Two SCHEMA lines for the stream users: the second is in force. *)
Lemma the_last_schema_of_a_stream_is_in_force_witness :
  let lines := [SCHEMA "users" users_schema; SCHEMA "events" event_schema;
                SCHEMA "users" required_schema] in
  let s1 := snd (persist_loop utc lines (mkLocals VNone [], start)) in
  latest_schema (VStr "users") lines None = Some required_schema
  /\ registry_get (schemas (fst s1)) (VStr "users")
     = latest_schema (VStr "users") lines (registry_get [] (VStr "users")).
Proof.
  intros lines s1. split; [reflexivity|].
  apply (the_last_schema_of_a_stream_is_in_force utc lines
           (mkLocals VNone []) (fst s1) start (snd s1)).
  reflexivity.
Defined.

(** Two records of the stream users, a state between them. *)
Lemma records_are_pushed_in_order_witness :
  let lines := [SCHEMA "users" users_schema;
                RECORD "users" (user 1 "2017-01-01T00:00:00Z");
                STATE (offset 1);
                RECORD "users" (user 2 "2017-06-15T12:30:00Z")] in
  let w1 := snd (persist_lines utc lines (enter utc start)) in
  filter is_RECORD lines
  = [RECORD "users" (user 1 "2017-01-01T00:00:00Z");
     RECORD "users" (user 2 "2017-06-15T12:30:00Z")]
  /\ exists trace : list event,
       events w1 = (events start ++ trace)%list
       /\ Forall2 (fun line message =>
                     field "action" message = VStr "upsert"
                     /\ field "table_name" message = field "stream" line
                     /\ coerced utc (field "record" line) (field "data" message))
            (filter is_RECORD lines) (pushed_messages trace).
Proof.
  intros lines w1. split; [reflexivity|].
  apply (records_are_pushed_in_order utc lines start w1 VNone).
  reflexivity.
Defined.

(** The clock of the examples counts from 1500000000000. *)
Lemma sequence_numbers_follow_the_clock_witness :
  let lines := [SCHEMA "users" users_schema;
                RECORD "users" (user 1 "2017-01-01T00:00:00Z");
                STATE (offset 1);
                RECORD "users" (user 2 "2017-06-15T12:30:00Z")] in
  let w1 := snd (persist_lines utc lines (enter utc start)) in
  map (fun n => VInt (time_ms utc n))
    (seq (clock_readings start) (List.length (filter is_RECORD lines)))
  = [VInt 1500000000000; VInt 1500000000001]
  /\ exists trace : list event,
       events w1 = (events start ++ trace)%list
       /\ map (field "sequence") (pushed_messages trace)
          = map (fun n => VInt (time_ms utc n))
              (seq (clock_readings start) (List.length (filter is_RECORD lines)))
       /\ clock_readings w1
          = (clock_readings start + List.length (filter is_RECORD lines))%nat.
Proof.
  intros lines w1. split; [reflexivity|].
  apply (sequence_numbers_follow_the_clock utc lines start w1 VNone).
  reflexivity.
Defined.

(** The record comes behind the second schema of its stream, which has
    no key and asks for [id]. *)
Lemma a_record_is_checked_against_the_latest_schema_witness :
  let pre := [SCHEMA "events" users_schema; STATE (offset 1);
              SCHEMA "events" required_schema] in
  let line := RECORD "events"
                (VDict [("id", VInt 7); ("at", VStr "2017-06-15T12:30:00Z")]) in
  let s1 := snd (persist_loop utc pre (mkLocals VNone [], enter utc start)) in
  let s2 := snd (process_line utc line s1) in
  latest_schema (VStr "events") pre None = Some required_schema
  /\ exists (message : pyval) (flushed : list event) (key_names : list string),
       events (snd s2) = (events (snd s1) ++ Push message (state (fst s1)) :: flushed)%list
       /\ field "table_name" message = field "stream" line
       /\ field "key_names" message = VList (map VStr key_names)
       /\ parse_key_fields (field "stream" line)
            (match latest_schema (field "stream" line) pre None with
             | Some schema => [(field "stream" line, schema)]
             | None => []
             end)
          = Ok key_names
       /\ validate utc (extend_with_default Draft4Validator)
            (match latest_schema (field "stream" line) pre None with
             | Some schema => schema
             | None => VDict []
             end)
            (field "record" line)
          = (Ok tt, field "data" message).
Proof.
  intros pre line s1 s2. split; [reflexivity|].
  apply (a_record_is_checked_against_the_latest_schema utc pre line
           (fst s1) (fst s2) (enter utc start) (snd s1) (snd s2));
    reflexivity.
Defined.

(** The schema of users has one key, [id]. *)
Lemma parse_key_fields_selects_the_keys_witness :
  parse_key_fields (VStr "users") [(VStr "users", users_schema)] = Ok ["id"].
Proof.
  apply (parse_key_fields_selects_the_keys (VStr "users")
           [(VStr "users", users_schema)]
           [("properties",
             VDict [("id", VDict [("type", VStr "integer"); ("key", VBool true)]);
                    ("updated", VDict [("type", VStr "string");
                                       ("format", VStr "date-time")])])]
           [("id", VDict [("type", VStr "integer"); ("key", VBool true)]);
            ("updated", VDict [("type", VStr "string");
                               ("format", VStr "date-time")])]).
  - reflexivity.
  - reflexivity.
  - reflexivity.
  - repeat constructor.
Defined.

(** No schema for the stream orders. *)
Lemma parse_key_fields_without_properties_witness :
  parse_key_fields (VStr "orders") [(VStr "users", users_schema)] = Ok [].
Proof.
  apply (proj1 (proj2 (parse_key_fields_without_properties (VStr "orders")
                         [(VStr "users", users_schema)])));
    reflexivity.
Defined.

(** A schema whose property [id] is described by a number. *)
Lemma parse_key_fields_raises_no_KeyError_witness :
  parse_key_fields (VStr "users")
    [(VStr "users", VDict [("properties", VDict [("id", VInt 5)])])]
  = Raise TypeError
  /\ (TypeError = TypeError \/ TypeError = AttributeError).
Proof.
  split; [reflexivity|].
  apply (parse_key_fields_raises_no_KeyError (VStr "users")
           [(VStr "users", VDict [("properties", VDict [("id", VInt 5)])])]
           TypeError).
  reflexivity.
Defined.

(** Five hours behind UTC the instant stored is five hours early. *)
Lemma the_instant_is_moved_by_the_local_offset_witness :
  instant_of (VDatetime 1483210800000000)
  = Some (1483228800000000 + local_utcoffset new_york 1483228800000000)%Z
  /\ (instant_of (VDatetime 1483210800000000) = Some 1483228800000000%Z
      <-> local_utcoffset new_york 1483228800000000 = 0%Z).
Proof.
  apply (the_instant_is_moved_by_the_local_offset new_york
           "2017-01-01T00:00:00Z" 1483228800000000
           (VDatetime 1483210800000000));
    reflexivity.
Defined.

(** No SCHEMA line has been read for the stream users. *)
Lemma a_record_without_a_schema_is_copied_witness :
  let h := [RECORD "users" (user 1 "2017-01-01T00:00:00Z")] in
  parse_record utc 0 [(VStr "events", event_schema)] h
  = (Ok 1%nat, (h ++ [user 1 "2017-01-01T00:00:00Z"])%list).
Proof.
  intros h.
  apply (a_record_without_a_schema_is_copied utc 0 [(VStr "events", event_schema)] h
           (VStr "users") (user 1 "2017-01-01T00:00:00Z"));
    reflexivity.
Defined.

(** A RECORD message without [stream]. *)
Lemma a_message_without_a_needed_key_witness :
  let line := VDict [("type", VStr "RECORD"); ("record", user 1 "x")] in
  let vars := mkLocals (offset 1) [] in
  KeyError = KeyError
  /\ process_line utc line (vars, start) = (Raise KeyError, (vars, loaded line start)).
Proof.
  intros line vars.
  apply (proj1 (proj2 (a_message_without_a_needed_key utc line vars start))
           KeyError);
    reflexivity.
Defined.

(** The record of a user under the schema of users: [updated] becomes a
    [datetime], [id] stays. *)
Lemma the_transform_only_turns_strings_into_datetimes_witness :
  let inst := user 1 "2017-01-01T00:00:00Z" in
  let inst' := snd (validate utc (extend_with_default Draft4Validator)
                      users_schema inst) in
  inst' = VDict [("id", VInt 1); ("updated", VDatetime 1483228800000000)]
  /\ coerced utc inst inst'
  /\ forall path : list string,
       match lookup_path inst path with
       | None => lookup_path inst' path = None
       | Some v =>
           exists v',
             lookup_path inst' path = Some v'
             /\ coerced utc v v'
             /\ (is_dict v = false ->
                 is_list v = false ->
                 v' = v
                 \/ exists s wall,
                      v = VStr s
                      /\ to_datetime utc v = Ok (VDatetime wall)
                      /\ v' = VDatetime wall)
       end.
Proof.
  intros inst inst'. split; [reflexivity|].
  apply (the_transform_only_turns_strings_into_datetimes utc users_schema inst).
Defined.

(** A schema with types and a required property, and no date-time: the
    string that reads as a date-time stays a string. *)
Lemma a_schema_without_date_time_leaves_the_record_witness :
  let schema := VDict [("properties",
                        VDict [("id", VDict [("type", VStr "integer")]);
                               ("seen", VDict [("type", VStr "string")])]);
                       ("required", VList [VStr "id"])] in
  let inst := VDict [("id", VInt 1); ("seen", VStr "2017-01-01T00:00:00Z")] in
  validate utc (extend_with_default Draft4Validator) schema inst
  = validate utc Draft4Validator schema inst
  /\ snd (validate utc (extend_with_default Draft4Validator) schema inst) = inst.
Proof.
  intros schema inst.
  apply (a_schema_without_date_time_leaves_the_record utc schema inst).
  reflexivity.
Defined.

(** An address may be null or an object with a date-time: the library
    accepts the null, the transform raises. *)
Lemma a_null_in_the_place_of_an_object_is_rejected_witness :
  let since := VDict [("format", VStr "date-time")] in
  let props := [("since", since)] in
  let address := VDict [("type", VList [VStr "null"; VStr "object"]);
                        ("properties", VDict props)] in
  validate utc Draft4Validator address VNone = (Ok tt, VNone)
  /\ validate utc (extend_with_default Draft4Validator) address VNone
     = (Raise TypeError, VNone)
  /\ (forall (descend : pyval -> inplace unit) (schema : pyval),
         properties_draft4 descend (VDict props) VNone schema = (Ok tt, VNone)
         /\ set_defaults utc (properties_draft4 descend) (VDict props) VNone schema
            = (Raise TypeError, VNone))
  /\ (forall keywords : list (string * pyval),
         schema_ref keywords = None ->
         In ("properties", VDict props) keywords ->
         exists e s,
           validate utc (extend_with_default Draft4Validator) (VDict keywords) VNone
           = (Raise e, s)).
Proof.
  intros since props address.
  split; [reflexivity|]. split; [reflexivity|].
  apply (a_null_in_the_place_of_an_object_is_rejected utc props "since" since VNone).
  - left. reflexivity.
  - reflexivity.
  - reflexivity.
Defined.

(** The result of the transform, given to the transform again. *)
Lemma the_transform_rejects_what_it_has_transformed_witness :
  let inst := occurrence (VStr "2017-01-01T00:00:00Z") in
  let inst' := occurrence (VDatetime 1483228800000000) in
  validate utc (extend_with_default Draft4Validator) event_schema inst = (Ok tt, inst')
  /\ validate utc (extend_with_default Draft4Validator) event_schema inst'
     = (Raise (PyException "Error parsing property at, value 1483228800000000+00:00"
                 (Some TypeError)),
        inst')
  /\ (forall inst'',
         validate utc (extend_with_default Draft4Validator) event_schema inst
         = (Ok tt, inst'') ->
         exists e s,
           validate utc (extend_with_default Draft4Validator) event_schema inst''
           = (Raise e, s))
  /\ exists e s,
       validate utc (extend_with_default Draft4Validator)
         (VDict [("allOf", VList [event_schema; event_schema])]) inst
       = (Raise e, s).
Proof.
  intros inst inst'. split; [reflexivity|]. split; [reflexivity|].
  apply (the_transform_rejects_what_it_has_transformed utc event_schema ["at"])
    with (v := VStr "2017-01-01T00:00:00Z").
  - eapply flagged_here; reflexivity.
  - reflexivity.
  - reflexivity.
Defined.

(** An array of two events, the second without a date. *)
Lemma date_times_in_arrays_are_converted_witness :
  let keywords := [("type", VStr "array"); ("items", event_schema)] in
  let elems := [occurrence (VStr "2017-01-01T00:00:00Z"); occurrence VNone] in
  validate utc (extend_with_default Draft4Validator) (VDict keywords) (VList elems)
  = (Ok tt, VList [occurrence (VDatetime 1483228800000000); occurrence VNone])
  /\ exists elems',
       VList [occurrence (VDatetime 1483228800000000); occurrence VNone] = VList elems'
       /\ Forall2
            (fun element element' =>
               forall v,
                 lookup_path element ["at"] = Some v ->
                 is_None v = false ->
                 exists wall,
                   to_datetime utc v = Ok (VDatetime wall)
                   /\ lookup_path element' ["at"] = Some (VDatetime wall))
            elems elems'.
Proof.
  intros keywords elems. split; [reflexivity|].
  apply (date_times_in_arrays_are_converted utc keywords
           [("properties", VDict [("at", VDict [("format", VStr "date-time")])])]
           ["at"] elems).
  - reflexivity.
  - reflexivity.
  - eapply flagged_here; reflexivity.
  - reflexivity.
Defined.
